(** * Swarm-telemetry notebooks: trust score, model evaluation tables

    A shallow embedding of the three notebooks under [src/ml_notebook]:

    - [R2_Evaluation_Table.ipynb]   (regression table: MAE, RMSE, R2)
    - [F1_Evaluvtion_Table.ipynb]   (classification table: accuracy,
                                     precision, recall, F1, supports)
    - [data_manipulation_attack.ipynb] (same feature engineering)

    Conventions of the embedding.

    - A pandas [DataFrame] is a finite map from column names to columns
      ([gmap string Series]); a [Series] is the list of its cells in row
      order, so the i-th row of the table is the i-th entry of every column.
    - Numeric cells are rationals ([Q]).  Python evaluates the same
      expressions in binary64; the embedding reads every decimal literal
      ([0.2], [0.85], ...) as the rational it denotes and every arithmetic
      operation as the exact one.
    - A Python exception is a value [Raise e] of the type [result]; code
      that also mutates notebook-level lists ([summary], [conf_data]) or
      prints runs in the state-and-exception type [M].
    - Everything the notebooks import from scikit-learn, Keras and the file
      system (estimators, scaler, splitter, metric functions, [read_csv])
      is a field of the record [world]; the notebooks are functions of it. *)

From Stdlib Require Import Ascii String QArith Qabs Qround Lqa.
From Stdlib Require Import Floats.SpecFloat OrderedTypeEx.
From stdpp Require Import gmap strings list fin_maps sorting.

(** ** Exceptions and effects *)

Module Py.

Inductive exn : Type :=
| KeyError (column : string)
| ValueError (msg : string)
| FileNotFoundError (path : string)
| FitError (model : string)
| ZeroDivisionError.

Inductive result (A : Type) : Type :=
| Ok (a : A)
| Raise (e : exn).

Arguments Ok {A} a.
Arguments Raise {A} e.

Definition rbind {A B : Type} (r : result A) (k : A → result B) : result B :=
  match r with
  | Ok a => k a
  | Raise e => Raise e
  end.

(** [mapM] for [result]: the first exception wins. *)
Fixpoint rmap {A B : Type} (f : A → result B) (xs : list A) : result (list B) :=
  match xs with
  | [] => Ok []
  | x :: xs' =>
      rbind (f x) (λ y, rbind (rmap f xs') (λ ys, Ok (y :: ys)))
  end.

(** State and exceptions: the state survives an exception, as the
    notebook-level lists survive an aborted cell. *)
Definition M (St A : Type) : Type := St → St * result A.

Definition ret {St A : Type} (a : A) : M St A := λ s, (s, Ok a).

Definition bind {St A B : Type} (m : M St A) (k : A → M St B) : M St B :=
  λ s, match m s with
       | (s', Ok a) => k a s'
       | (s', Raise e) => (s', Raise e)
       end.

Definition lift {St A : Type} (r : result A) : M St A := λ s, (s, r).

Definition modify {St : Type} (f : St → St) : M St unit := λ s, (f s, Ok tt).

Definition gets {St A : Type} (f : St → A) : M St A := λ s, (s, Ok (f s)).

(** The line feed of an f-string's backslash-n. *)
Definition nl : string := String "010"%char "".

(** [for x in xs: body(x)] *)
Fixpoint for_each {St A : Type} (xs : list A) (body : A → M St unit) : M St unit :=
  match xs with
  | [] => ret tt
  | x :: xs' => bind (body x) (λ _, for_each xs' body)
  end.

End Py.

Import Py.

Notation "'let!' x ':=' r 'in' k" := (rbind r (λ x, k))
  (at level 10, x name, r at level 100, k at level 200, only parsing).
Notation "'let!' ' p ':=' r 'in' k" := (rbind r (λ x, match x with p => k end))
  (at level 10, p pattern, r at level 100, k at level 200, only parsing).
Notation "'let*' x ':=' m 'in' k" := (bind m (λ x, k))
  (at level 10, x name, m at level 100, k at level 200, only parsing).
Notation "'let*' ' p ':=' m 'in' k" := (bind m (λ x, match x with p => k end))
  (at level 10, p pattern, m at level 100, k at level 200, only parsing).
Notation "m ';;' k" := (bind m (λ _, k))
  (at level 100, k at level 200, right associativity, only parsing).

(** ** Tables *)

Abbreviation Series := (list Q).
Abbreviation DataFrame := (gmap string Series).

Module Frame.

(** [df[c]] *)
Definition getitem (df : DataFrame) (c : string) : result Series :=
  match df !! c with
  | Some s => Ok s
  | None => Raise (KeyError c)
  end.

(** [df[c] = s] *)
Definition setitem (df : DataFrame) (c : string) (s : Series) : DataFrame :=
  <[c := s]> df.

(** [df[cols]]: the selected columns, in the order asked for. *)
Definition select (df : DataFrame) (cols : list string) : result (list Series) :=
  rmap (getitem df) cols.

(** The cell of column [c] in row [i]. *)
Definition cell (df : DataFrame) (c : string) (i : nat) : option Q :=
  df !! c ≫= (.!! i).

(** Every column of the table has [n] cells. *)
Definition has_rows (df : DataFrame) (n : nat) : Prop :=
  ∀ c s, df !! c = Some s → length s = n.

(** Row-major view of a list of columns ([.values] of a selection). *)
Definition rows_of (cols : list Series) : list (list Q) :=
  match cols with
  | [] => []
  | c :: _ => (λ i, (λ col, nth i col 0%Q) <$> cols) <$> seq 0 (length c)
  end.

Local Open Scope Q_scope.

(** Element-wise arithmetic of columns and scalars. *)
Definition truediv (s : Series) (k : Q) : Series := (λ x, x / k) <$> s.
Definition rsub (k : Q) (s : Series) : Series := (λ x, k - x) <$> s.
Definition rmul (k : Q) (s : Series) : Series := (λ x, k * x) <$> s.
Definition mul (s t : Series) : Series := zip_with Qmult s t.
Definition add (s t : Series) : Series := zip_with Qplus s t.

End Frame.

Import Frame.

(** ** Feature engineering

    The three notebooks derive the same three columns with the same
    statements ([preprocess], lines 35-45 of the R2 notebook; lines 59-69
    of the F1 notebook; lines 28-40 of the data-manipulation notebook). *)

Module Features.

Local Open Scope Q_scope.

Definition trust_score_column
    (latency loss sensor bln sic closeness eigen : Series) : Series :=
  add (add (add (add (add (add
    (rmul 0.2 (rsub 1 latency))
    (rmul 0.1 (rsub 1 loss)))
    (rmul 0.2 sensor))
    (rmul 0.1 bln))
    (rmul 0.2 sic))
    (rmul 0.1 closeness))
    (rmul 0.1 eigen).

Definition feature_engineering (df : DataFrame) : result DataFrame :=
  let! battery := getitem df "Battery Level" in
  let df := setitem df "Battery Level Norm" (truediv battery 100) in
  let! intensity := getitem df "Communication Intensity" in
  let! scale := getitem df "Communication Scale" in
  let df := setitem df "Scale-Intensity Centrality" (mul intensity scale) in
  let! latency := getitem df "Latency" in
  let! loss := getitem df "Packet Loss" in
  let! sensor := getitem df "Sensor Functionality" in
  let! bln := getitem df "Battery Level Norm" in
  let! sic := getitem df "Scale-Intensity Centrality" in
  let! closeness := getitem df "Closeness Centrality" in
  let! eigen := getitem df "Eigenvector Centrality" in
  Ok (setitem df "Trust Score"
        (trust_score_column latency loss sensor bln sic closeness eigen)).

Definition features : list string :=
  [ "Trust Score"; "Latency"; "Packet Loss"; "Relative Speed";
    "Location Accuracy"; "Battery Level Norm";
    "Scale-Intensity Centrality"; "Closeness Centrality" ]%string.

(** [preprocess(df)] of the R2 notebook.  The function assigns into its
    argument; the first component of the result is that table after the
    call, the other two are the returned [X] and [y]. *)
Definition preprocess (df : DataFrame)
  : result (DataFrame * list Series * Series) :=
  let! df := feature_engineering df in
  let! X := select df features in
  let! y := getitem df "Swarm Coordination Rate" in
  Ok (df, X, y).

(** The same computation on the cells of one row. *)
Definition battery_level_norm (battery : Q) : Q := battery / 100.

Definition scale_intensity (intensity scale : Q) : Q := intensity * scale.

Definition trust_score
    (latency loss sensor bln sic closeness eigen : Q) : Q :=
  0.2 * (1 - latency) + 0.1 * (1 - loss) + 0.2 * sensor + 0.1 * bln
  + 0.2 * sic + 0.1 * closeness + 0.1 * eigen.

(** The weights as they stand in the expression, in its order, and the
    seven terms they multiply. *)
Definition trust_weights : list Q := [0.2; 0.1; 0.2; 0.1; 0.2; 0.1; 0.1].

Definition trust_terms
    (latency loss sensor bln sic closeness eigen : Q) : list Q :=
  [1 - latency; 1 - loss; sensor; bln; sic; closeness; eigen].

Definition Qsum (l : list Q) : Q := foldr Qplus 0 l.

Definition derived_columns : list string :=
  ["Battery Level Norm"; "Scale-Intensity Centrality"; "Trust Score"]%string.

Definition raw_columns : list string :=
  [ "Battery Level"; "Communication Intensity"; "Communication Scale";
    "Latency"; "Packet Loss"; "Sensor Functionality";
    "Closeness Centrality"; "Eigenvector Centrality" ]%string.

End Features.

(** ** The trust score in binary64

    The cell-level expression once more, in the arithmetic Python runs it
    in: IEEE 754 binary64 with round-to-nearest-even, as specified by
    [SpecFloat].  A decimal literal is the binary64 number nearest to it,
    which is the correctly rounded quotient of its numerator and
    denominator. *)

Module Binary64.

Definition prec : Z := 53.
Definition emax : Z := 1024.

Definition add : spec_float → spec_float → spec_float := SFadd prec emax.
Definition sub : spec_float → spec_float → spec_float := SFsub prec emax.
Definition mul : spec_float → spec_float → spec_float := SFmul prec emax.
Definition div : spec_float → spec_float → spec_float := SFdiv prec emax.

Definition of_Z (z : Z) : spec_float := binary_normalize prec emax z 0 false.

Definition literal (numerator denominator : Z) : spec_float :=
  div (of_Z numerator) (of_Z denominator).

Definition lit_0_2 : spec_float := literal 2 10.
Definition lit_0_1 : spec_float := literal 1 10.
Definition one : spec_float := of_Z 1.

Definition battery_level_norm (battery : spec_float) : spec_float :=
  div battery (of_Z 100).

Definition trust_score
    (latency loss sensor bln sic closeness eigen : spec_float) : spec_float :=
  add (add (add (add (add (add
    (mul lit_0_2 (sub one latency))
    (mul lit_0_1 (sub one loss)))
    (mul lit_0_2 sensor))
    (mul lit_0_1 bln))
    (mul lit_0_2 sic))
    (mul lit_0_1 closeness))
    (mul lit_0_1 eigen).

Definition trust_weights : list spec_float :=
  [lit_0_2; lit_0_1; lit_0_2; lit_0_1; lit_0_2; lit_0_1; lit_0_1].

(** The sum of a non-empty list in its order, from the left. *)
Definition sum (l : list spec_float) : spec_float :=
  match l with
  | [] => S754_zero false
  | x :: l' => foldl add x l'
  end.

End Binary64.

(** ** What the notebooks import

    The library functions the notebooks call, with the arguments the
    notebooks pass. *)

Module Sklearn.

Abbreviation matrix := (list (list Q)).
Abbreviation tensor := (list (list (list Q))).

(** A Keras layer as written in the [Sequential([...])] lists. *)
Inductive layer : Type :=
| Input (steps channels : nat)
| Conv1D (filters kernel_size : nat) (activation : string)
| Flatten
| Dense (units : nat) (activation : option string).

Record world : Type := {
  (** [pd.read_csv(path)] *)
  read_csv : string → result DataFrame;
  (** [MinMaxScaler().fit_transform(X)] *)
  fit_transform : matrix → result matrix;
  (** [train_test_split(X, y, test_size=.., random_state=..)], giving
      [(X_train, X_test, y_train, y_test)] *)
  train_test_split :
    ∀ A B : Type, list A → list B → Q → Z →
                  result (list A * list A * list B * list B);
  (** [RandomForestRegressor(n_estimators=.., random_state=..)] *)
  rf_model : Type;
  rf_fit : nat → Z → matrix → Series → result rf_model;
  rf_predict : rf_model → matrix → list Q;
  (** [SVR(kernel=.., C=.., epsilon=..)] *)
  svr_model : Type;
  svr_fit : string → Q → Q → matrix → Series → result svr_model;
  svr_predict : svr_model → matrix → list Q;
  (** [Sequential(layers)], compiled with [Adam(lr)] and a loss, fitted
      with [epochs] and [batch_size] *)
  keras_model : Type;
  keras_fit : list layer → Q → string → nat → nat →
              tensor → Series → result keras_model;
  keras_predict : keras_model → tensor → matrix;
  (** [sklearn.metrics] of the R2 notebook; the boolean of
      [mean_squared_error] is its [squared] argument *)
  mean_absolute_error : Series → list Q → result Q;
  mean_squared_error : Series → list Q → bool → result Q;
  r2_score : Series → list Q → result Q
}.

(** [X.reshape((X.shape[0], X.shape[1], 1))] *)
Definition reshape (X : matrix) : tensor :=
  (λ row : list Q, (λ x : Q, [x]) <$> row) <$> X.

(** [X.shape[1]] of an array with at least one row. *)
Definition shape1 {A : Type} (X : list (list A)) : nat :=
  match X with
  | [] => 0
  | row :: _ => length row
  end.

(** [a.flatten()] *)
Definition flatten (a : matrix) : list Q := concat a.

End Sklearn.

Import Sklearn.

(** ** Numbers *)

Module Num.

Local Open Scope Q_scope.

Definition Qltb (a b : Q) : bool :=
  match Qcompare a b with
  | Lt => true
  | _ => false
  end.

(** Round half to even. *)
Definition rint (x : Q) : Z :=
  let f := Qfloor x in
  match Qcompare (x - inject_Z f) (1 # 2) with
  | Lt => f
  | Gt => (f + 1)%Z
  | Eq => if Z.even f then f else (f + 1)%Z
  end.

(** [round(x, ndigits)] on the exact value: the nearest multiple of
    [10 ^ -ndigits], a tie going to the even one.  The notebooks round
    binary64 numbers, where a value on a tie, or next to one, can go to the
    other neighbour; the bounds proved of reported values below hold for
    either neighbour. *)
Definition py_round (x : Q) (ndigits : nat) : Q :=
  let scale := inject_Z (10 ^ Z.of_nat ndigits) in
  inject_Z (rint (x * scale)) / scale.

(** [a / b] on integer counts.  A zero divisor is reported as
    [ZeroDivisionError]: there is no rational to return for it (numpy
    returns nan there, with a warning). *)
Definition true_divide (a b : Z) : result Q :=
  if (b =? 0)%Z then Raise ZeroDivisionError
  else Ok (inject_Z a / inject_Z b).

(** [a / b] on floats, likewise. *)
Definition float_divide (a b : Q) : result Q :=
  if Qeq_bool b 0 then Raise ZeroDivisionError else Ok (a / b).

(** [(s >= threshold).astype(int)] *)
Definition binarize (threshold : Q) (s : list Q) : list Z :=
  (λ y, if Qle_bool threshold y then 1%Z else 0%Z) <$> s.

(** [np.unique(a)]: the distinct values, sorted. *)
Definition np_unique (a : list Z) : list Z := merge_sort Z.le (remove_dups a).

End Num.

Import Num.

(** ** The F1 notebook: classification table *)

Module F1.

Local Open Scope Q_scope.

Definition file_paths : list (string * string) :=
  [ ("Critical Node",
     "C:/Users/Documents/AirSim/drone_simulation_log_critical_node.csv");
    ("Data Manipulation",
     "C:/Users/Documents/AirSim/drone_simulation_log_data_manipulation.csv");
    ("MITM Attack", "C:/Users/danis/AirSim/drone_simulation_log_mitm.csv");
    ("Sybil Attack", "C:/Users/Documents/AirSim/drone_sybil_attack.csv") ]%string.

(** A 2x2 confusion matrix; [cRP] counts the rows of true class [R] and
    predicted class [P]. *)
Record cm : Type := { c00 : Z; c01 : Z; c10 : Z; c11 : Z }.

(** [cm.ravel()] *)
Definition ravel (c : cm) : Z * Z * Z * Z := (c00 c, c01 c, c10 c, c11 c).

Definition count_cell (t p : Z) (y_true y_pred : list Z) : Z :=
  Z.of_nat (length (List.filter (λ ab : Z * Z, (ab.1 =? t)%Z && (ab.2 =? p)%Z)
                                (zip y_true y_pred))).

(** [confusion_matrix(y_true, y_pred, labels=[l0, l1])]: samples of unequal
    number are refused, and so are labels of which none occurs in a
    non-empty [y_true]; rows with a class outside the labels are not
    counted. *)
Definition confusion_matrix (y_true y_pred : list Z) (labels : Z * Z)
  : result cm :=
  let '(l0, l1) := labels in
  if negb (length y_true =? length y_pred)%nat then
    Raise (ValueError "Found input variables with inconsistent numbers of samples")
  else if bool_decide (y_true ≠ [] ∧ (l0 ∉ y_true) ∧ (l1 ∉ y_true)) then
    Raise (ValueError "At least one label specified must be in y_true")
  else
    Ok {| c00 := count_cell l0 l0 y_true y_pred;
          c01 := count_cell l0 l1 y_true y_pred;
          c10 := count_cell l1 l0 y_true y_pred;
          c11 := count_cell l1 l1 y_true y_pred |}.

Record metrics_row : Type := {
  Attack : string;
  Model : string;
  Accuracy : Q;
  Precision : Q;
  Recall : Q;
  F1_Score : Q;
  Support_Malicious : Z;
  Support_Trustworthy : Z
}.

Record state : Type := {
  stdout : list string;
  conf_data : list (string * string * cm);
  metrics_data : list metrics_row
}.

Definition init : state :=
  {| stdout := []; conf_data := []; metrics_data := [] |}.

Definition print (line : string) : M state unit :=
  modify (λ s, {| stdout := stdout s ++ [line];
                  conf_data := conf_data s;
                  metrics_data := metrics_data s |}).

Definition set_conf_data (l : list (string * string * cm)) : M state unit :=
  modify (λ s, {| stdout := stdout s; conf_data := l;
                  metrics_data := metrics_data s |}).

Definition set_metrics_data (l : list metrics_row) : M state unit :=
  modify (λ s, {| stdout := stdout s; conf_data := conf_data s;
                  metrics_data := l |}).

(** [conf_data.append(x)] *)
Definition conf_data_append (x : string * string * cm) : M state unit :=
  modify (λ s, {| stdout := stdout s; conf_data := conf_data s ++ [x];
                  metrics_data := metrics_data s |}).

(** [metrics_data.append(x)] *)
Definition metrics_data_append (x : metrics_row) : M state unit :=
  modify (λ s, {| stdout := stdout s; conf_data := conf_data s;
                  metrics_data := metrics_data s ++ [x] |}).

(** Lines 106-109. *)
Definition precision_of (tp fp : Z) : result Q :=
  if (0 <? tp + fp)%Z then true_divide tp (tp + fp) else Ok 0.0.

Definition recall_of (tp fn : Z) : result Q :=
  if (0 <? tp + fn)%Z then true_divide tp (tp + fn) else Ok 0.0.

Definition f1_of (precision recall : Q) : result Q :=
  if Qltb 0 (precision + recall)
  then float_divide (2 * (precision * recall)) (precision + recall)
  else Ok 0.0.

Definition accuracy_of (tn fp fn tp : Z) : result Q :=
  true_divide (tp + tn) (tp + tn + fp + fn).

(** The body of the loop of lines 103-123, up to the [append]. *)
Definition metrics_of (attack model : string) (c : cm) : result metrics_row :=
  let '(tn, fp, fn, tp) := ravel c in
  let! precision := precision_of tp fp in
  let! recall := recall_of tp fn in
  let! f1 := f1_of precision recall in
  let! accuracy := accuracy_of tn fp fn tp in
  let support_0 := (tn + fp)%Z in
  let support_1 := (fn + tp)%Z in
  Ok {| Attack := attack;
        Model := model;
        Accuracy := py_round accuracy 4;
        Precision := py_round precision 4;
        Recall := py_round recall 4;
        F1_Score := py_round f1 4;
        Support_Malicious := support_0;
        Support_Trustworthy := support_1 |}.

Section Notebook.

Context (W : world).

Definition model_rf (X_train : matrix) (y_train : Series) (X_all : matrix)
  : result (list Q) :=
  let! model := rf_fit W 100 42 X_train y_train in
  Ok (rf_predict W model X_all).

Definition model_svm (X_train : matrix) (y_train : Series) (X_all : matrix)
  : result (list Q) :=
  let! model := svr_fit W "rbf" 100 0.0005 X_train y_train in
  Ok (svr_predict W model X_all).

Definition model_cnn (X_train : tensor) (y_train : Series) (X_all : tensor)
  : result (list Q) :=
  let layers :=
    [ Input (shape1 X_train) 1;
      Conv1D 64 2 "relu";
      Conv1D 32 2 "relu";
      Flatten;
      Dense 64 (Some "relu"%string);
      Dense 1 (Some "sigmoid"%string) ] in
  let! model := keras_fit W layers 0.001 "mse" 30 8 X_train y_train in
  Ok (flatten (keras_predict W model X_all)).

(** The inner loop of lines 95-98. *)
Definition collect (attack : string) (y_binary : list Z)
    (preds_dict : list (string * list Q)) : M state unit :=
  for_each preds_dict (λ '(model_name, preds),
    let y_pred := binarize 0.85 preds in
    let* c := lift (confusion_matrix y_binary y_pred (0, 1)%Z) in
    conf_data_append (attack, model_name, c)).

(** The body of the loop of lines 54-98 for one entry of [file_paths]. *)
Definition process (attack path : string) : M state unit :=
  print (nl +:+ "📌 Processing: " +:+ attack) ;;
  let* df := lift (read_csv W path) in
  let* df := lift (Features.feature_engineering df) in
  let* y_true := lift (getitem df "Swarm Coordination Rate") in
  let y_binary := binarize 0.85 y_true in
  if (length (np_unique y_binary) <? 2)%nat then
    print ("⚠️ Skipping " +:+ attack +:+ ": insufficient class diversity")
  else
    let* X := lift (select df Features.features) in
    let* X_scaled := lift (fit_transform W (rows_of X)) in
    let X_reshaped := reshape X_scaled in
    let* '(X_train, _, y_train, _) :=
      lift (train_test_split W _ _ X_scaled y_binary 0.2 42%Z) in
    let* '(X_train_r, _, y_train_r, _) :=
      lift (train_test_split W _ _ X_reshaped y_binary 0.2 42%Z) in
    let* p_rf := lift (model_rf X_train (inject_Z <$> y_train) X_scaled) in
    let* p_svm := lift (model_svm X_train (inject_Z <$> y_train) X_scaled) in
    let* p_cnn :=
      lift (model_cnn X_train_r (inject_Z <$> y_train_r) X_reshaped) in
    let preds_dict :=
      [ ("Random Forest", p_rf); ("SVM", p_svm); ("CNN", p_cnn) ]%string in
    collect attack y_binary preds_dict.

(** Lines 52-98 over a dictionary of scenarios. *)
Definition collect_all (paths : list (string * string)) : M state unit :=
  set_conf_data [] ;;
  for_each paths (λ '(attack, path), process attack path).

(** Lines 101-125: the table [metrics_df]. *)
Definition metrics_table : M state (list metrics_row) :=
  set_metrics_data [] ;;
  let* cd := gets conf_data in
  for_each cd (λ '(attack, model, c),
    let* row := lift (metrics_of attack model c) in
    metrics_data_append row) ;;
  gets metrics_data.

Definition notebook_on (paths : list (string * string))
  : M state (list metrics_row) :=
  collect_all paths ;;
  metrics_table.

Definition notebook : M state (list metrics_row) := notebook_on file_paths.

End Notebook.

End F1.

(** ** The R2 notebook: regression table *)

Module R2.

Local Open Scope Q_scope.

Definition attack_files : list (string * string) :=
  [ ("Critical Node",
     "C:/Users/Documents/AirSim/drone_simulation_log_critical_node.csv");
    ("Data Manipulation",
     "C:/Users/Documents/AirSim/drone_simulation_log_data_manipulation.csv");
    ("MITM Attack", "C:/Users/Documents/AirSim/drone_simulation_log_mitm.csv");
    ("Sybil Attack", "C:/Users/Documents/AirSim/drone_sybil_attack.csv") ]%string.

Record summary_row : Type := {
  Attack : string;
  Model : string;
  MAE : Q;
  RMSE : Q;
  R2_Score : Q
}.

Record state : Type := {
  stdout : list string;
  summary : list summary_row
}.

Definition init : state := {| stdout := []; summary := [] |}.

Definition print (line : string) : M state unit :=
  modify (λ s, {| stdout := stdout s ++ [line]; summary := summary s |}).

Definition set_summary (l : list summary_row) : M state unit :=
  modify (λ s, {| stdout := stdout s; summary := l |}).

(** [summary.append(x)] *)
Definition summary_append (x : summary_row) : M state unit :=
  modify (λ s, {| stdout := stdout s; summary := summary s ++ [x] |}).

(** [sort_values(by=["Attack", "R2 Score"], ascending=[True, False])]:
    a stable sort on the scenario name, ascending, then on the R2 score,
    descending.  [before a b] says that [a] may stand before [b]. *)
Definition before (a b : summary_row) : bool :=
  match String.compare (Attack a) (Attack b) with
  | Lt => true
  | Gt => false
  | Eq => Qle_bool (R2_Score b) (R2_Score a)
  end.

Fixpoint insert_row (r : summary_row) (l : list summary_row)
  : list summary_row :=
  match l with
  | [] => [r]
  | x :: l' => if before r x then r :: l else x :: insert_row r l'
  end.

Definition sort_values (l : list summary_row) : list summary_row :=
  foldr insert_row [] l.

Section Notebook.

Context (W : world).

Definition model_rf (X_train : matrix) (y_train : Series) (X_all : matrix)
  : result (list Q) :=
  let! model := rf_fit W 100 42 X_train y_train in
  Ok (rf_predict W model X_all).

Definition model_svm (X_train : matrix) (y_train : Series) (X_all : matrix)
  : result (list Q) :=
  let! model := svr_fit W "rbf" 100 0.0005 X_train y_train in
  Ok (svr_predict W model X_all).

Definition model_cnn (X_train : tensor) (y_train : Series) (X_all : tensor)
  : result (list Q) :=
  let layers :=
    [ Input (shape1 X_train) 1;
      Conv1D 64 2 "relu";
      Conv1D 32 2 "relu";
      Flatten;
      Dense 64 (Some "relu"%string);
      Dense 1 None ] in
  let! model := keras_fit W layers 0.001 "mse" 50 8 X_train y_train in
  Ok (flatten (keras_predict W model X_all)).

(** The inner loop of lines 95-105. *)
Definition score (attack_name : string) (y : Series)
    (models : list (string * list Q)) : M state unit :=
  for_each models (λ '(model_name, preds),
    let* mae := lift (mean_absolute_error W y preds) in
    let* rmse := lift (mean_squared_error W y preds false) in
    let* r2 := lift (r2_score W y preds) in
    summary_append {| Attack := attack_name;
                      Model := model_name;
                      MAE := py_round mae 6;
                      RMSE := py_round rmse 6;
                      R2_Score := py_round r2 4 |}).

(** The body of the loop of lines 77-105 for one entry of [attack_files]. *)
Definition process (attack_name path : string) : M state unit :=
  print (nl +:+ " Processing: " +:+ attack_name) ;;
  let* df := lift (read_csv W path) in
  let* '(_, X, y) := lift (Features.preprocess df) in
  let* X_scaled := lift (fit_transform W (rows_of X)) in
  let X_reshaped := reshape X_scaled in
  let* '(X_train, X_test, y_train, y_test) :=
    lift (train_test_split W _ _ X_scaled y 0.2 42%Z) in
  let* '(X_train_r, X_test_r, _, _) :=
    lift (train_test_split W _ _ X_reshaped y 0.2 42%Z) in
  let* p_svm := lift (model_svm X_train y_train X_scaled) in
  let* p_rf := lift (model_rf X_train y_train X_scaled) in
  let* p_cnn := lift (model_cnn X_train_r y_train X_reshaped) in
  let models :=
    [ ("SVM (SVR)", p_svm); ("Random Forest", p_rf); ("CNN", p_cnn) ]%string in
  score attack_name y models.

(** Lines 75-105 over a dictionary of scenarios. *)
Definition evaluate (files : list (string * string)) : M state unit :=
  set_summary [] ;;
  for_each files (λ '(attack_name, path), process attack_name path).

(** Lines 108-109: the table [results_df].  [pd.DataFrame([])] has no
    columns, and sorting it by ["Attack", "R2 Score"] raises the KeyError
    of the first key. *)
Definition results_table : M state (list summary_row) :=
  let* rows := gets summary in
  match rows with
  | [] => lift (Raise (KeyError "Attack"))
  | _ :: _ => ret (sort_values rows)
  end.

Definition notebook_on (files : list (string * string))
  : M state (list summary_row) :=
  evaluate files ;;
  results_table.

Definition notebook : M state (list summary_row) := notebook_on attack_files.

End Notebook.

End R2.

(** ** Concrete tables and a concrete world

    Small inputs on which the notebooks are run in the examples below.  The
    estimators of [toy_world] are stand-ins with the interface of the
    library's: each predicts by a fixed rule on the row. *)

Module Examples.

Local Open Scope Q_scope.

Definition table (columns : list (string * Series)) : DataFrame :=
  list_to_map columns.

(** Three rows; the binarized target is [1; 1; 0]. *)
Definition sample_frame : DataFrame :=
  table
    [ ("Battery Level", [100; 80; 55]);
      ("Communication Intensity", [1; 0.5; 0.9]);
      ("Communication Scale", [1; 0.5; 0.3]);
      ("Latency", [0; 0.1; 0.2]);
      ("Packet Loss", [0; 0.05; 0.5]);
      ("Sensor Functionality", [1; 0.9; 0.4]);
      ("Closeness Centrality", [1; 0.5; 0.2]);
      ("Eigenvector Centrality", [1; 0.4; 0.3]);
      ("Relative Speed", [1.5; 2; 0.3]);
      ("Location Accuracy", [0.9; 0.8; 0.7]);
      ("Iteration", [0; 1; 2]);
      ("Swarm Coordination Rate", [0.9; 0.86; 0.5]) ]%string.

(** The same table with a [Trust Score] column already in the file. *)
Definition scored_frame : DataFrame :=
  <["Trust Score"%string := [5; 5; 5]]> sample_frame.

(** Every coordination rate is at least 0.85: one class only. *)
Definition flat_frame : DataFrame :=
  <["Swarm Coordination Rate"%string := [0.9; 0.95; 0.85]]> sample_frame.

(** A table that makes the stand-in SVR fail to fit: its first row has
    an empty battery. *)
Definition hard_frame : DataFrame :=
  <["Battery Level"%string := [0; 80; 55]]> sample_frame.

Definition files : list (string * DataFrame) :=
  [ ("C:/Users/Documents/AirSim/drone_simulation_log_critical_node.csv",
     sample_frame);
    ("C:/Users/Documents/AirSim/drone_simulation_log_data_manipulation.csv",
     sample_frame);
    ("C:/Users/danis/AirSim/drone_simulation_log_mitm.csv", flat_frame);
    ("C:/Users/Documents/AirSim/drone_simulation_log_mitm.csv", flat_frame);
    ("C:/Users/Documents/AirSim/drone_sybil_attack.csv", sample_frame) ]%string.

(** As [files], but the first scenario's log is [hard_frame]. *)
Definition files_hard : list (string * DataFrame) :=
  [ ("C:/Users/Documents/AirSim/drone_simulation_log_critical_node.csv",
     hard_frame);
    ("C:/Users/Documents/AirSim/drone_simulation_log_data_manipulation.csv",
     sample_frame);
    ("C:/Users/danis/AirSim/drone_simulation_log_mitm.csv", sample_frame);
    ("C:/Users/Documents/AirSim/drone_simulation_log_mitm.csv", sample_frame);
    ("C:/Users/Documents/AirSim/drone_sybil_attack.csv", sample_frame) ]%string.

Definition toy_read_csv (fs : list (string * DataFrame)) (path : string)
  : result DataFrame :=
  match (list_to_map fs : gmap string DataFrame) !! path with
  | Some df => Ok df
  | None => Raise (FileNotFoundError path)
  end.

(** The last [ceil(n * test_size)] samples are held out, without a
    shuffle; an empty training part is refused. *)
Definition toy_split (A B : Type) (X : list A) (y : list B)
    (test_size : Q) (random_state : Z)
  : result (list A * list A * list B * list B) :=
  let n := length X in
  let n_test := Z.to_nat (Qceiling (inject_Z (Z.of_nat n) * test_size)) in
  let n_train := (n - n_test)%nat in
  if (n_train =? 0)%nat then Raise (ValueError "the resulting train set will be empty")
  else Ok (take n_train X, drop n_train X, take n_train y, drop n_train y).

Definition mean (l : list Q) : Q :=
  Qred (foldr Qplus 0 l / inject_Z (Z.of_nat (length l))).

Definition Qabs_diff (a b : Q) : Q := Qabs (a - b).

Definition toy_mae (y p : list Q) : result Q :=
  if negb (length y =? length p)%nat then Raise (ValueError "inconsistent numbers of samples")
  else Ok (mean (zip_with Qabs_diff y p)).

Definition toy_mse (y p : list Q) : Q :=
  mean (zip_with (λ a b, (a - b) * (a - b)) y p).

(** Square root to six decimals, rounded down. *)
Definition toy_sqrt (x : Q) : Q :=
  inject_Z (Z.sqrt (Qfloor (x * 1000000000000))) / 1000000.

Definition toy_mean_squared_error (y p : list Q) (squared : bool) : result Q :=
  if negb (length y =? length p)%nat then Raise (ValueError "inconsistent numbers of samples")
  else Ok (if squared then toy_mse y p else toy_sqrt (toy_mse y p)).

Definition toy_r2 (y p : list Q) : result Q :=
  if negb (length y =? length p)%nat then Raise (ValueError "inconsistent numbers of samples")
  else
    let m := mean y in
    let ss_res := foldr Qplus 0 (zip_with (λ a b, (a - b) * (a - b)) y p) in
    let ss_tot := foldr Qplus 0 ((λ a, (a - m) * (a - m)) <$> y) in
    Ok (if Qeq_bool ss_tot 0 then 0 else Qred (1 - ss_res / ss_tot)).

(** The stand-in estimators: the forest predicts the mean of its training
    targets, the SVR a constant zero, the network the first feature of the
    row (the trust score).  The SVR refuses a training set whose first
    row has a zero in its sixth feature (the battery level norm). *)
Definition toy_svr_fit (kernel : string) (C epsilon : Q)
    (X_train : matrix) (y_train : Series) : result unit :=
  match X_train with
  | row :: _ => if Qeq_bool (nth 5 row 1) 0 then Raise (FitError "SVR") else Ok tt
  | [] => Ok tt
  end.

Definition toy_world (fs : list (string * DataFrame)) : world :=
  {| read_csv := toy_read_csv fs;
     fit_transform := λ X, Ok X;
     train_test_split := toy_split;
     rf_model := Q;
     rf_fit := λ _ _ _ y_train, Ok (mean y_train);
     rf_predict := λ m X, (λ _ : list Q, m) <$> X;
     svr_model := unit;
     svr_fit := toy_svr_fit;
     svr_predict := λ _ X, (λ _ : list Q, 0) <$> X;
     keras_model := unit;
     keras_fit := λ _ _ _ _ _ _ _, Ok tt;
     keras_predict := λ _ X, (λ row : list (list Q), nth 0 row [0]) <$> X;
     mean_absolute_error := toy_mae;
     mean_squared_error := toy_mean_squared_error;
     r2_score := toy_r2 |}.

End Examples.

(** * Properties of the feature engineering *)

Module FeaturesSpec.

Import Features Examples.

Local Open Scope Q_scope.

(** ** Cells and columns *)

Lemma cell_Some (df : DataFrame) c i v :
  cell df c i = Some v ↔ ∃ col : Series, df !! c = Some col ∧ col !! i = Some v.
Proof.
  unfold cell. destruct (df !! c) as [col|]; simpl; split.
  - eauto.
  - by intros (? & [= <-] & ?).
  - done.
  - by intros (? & ? & ?).
Qed.

Lemma cell_setitem_eq (df : DataFrame) c s i :
  cell (setitem df c s) c i = s !! i.
Proof. unfold cell, setitem. by rewrite lookup_insert_eq. Qed.

Lemma cell_setitem_ne (df : DataFrame) c c' s i :
  c ≠ c' → cell (setitem df c s) c' i = cell df c' i.
Proof. intros. unfold cell, setitem. by rewrite lookup_insert_ne. Qed.

Lemma getitem_Ok (df : DataFrame) c s : getitem df c = Ok s ↔ df !! c = Some s.
Proof. unfold getitem. destruct (df !! c); split; congruence. Qed.

(** The column expression computes, row by row, the cell expression. *)
Lemma trust_score_column_lookup latency loss sensor bln sic closeness eigen i
    (l p s b c cc e : Q) :
  latency !! i = Some l → loss !! i = Some p → sensor !! i = Some s →
  bln !! i = Some b → sic !! i = Some c → closeness !! i = Some cc →
  eigen !! i = Some e →
  trust_score_column latency loss sensor bln sic closeness eigen !! i
  = Some (trust_score l p s b c cc e).
Proof.
  intros Hl Hp Hs Hb Hc Hcc He.
  unfold trust_score_column, add, rmul, rsub.
  rewrite !lookup_zip_with, !list_lookup_fmap.
  by rewrite Hl, Hp, Hs, Hb, Hc, Hcc, He.
Qed.

Lemma trust_score_column_length latency loss sensor bln sic closeness eigen n :
  length latency = n → length loss = n → length sensor = n →
  length bln = n → length sic = n → length closeness = n →
  length eigen = n →
  length (trust_score_column latency loss sensor bln sic closeness eigen) = n.
Proof.
  intros. unfold trust_score_column, add, rmul, rsub.
  rewrite !length_zip_with, !length_fmap. lia.
Qed.

Lemma trust_score_bounds l p s b c cc e :
  0 <= l <= 1 → 0 <= p <= 1 → 0 <= s <= 1 → 0 <= b <= 1 → 0 <= c <= 1 →
  0 <= cc <= 1 → 0 <= e <= 1 →
  0 <= trust_score l p s b c cc e <= 1.
Proof. unfold trust_score. intros. split; lra. Qed.

(** Membership of a name in a list of names written out. *)
Ltac in_columns :=
  unfold raw_columns, derived_columns; rewrite !elem_of_cons; auto 10.

(** Goals of the form "each column of this list is in that concrete
    table", one column at a time. *)
Ltac by_columns :=
  let c := fresh "c" in
  let Hc := fresh "Hc" in
  intros c Hc;
  repeat (apply elem_of_cons in Hc as [->|Hc];
          [eexists; vm_compute; reflexivity|]);
  by apply elem_of_nil in Hc.

(** ** What [feature_engineering] returns *)

(** The table after the three assignments. *)
Definition engineered (df : DataFrame)
    (battery intensity scale latency loss sensor closeness eigen : Series)
  : DataFrame :=
  setitem
    (setitem (setitem df "Battery Level Norm" (truediv battery 100))
       "Scale-Intensity Centrality" (mul intensity scale))
    "Trust Score"
    (trust_score_column latency loss sensor (truediv battery 100)
       (mul intensity scale) closeness eigen).

Lemma feature_engineering_Ok (df : DataFrame)
    battery intensity scale latency loss sensor closeness eigen :
  df !! "Battery Level"%string = Some battery →
  df !! "Communication Intensity"%string = Some intensity →
  df !! "Communication Scale"%string = Some scale →
  df !! "Latency"%string = Some latency →
  df !! "Packet Loss"%string = Some loss →
  df !! "Sensor Functionality"%string = Some sensor →
  df !! "Closeness Centrality"%string = Some closeness →
  df !! "Eigenvector Centrality"%string = Some eigen →
  feature_engineering df
  = Ok (engineered df battery intensity scale latency loss sensor closeness eigen).
Proof.
  intros Hb Hi Hs Hl Hp Hf Hc He.
  unfold feature_engineering, getitem, setitem.
  repeat (rewrite ?lookup_insert_eq; rewrite ?lookup_insert_ne by done;
          rewrite ?Hb, ?Hi, ?Hs, ?Hl, ?Hp, ?Hf, ?Hc, ?He; cbn [rbind]).
  reflexivity.
Qed.

Lemma feature_engineering_inv (df df' : DataFrame) :
  feature_engineering df = Ok df' →
  ∃ battery intensity scale latency loss sensor closeness eigen,
    df !! "Battery Level"%string = Some battery ∧
    df !! "Communication Intensity"%string = Some intensity ∧
    df !! "Communication Scale"%string = Some scale ∧
    df !! "Latency"%string = Some latency ∧
    df !! "Packet Loss"%string = Some loss ∧
    df !! "Sensor Functionality"%string = Some sensor ∧
    df !! "Closeness Centrality"%string = Some closeness ∧
    df !! "Eigenvector Centrality"%string = Some eigen ∧
    df' = engineered df battery intensity scale latency loss sensor
            closeness eigen.
Proof.
  unfold feature_engineering, getitem, setitem.
  repeat (rewrite ?lookup_insert_eq; rewrite ?lookup_insert_ne by done;
          try lazymatch goal with
              | |- context [df !! ?c] => destruct (df !! c) eqn:?
              end;
          cbn [rbind]; try discriminate).
  intros [= <-]. by eexists _, _, _, _, _, _, _, _.
Qed.

(** A column other than the three derived ones is the one of the input. *)
Lemma engineered_lookup_other (df : DataFrame) b i s l p f c e col :
  col ∉ derived_columns →
  engineered df b i s l p f c e !! col = df !! col.
Proof.
  intros Hcol. unfold engineered, setitem, derived_columns in *.
  rewrite !lookup_insert_ne; [done|..]; intros <-; apply Hcol; in_columns.
Qed.

Lemma engineered_dom (df : DataFrame) b i s l p f c e :
  dom (engineered df b i s l p f c e) = dom df ∪ list_to_set derived_columns.
Proof.
  unfold engineered, setitem, derived_columns.
  rewrite !dom_insert_L. simpl. apply set_eq. intros x.
  rewrite !elem_of_union, !elem_of_singleton, elem_of_empty. tauto.
Qed.

Lemma engineered_has_rows (df : DataFrame) n b i s l p f c e :
  has_rows df n →
  length b = n → length i = n → length s = n → length l = n →
  length p = n → length f = n → length c = n → length e = n →
  has_rows (engineered df b i s l p f c e) n.
Proof.
  intros Hdf Hb Hi Hs Hl Hp Hf Hc He col v.
  assert (Hbln : length (truediv b 100) = n).
  { unfold truediv. by rewrite length_fmap. }
  assert (Hsic : length (mul i s) = n).
  { unfold mul. rewrite length_zip_with. lia. }
  unfold engineered, setitem.
  destruct (decide (col = "Trust Score"%string)) as [->|?].
  { rewrite lookup_insert_eq. intros [= <-].
    by apply trust_score_column_length. }
  rewrite lookup_insert_ne by done.
  destruct (decide (col = "Scale-Intensity Centrality"%string)) as [->|?].
  { rewrite lookup_insert_eq. by intros [= <-]. }
  rewrite lookup_insert_ne by done.
  destruct (decide (col = "Battery Level Norm"%string)) as [->|?].
  { rewrite lookup_insert_eq. by intros [= <-]. }
  rewrite lookup_insert_ne by done.
  apply Hdf.
Qed.

(** ** The claims *)

(** C1.  On every row whose Latency, Packet Loss, Sensor Functionality,
    Closeness Centrality, Eigenvector Centrality, Communication Intensity
    and Communication Scale lie in [0,1] and whose Battery Level lies in
    [0,100], feature engineering succeeds and the derived Battery Level
    Norm, equal to Battery Level / 100, lies in [0,1], and the derived
    Trust Score, equal to the weighted expression of the notebooks, lies in
    [0,1]. *)
Theorem trust_score_in_unit_interval (df : DataFrame) (i : nat)
    (battery intensity scale latency loss sensor closeness eigen : Q) :
  cell df "Battery Level" i = Some battery →
  cell df "Communication Intensity" i = Some intensity →
  cell df "Communication Scale" i = Some scale →
  cell df "Latency" i = Some latency →
  cell df "Packet Loss" i = Some loss →
  cell df "Sensor Functionality" i = Some sensor →
  cell df "Closeness Centrality" i = Some closeness →
  cell df "Eigenvector Centrality" i = Some eigen →
  0 <= battery <= 100 →
  0 <= intensity <= 1 → 0 <= scale <= 1 →
  0 <= latency <= 1 → 0 <= loss <= 1 → 0 <= sensor <= 1 →
  0 <= closeness <= 1 → 0 <= eigen <= 1 →
  ∃ (df' : DataFrame) (bln ts : Q),
    feature_engineering df = Ok df' ∧
    cell df' "Battery Level Norm" i = Some bln ∧
    bln = battery / 100 ∧
    0 <= bln <= 1 ∧
    cell df' "Trust Score" i = Some ts ∧
    ts = 0.2 * (1 - latency) + 0.1 * (1 - loss) + 0.2 * sensor + 0.1 * bln
         + 0.2 * (intensity * scale) + 0.1 * closeness + 0.1 * eigen ∧
    0 <= ts <= 1.
Proof.
  intros (cb & Hb & Hbi)%cell_Some (ci & Hi & Hii)%cell_Some
         (cs & Hs & Hsi)%cell_Some (cl & Hl & Hli)%cell_Some
         (cp & Hp & Hpi)%cell_Some (cf & Hf & Hfi)%cell_Some
         (cc & Hc & Hci)%cell_Some (ce & He & Hei)%cell_Some.
  intros Rb Ri Rs Rl Rp Rf Rc Re.
  assert (Hbln : 0 <= battery / 100 <= 1).
  { split; [apply Qle_shift_div_l | apply Qle_shift_div_r]; lra. }
  assert (Hsic : 0 <= intensity * scale <= 1) by nra.
  eexists _, (battery / 100), _. split.
  { by apply feature_engineering_Ok. }
  unfold engineered.
  rewrite cell_setitem_ne, cell_setitem_ne, !cell_setitem_eq by done.
  split. { unfold truediv. by rewrite list_lookup_fmap, Hbi. }
  split; [done|]. split; [done|].
  split.
  { apply trust_score_column_lookup; try done.
    - unfold truediv. by rewrite list_lookup_fmap, Hbi.
    - unfold mul. by rewrite lookup_zip_with, Hii, Hsi. }
  split; [reflexivity|].
  by apply trust_score_bounds.
Qed.

(** The second row of [sample_frame] is in range. *)
Lemma trust_score_in_unit_interval_witness :
  ∃ (df' : DataFrame) (bln ts : Q),
    feature_engineering sample_frame = Ok df' ∧
    cell df' "Battery Level Norm" 1 = Some bln ∧
    bln = 80 / 100 ∧
    0 <= bln <= 1 ∧
    cell df' "Trust Score" 1 = Some ts ∧
    ts = 0.2 * (1 - 0.1) + 0.1 * (1 - 0.05) + 0.2 * 0.9 + 0.1 * bln
         + 0.2 * (0.5 * 0.5) + 0.1 * 0.5 + 0.1 * 0.4 ∧
    0 <= ts <= 1.
Proof.
  apply (trust_score_in_unit_interval sample_frame 1 80 0.5 0.5 0.1 0.05
           0.9 0.5 0.4);
    first [ by vm_compute | split; by vm_compute ].
Defined.

(** C2.  The weights of the Trust Score expression are the constants 0.2,
    0.1, 0.2, 0.1, 0.2, 0.1, 0.1: the expression is the sum of these times
    its seven terms, whatever the terms are.  Their sum is 1, as rationals
    and also as binary64 numbers added in the order of the expression. *)
Theorem trust_weights_sum_to_one :
  trust_weights = [0.2; 0.1; 0.2; 0.1; 0.2; 0.1; 0.1] ∧
  (∀ latency loss sensor bln sic closeness eigen : Q,
     trust_score latency loss sensor bln sic closeness eigen
     == Qsum (zip_with Qmult trust_weights
                (trust_terms latency loss sensor bln sic closeness eigen))) ∧
  Qsum trust_weights == 1 ∧
  Qred (Qsum trust_weights) = 1 ∧
  Binary64.sum Binary64.trust_weights = Binary64.one.
Proof.
  split; [reflexivity|]. split.
  { intros. unfold trust_score, trust_weights, trust_terms, Qsum. simpl. ring. }
  split; [reflexivity|]. split; [reflexivity|].
  by vm_compute.
Qed.

(** The end-to-end scenario of the specification in binary64: on a row
    with every term at its best the score is 1.0, and on a row with every
    term at its worst it is 0.0. *)
Example trust_score_binary64_corners :
  let zero := Binary64.of_Z 0 in
  let one := Binary64.one in
  Binary64.trust_score zero zero one
    (Binary64.battery_level_norm (Binary64.of_Z 100))
    (Binary64.mul one one) one one = one ∧
  Binary64.trust_score one one zero
    (Binary64.battery_level_norm zero)
    (Binary64.mul zero zero) zero zero = zero.
Proof. by vm_compute. Qed.

(** The claim C9 as the specification has it fails on a table that already
    has a column named Trust Score: the column is present before the call,
    and its cells are not the same after. *)
Lemma existing_trust_score_overwritten :
  (∀ c, c ∈ raw_columns → is_Some (scored_frame !! c)) ∧
  scored_frame !! "Trust Score"%string = Some [5; 5; 5] ∧
  ∃ df' ts,
    feature_engineering scored_frame = Ok df' ∧
    df' !! "Trust Score"%string = Some ts ∧
    Forall2 Qeq ts [1; 0.675; 0.449] ∧
    df' !! "Trust Score"%string ≠ scored_frame !! "Trust Score"%string.
Proof.
  split; [by_columns|]. split; [reflexivity|].
  eexists (engineered scored_frame _ _ _ _ _ _ _ _), _.
  split; [apply feature_engineering_Ok; reflexivity|].
  unfold engineered, setitem. rewrite lookup_insert_eq.
  split; [reflexivity|]. split.
  { lazymatch goal with
    | |- Forall2 Qeq ?l _ => let l' := eval vm_compute in l in change l with l'
    end.
    repeat (constructor; [reflexivity|]). constructor. }
  change (scored_frame !! "Trust Score"%string) with (Some [5; 5; 5]).
  intros H. injection H as H. vm_compute in H. discriminate H.
Qed.

(** C9, amended.  On a table that has the eight raw columns, all columns
    being [n] cells long, feature engineering succeeds; the table after it
    has the same [n] rows; its columns are those of the input and the three
    derived ones; every column not named as one of the three derived ones
    is the column of the input, cell for cell and in the same order; the
    three derived columns hold, in every row, the values derived from the
    raw cells of that row, whatever the input held under their names:
    Battery Level / 100, Communication Intensity * Communication Scale, and
    the weighted trust expression; and this is the table [preprocess]
    leaves in its argument. *)
Theorem feature_deriver_frame (df : DataFrame) (n : nat) :
  (∀ c, c ∈ raw_columns → is_Some (df !! c)) →
  has_rows df n →
  ∃ df' : DataFrame,
    feature_engineering df = Ok df' ∧
    has_rows df' n ∧
    dom df' = dom df ∪ list_to_set derived_columns ∧
    (∀ c, c ∉ derived_columns → df' !! c = df !! c) ∧
    (∀ c, c ∈ derived_columns → ∃ s, df' !! c = Some s ∧ length s = n) ∧
    (∀ i battery intensity scale latency loss sensor closeness eigen,
       cell df "Battery Level" i = Some battery →
       cell df "Communication Intensity" i = Some intensity →
       cell df "Communication Scale" i = Some scale →
       cell df "Latency" i = Some latency →
       cell df "Packet Loss" i = Some loss →
       cell df "Sensor Functionality" i = Some sensor →
       cell df "Closeness Centrality" i = Some closeness →
       cell df "Eigenvector Centrality" i = Some eigen →
       cell df' "Battery Level Norm" i = Some (battery / 100) ∧
       cell df' "Scale-Intensity Centrality" i = Some (intensity * scale) ∧
       cell df' "Trust Score" i
       = Some (0.2 * (1 - latency) + 0.1 * (1 - loss) + 0.2 * sensor
               + 0.1 * (battery / 100) + 0.2 * (intensity * scale)
               + 0.1 * closeness + 0.1 * eigen)) ∧
    (∀ df'' X y, preprocess df = Ok (df'', X, y) → df'' = df').
Proof.
  intros Hraw Hn.
  destruct (Hraw "Battery Level"%string) as [b Hb]; [in_columns|].
  destruct (Hraw "Communication Intensity"%string) as [i Hi]; [in_columns|].
  destruct (Hraw "Communication Scale"%string) as [s Hs]; [in_columns|].
  destruct (Hraw "Latency"%string) as [l Hl]; [in_columns|].
  destruct (Hraw "Packet Loss"%string) as [p Hp]; [in_columns|].
  destruct (Hraw "Sensor Functionality"%string) as [f Hf]; [in_columns|].
  destruct (Hraw "Closeness Centrality"%string) as [c Hc]; [in_columns|].
  destruct (Hraw "Eigenvector Centrality"%string) as [e He]; [in_columns|].
  pose proof (feature_engineering_Ok df b i s l p f c e Hb Hi Hs Hl Hp Hf Hc He)
    as Hfe.
  assert (Hrows : has_rows (engineered df b i s l p f c e) n).
  { apply engineered_has_rows; [done|..]; by eapply Hn. }
  eexists. split; [exact Hfe|].
  split; [exact Hrows|].
  split; [apply engineered_dom|].
  split; [intros; by apply engineered_lookup_other|].
  split.
  { intros col Hcol.
    assert (is_Some (engineered df b i s l p f c e !! col)) as [v Hv].
    { apply elem_of_dom. rewrite engineered_dom.
      apply elem_of_union_r. by apply elem_of_list_to_set. }
    exists v. split; [done|]. by eapply Hrows. }
  split.
  { intros k battery intensity scale latency loss sensor closeness eigen
           (cb & Hb' & Hbk)%cell_Some (ci & Hi' & Hik)%cell_Some
           (cs & Hs' & Hsk)%cell_Some (cl & Hl' & Hlk)%cell_Some
           (cp & Hp' & Hpk)%cell_Some (cf & Hf' & Hfk)%cell_Some
           (cc & Hc' & Hck)%cell_Some (ce & He' & Hek)%cell_Some.
    assert (cb = b) as -> by congruence. assert (ci = i) as -> by congruence.
    assert (cs = s) as -> by congruence. assert (cl = l) as -> by congruence.
    assert (cp = p) as -> by congruence. assert (cf = f) as -> by congruence.
    assert (cc = c) as -> by congruence. assert (ce = e) as -> by congruence.
    assert (Hbln : truediv b 100 !! k = Some (battery / 100)).
    { unfold truediv. by rewrite list_lookup_fmap, Hbk. }
    assert (Hsic : mul i s !! k = Some (intensity * scale)).
    { unfold mul. by rewrite lookup_zip_with, Hik, Hsk. }
    unfold engineered.
    split; [|split]; repeat (rewrite cell_setitem_ne by done);
      rewrite cell_setitem_eq;
      [exact Hbln|exact Hsic|by apply trust_score_column_lookup]. }
  intros df'' X y. unfold preprocess. rewrite Hfe. cbn [rbind].
  destruct (select _ _); [|done]. cbn [rbind].
  destruct (getitem _ _); [|done]. cbn [rbind]. congruence.
Qed.

Lemma feature_deriver_frame_witness :
  ∃ df' : DataFrame,
    feature_engineering sample_frame = Ok df' ∧
    has_rows df' 3 ∧
    dom df' = dom sample_frame ∪ list_to_set derived_columns ∧
    (∀ c, c ∉ derived_columns → df' !! c = sample_frame !! c) ∧
    (∀ c, c ∈ derived_columns → ∃ s, df' !! c = Some s ∧ length s = 3%nat) ∧
    (∀ i battery intensity scale latency loss sensor closeness eigen,
       cell sample_frame "Battery Level" i = Some battery →
       cell sample_frame "Communication Intensity" i = Some intensity →
       cell sample_frame "Communication Scale" i = Some scale →
       cell sample_frame "Latency" i = Some latency →
       cell sample_frame "Packet Loss" i = Some loss →
       cell sample_frame "Sensor Functionality" i = Some sensor →
       cell sample_frame "Closeness Centrality" i = Some closeness →
       cell sample_frame "Eigenvector Centrality" i = Some eigen →
       cell df' "Battery Level Norm" i = Some (battery / 100) ∧
       cell df' "Scale-Intensity Centrality" i = Some (intensity * scale) ∧
       cell df' "Trust Score" i
       = Some (0.2 * (1 - latency) + 0.1 * (1 - loss) + 0.2 * sensor
               + 0.1 * (battery / 100) + 0.2 * (intensity * scale)
               + 0.1 * closeness + 0.1 * eigen)) ∧
    (∀ df'' X y, preprocess sample_frame = Ok (df'', X, y) → df'' = df').
Proof.
  apply (feature_deriver_frame sample_frame 3).
  - by_columns.
  - intros c s Hs.
    apply (elem_of_list_to_map_2 (M := gmap string)) in Hs.
    repeat (apply elem_of_cons in Hs as [[= -> ->]|Hs]; [reflexivity|]).
    by apply elem_of_nil in Hs.
Defined.

End FeaturesSpec.

(** * Loops in the state-and-exception type *)

Module Loops.

Section ForEach.

Context {St A : Type}.
Implicit Types (body : A → M St unit) (xs : list A) (s : St).

Lemma for_each_nil body s : for_each [] body s = (s, Ok tt).
Proof. reflexivity. Qed.

Lemma for_each_cons body x xs s :
  for_each (x :: xs) body s
  = match body x s with
    | (s', Ok _) => for_each xs body s'
    | (s', Raise e) => (s', Raise e)
    end.
Proof. reflexivity. Qed.

Lemma for_each_app body xs ys s :
  for_each (xs ++ ys) body s
  = match for_each xs body s with
    | (s', Ok _) => for_each ys body s'
    | (s', Raise e) => (s', Raise e)
    end.
Proof.
  revert s. induction xs as [|x xs IH]; intros s; [reflexivity|].
  simpl. unfold bind. destruct (body x s) as [s' [[]|e]]; [apply IH|reflexivity].
Qed.

(** An invariant of the state that every iteration keeps, whether it
    returns or raises, holds after the loop. *)
Lemma for_each_invariant (I : St → Prop) body xs s s' r :
  (∀ x t t' q, x ∈ xs → I t → body x t = (t', q) → I t') →
  I s → for_each xs body s = (s', r) → I s'.
Proof.
  revert s. induction xs as [|x xs IH]; intros s Hbody Hs Hrun.
  - by injection Hrun as <- _.
  - rewrite for_each_cons in Hrun.
    destruct (body x s) as [t [[]|e]] eqn:Hx.
    + eapply IH; [|eapply Hbody; [left|..]; eauto|exact Hrun].
      intros ? ? ? ? ?. apply Hbody. by right.
    + injection Hrun as <- _. eapply Hbody; [left|..]; eauto.
Qed.

(** A loop that returns has run every iteration to its end. *)
Lemma for_each_Ok_split body xs x ys s s' :
  for_each (xs ++ x :: ys) body s = (s', Ok tt) →
  ∃ t t', for_each xs body s = (t, Ok tt) ∧ body x t = (t', Ok tt) ∧
          for_each ys body t' = (s', Ok tt).
Proof.
  rewrite for_each_app.
  destruct (for_each xs body s) as [t [[]|e]]; [|done].
  rewrite for_each_cons.
  destruct (body x t) as [t' [[]|e]] eqn:Hx; [|done].
  intros Hys. by exists t, t'.
Qed.

(** A loop whose iteration raises stops there, with the state the
    failing iteration left. *)
Lemma for_each_Raise body xs x ys s t t' e :
  for_each xs body s = (t, Ok tt) →
  body x t = (t', Raise e) →
  for_each (xs ++ x :: ys) body s = (t', Raise e).
Proof.
  intros Hxs Hx. rewrite for_each_app, Hxs, for_each_cons. by rewrite Hx.
Qed.

End ForEach.

End Loops.

(** * The metrics of one confusion matrix *)

Module MetricsSpec.

Import F1.

Local Open Scope Q_scope.

Lemma true_divide_Ok a b :
  b ≠ 0%Z → true_divide a b = Ok (inject_Z a / inject_Z b).
Proof. unfold true_divide. intros Hb. by apply Z.eqb_neq in Hb as ->. Qed.

Lemma true_divide_inv a b q :
  true_divide a b = Ok q → b ≠ 0%Z ∧ q = inject_Z a / inject_Z b.
Proof.
  unfold true_divide. destruct (b =? 0)%Z eqn:Hb; [done|].
  intros [= <-]. by apply Z.eqb_neq in Hb.
Qed.

Lemma Qltb_true a b : Qltb a b = true ↔ a < b.
Proof.
  unfold Qltb. rewrite Qlt_alt. destruct (Qcompare a b); split; congruence.
Qed.

Lemma precision_of_Ok tp fp :
  precision_of tp fp
  = Ok (if (0 <? tp + fp)%Z then inject_Z tp / inject_Z (tp + fp) else 0.0).
Proof.
  unfold precision_of. destruct (0 <? tp + fp)%Z eqn:Hd; [|done].
  apply true_divide_Ok. apply Z.ltb_lt in Hd. lia.
Qed.

Lemma recall_of_Ok tp fn :
  recall_of tp fn
  = Ok (if (0 <? tp + fn)%Z then inject_Z tp / inject_Z (tp + fn) else 0.0).
Proof.
  unfold recall_of. destruct (0 <? tp + fn)%Z eqn:Hd; [|done].
  apply true_divide_Ok. apply Z.ltb_lt in Hd. lia.
Qed.

Lemma f1_of_Ok p r :
  f1_of p r = Ok (if Qltb 0 (p + r) then 2 * (p * r) / (p + r) else 0.0).
Proof.
  unfold f1_of, float_divide. destruct (Qltb 0 (p + r)) eqn:Hd; [|done].
  apply Qltb_true in Hd.
  destruct (Qeq_bool (p + r) 0) eqn:Hz; [|done].
  apply Qeq_bool_iff in Hz. rewrite Hz in Hd. by apply Qlt_irrefl in Hd.
Qed.

(** The record of a matrix with at least one counted row. *)
Lemma metrics_of_Ok attack model c :
  (c11 c + c00 c + c01 c + c10 c ≠ 0)%Z →
  ∃ row, metrics_of attack model c = Ok row.
Proof.
  intros Htotal. unfold metrics_of, ravel, accuracy_of.
  rewrite precision_of_Ok, recall_of_Ok. cbn [rbind].
  rewrite f1_of_Ok. cbn [rbind].
  rewrite true_divide_Ok by done. cbn [rbind]. by eexists.
Qed.

Lemma metrics_of_inv attack model c row :
  metrics_of attack model c = Ok row →
  Attack row = attack ∧ Model row = model ∧
  (c11 c + c00 c + c01 c + c10 c ≠ 0)%Z ∧
  Accuracy row
  = py_round (inject_Z (c11 c + c00 c)
              / inject_Z (c11 c + c00 c + c01 c + c10 c)) 4 ∧
  Support_Malicious row = (c00 c + c01 c)%Z ∧
  Support_Trustworthy row = (c10 c + c11 c)%Z.
Proof.
  unfold metrics_of, ravel, accuracy_of.
  rewrite precision_of_Ok, recall_of_Ok. cbn [rbind].
  rewrite f1_of_Ok. cbn [rbind].
  destruct (true_divide _ _) as [acc|] eqn:Hacc; [|done]. cbn [rbind].
  apply true_divide_inv in Hacc as [Hne ->].
  by intros [= <-].
Qed.

(** C4.  For every confusion matrix, whatever its four entries, the
    computations of precision, recall and F1 return a number and raise
    nothing; precision is 0.0 when tp + fp = 0, recall is 0.0 when
    tp + fn = 0, and F1 is 0.0 when precision + recall = 0.  The
    values 0.0 are reported as 0 in the record of the matrix. *)
Theorem zero_denominator_metrics (c : cm) :
  let '(tn, fp, fn, tp) := ravel c in
  ∃ precision recall f1 : Q,
    precision_of tp fp = Ok precision ∧
    recall_of tp fn = Ok recall ∧
    f1_of precision recall = Ok f1 ∧
    ((tp + fp = 0)%Z → precision = 0.0) ∧
    ((tp + fn = 0)%Z → recall = 0.0) ∧
    (precision + recall == 0 → f1 = 0.0) ∧
    (∀ attack model row,
       metrics_of attack model c = Ok row →
       Precision row = py_round precision 4 ∧
       Recall row = py_round recall 4 ∧
       F1_Score row = py_round f1 4) ∧
    py_round 0.0 4 == 0.
Proof.
  unfold ravel. eexists _, _, _.
  split; [apply precision_of_Ok|]. split; [apply recall_of_Ok|].
  split; [apply f1_of_Ok|].
  split. { intros ->. reflexivity. }
  split. { intros ->. reflexivity. }
  split.
  { intros Hz. destruct (Qltb 0 _) eqn:Hd; [|done].
    apply Qltb_true in Hd. rewrite Hz in Hd. by apply Qlt_irrefl in Hd. }
  split; [|reflexivity].
  intros attack model row. unfold metrics_of, ravel, accuracy_of.
  rewrite precision_of_Ok, recall_of_Ok. cbn [rbind].
  rewrite f1_of_Ok. cbn [rbind].
  destruct (true_divide _ _); [|done]. cbn [rbind]. by intros [= <-].
Qed.

End MetricsSpec.

(** * Rounding *)

Module RoundingSpec.

Local Open Scope Q_scope.

Lemma rint_floor (x : Q) : (Qfloor x ≤ rint x ≤ Qfloor x + 1)%Z.
Proof.
  unfold rint. cbv zeta.
  destruct (Qcompare _ _); [destruct (Z.even _)|..]; lia.
Qed.

Lemma rint_error (x : Q) : Qabs (inject_Z (rint x) - x) <= 1 # 2.
Proof.
  apply Qabs_Qle_condition.
  pose proof (Qfloor_le x) as Hlo. pose proof (Qlt_floor x) as Hhi.
  rewrite inject_Z_plus in Hhi. change (inject_Z 1) with 1 in Hhi.
  unfold rint. cbv zeta.
  destruct (Qcompare_spec (x - inject_Z (Qfloor x)) (1 # 2)) as [H|H|H];
    [destruct (Z.even _)|..];
    rewrite ?inject_Z_plus; change (inject_Z 1) with 1; split; lra.
Qed.

Lemma rint_between (a b : Z) (x : Q) :
  inject_Z a <= x → x <= inject_Z b → (a ≤ rint x ≤ b)%Z.
Proof.
  intros Ha Hb.
  pose proof (rint_floor x) as [Hlo Hhi].
  pose proof (Qfloor_resp_le _ _ Ha) as Hfa. rewrite Qfloor_Z in Hfa.
  pose proof (Qfloor_resp_le _ _ Hb) as Hfb. rewrite Qfloor_Z in Hfb.
  split; [lia|].
  destruct (Z.eq_dec (Qfloor x) b) as [Heq|Hne]; [|lia].
  unfold rint. cbv zeta. rewrite Heq.
  destruct (Qcompare_spec (x - inject_Z b) (1 # 2)) as [H|H|H]; [lra|lia|lra].
Qed.

Lemma scale_pos (n : nat) : 0 < inject_Z (10 ^ Z.of_nat n).
Proof.
  change 0 with (inject_Z 0). rewrite <- Zlt_Qlt.
  apply Z.pow_pos_nonneg; lia.
Qed.

(** [round(x, n)] is within half a unit of the [n]-th decimal of [x]. *)
Lemma py_round_error (x : Q) (n : nat) :
  Qabs (py_round x n - x) <= (1 # 2) / inject_Z (10 ^ Z.of_nat n).
Proof.
  unfold py_round. cbv zeta.
  pose proof (scale_pos n) as Hs.
  pose proof (rint_error (x * inject_Z (10 ^ Z.of_nat n))) as He.
  set (scale := inject_Z (10 ^ Z.of_nat n)) in *.
  set (r := inject_Z (rint (x * scale))) in *.
  apply Qabs_Qle_condition in He as [He1 He2].
  assert (Hne : ¬ scale == 0) by lra.
  assert (E : r / scale - x == (r - x * scale) / scale) by (field; exact Hne).
  apply Qabs_Qle_condition. rewrite E. split.
  - apply Qle_shift_div_l; [exact Hs|].
    assert (E' : - ((1 # 2) / scale) * scale == - (1 # 2))
      by (field; exact Hne).
    rewrite E'. exact He1.
  - apply Qle_shift_div_r; [exact Hs|].
    assert (E' : (1 # 2) / scale * scale == 1 # 2) by (field; exact Hne).
    rewrite E'. exact He2.
Qed.

(** Rounding keeps a number of the unit interval in it. *)
Lemma py_round_unit (x : Q) (n : nat) :
  0 <= x <= 1 → 0 <= py_round x n <= 1.
Proof.
  intros [H0 H1]. unfold py_round. cbv zeta.
  pose proof (scale_pos n) as Hs.
  destruct (rint_between 0 (10 ^ Z.of_nat n) (x * inject_Z (10 ^ Z.of_nat n)))
    as [Hlo Hhi].
  - change (inject_Z 0) with 0. apply Qmult_le_0_compat; lra.
  - rewrite <- (Qmult_1_l (inject_Z _)) at 2.
    apply Qmult_le_compat_r; lra.
  - rewrite Zle_Qle in Hlo, Hhi. change (inject_Z 0) with 0 in Hlo.
    split.
    + apply Qle_shift_div_l; [exact Hs|]. lra.
    + apply Qle_shift_div_r; [exact Hs|]. lra.
Qed.


End RoundingSpec.

(** * The classification notebook *)

Module F1Spec.

Import Features Examples Loops F1 FeaturesSpec.

Local Open Scope Q_scope.

(** ** States *)

Definition printed (line : string) (s : state) : state :=
  {| stdout := stdout s ++ [line];
     conf_data := conf_data s;
     metrics_data := metrics_data s |}.

Definition with_conf_data (l : list (string * string * cm)) (s : state) : state :=
  {| stdout := stdout s; conf_data := l; metrics_data := metrics_data s |}.

Definition with_metrics_data (l : list metrics_row) (s : state) : state :=
  {| stdout := stdout s; conf_data := conf_data s; metrics_data := l |}.

Definition processing_line (attack : string) : string :=
  nl +:+ "📌 Processing: " +:+ attack.

Definition skipping_line (attack : string) : string :=
  "⚠️ Skipping " +:+ attack +:+ ": insufficient class diversity".

(** ** Binarized vectors and the confusion matrix *)

Definition binary (l : list Z) : Prop := Forall (λ z, z = 0%Z ∨ z = 1%Z) l.

Lemma binarize_binary t s : binary (binarize t s).
Proof.
  unfold binary, binarize. apply Forall_fmap, Forall_forall. intros y _. simpl.
  destruct (Qle_bool t y); auto.
Qed.

Lemma binarize_length t s : length (binarize t s) = length s.
Proof. unfold binarize. apply length_fmap. Qed.

Lemma np_unique_length a : length (np_unique a) = length (remove_dups a).
Proof. unfold np_unique. by rewrite merge_sort_Permutation. Qed.

(** Two distinct values need two rows. *)
Lemma np_unique_length_le a : (length (np_unique a) ≤ length a)%nat.
Proof.
  rewrite np_unique_length.
  induction a as [|x a IH]; simpl; [done|].
  destruct (decide_rel elem_of x a); simpl; lia.
Qed.

(** The four cells of the matrix count every pair of binary labels once. *)
Lemma count_cells_binary (y_true y_pred : list Z) :
  binary y_true → binary y_pred → length y_true = length y_pred →
  (count_cell 0 0 y_true y_pred + count_cell 0 1 y_true y_pred
   + count_cell 1 0 y_true y_pred + count_cell 1 1 y_true y_pred
   = Z.of_nat (length y_true))%Z.
Proof.
  unfold count_cell. intros Ht. revert y_pred.
  induction Ht as [|a y_true Ha Ht IH]; intros y_pred Hp Hlen.
  - reflexivity.
  - destruct Hp as [|b y_pred Hb Hp]; [done|].
    injection Hlen as Hlen. specialize (IH _ Hp Hlen).
    cbn [zip zip_with List.filter length fst snd].
    destruct Ha as [-> | ->], Hb as [-> | ->];
      cbn [Z.eqb Pos.eqb andb length fst snd]; lia.
Qed.

Lemma count_cell_nonneg t p y_true y_pred : (0 ≤ count_cell t p y_true y_pred)%Z.
Proof. unfold count_cell. lia. Qed.

Lemma confusion_matrix_Ok_length y_true y_pred labels c :
  confusion_matrix y_true y_pred labels = Ok c →
  length y_true = length y_pred.
Proof.
  unfold confusion_matrix. destruct labels as [l0 l1].
  destruct (length y_true =? length y_pred)%nat eqn:Hlen; [|done].
  intros _. by apply Nat.eqb_eq.
Qed.

Lemma confusion_matrix_total y_true y_pred c :
  binary y_true → binary y_pred →
  confusion_matrix y_true y_pred (0, 1)%Z = Ok c →
  (c00 c + c01 c + c10 c + c11 c = Z.of_nat (length y_true))%Z.
Proof.
  intros Ht Hp Hc.
  pose proof (confusion_matrix_Ok_length _ _ _ _ Hc) as Hlen.
  unfold confusion_matrix in Hc.
  destruct (negb _); [done|]. destruct (bool_decide _); [done|].
  injection Hc as <-. simpl. by apply count_cells_binary.
Qed.

(** ** One scenario *)

Section Scenario.

Context (W : world).

Definition cnn_layers (X_train : tensor) : list layer :=
  [ Input (shape1 X_train) 1;
    Conv1D 64 2 "relu";
    Conv1D 32 2 "relu";
    Flatten;
    Dense 64 (Some "relu"%string);
    Dense 1 (Some "sigmoid"%string) ].

(** Lines 56-71: the coordination rates of the scenario whose log is at
    [path], as the loop body obtains them. *)
Definition scenario_target (path : string) : result Series :=
  let! df0 := read_csv W path in
  let! df := feature_engineering df0 in
  getitem df "Swarm Coordination Rate".

(** [target W path y_true]: the log at [path] is read, its features are
    derived, and its column of coordination rates is [y_true]. *)
Definition target (path : string) (y_true : Series) : Prop :=
  ∃ df0 df,
    read_csv W path = Ok df0 ∧
    feature_engineering df0 = Ok df ∧
    getitem df "Swarm Coordination Rate" = Ok y_true.

(** [fitted W path y_true preds_dict]: every statement of the loop body up
    to the dictionary of predictions returns, and the dictionary is
    [preds_dict]. *)
Inductive fitted (path : string) (y_true : Series)
  : list (string * list Q) → Prop :=
| fitted_intro df0 df X X_scaled
    X_train X_test y_train y_test X_train_r X_test_r y_train_r y_test_r
    m_rf m_svm m_cnn :
    read_csv W path = Ok df0 →
    feature_engineering df0 = Ok df →
    getitem df "Swarm Coordination Rate" = Ok y_true →
    select df features = Ok X →
    fit_transform W (rows_of X) = Ok X_scaled →
    train_test_split W _ _ X_scaled (binarize 0.85 y_true) 0.2 42%Z
    = Ok (X_train, X_test, y_train, y_test) →
    train_test_split W _ _ (reshape X_scaled) (binarize 0.85 y_true) 0.2 42%Z
    = Ok (X_train_r, X_test_r, y_train_r, y_test_r) →
    rf_fit W 100 42 X_train (inject_Z <$> y_train) = Ok m_rf →
    svr_fit W "rbf" 100 0.0005 X_train (inject_Z <$> y_train) = Ok m_svm →
    keras_fit W (cnn_layers X_train_r) 0.001 "mse" 30 8 X_train_r
      (inject_Z <$> y_train_r) = Ok m_cnn →
    fitted path y_true
      [ ("Random Forest", rf_predict W m_rf X_scaled);
        ("SVM", svr_predict W m_svm X_scaled);
        ("CNN", flatten (keras_predict W m_cnn (reshape X_scaled))) ]%string.

Lemma scenario_target_Ok path y_true :
  scenario_target path = Ok y_true ↔ target path y_true.
Proof.
  unfold scenario_target, target. split.
  - destruct (read_csv W path) as [df0|] eqn:Hread; cbn [rbind]; [|done].
    destruct (feature_engineering df0) as [df|] eqn:Hfe; cbn [rbind]; [|done].
    intros Hy. by exists df0, df.
  - intros (df0 & df & -> & Hfe & Hy). cbn [rbind]. by rewrite Hfe.
Qed.

Lemma fitted_target path y_true preds_dict :
  fitted path y_true preds_dict → target path y_true.
Proof. intros []. by eexists _, _. Qed.

(** The three ways the body of the loop can go: an exception before any
    record is appended; a skip; or the inner loop over the predictions. *)
Lemma process_cases attack path s :
  (∃ e, process W attack path s = (printed (processing_line attack) s, Raise e))
  ∨ (∃ y_true,
       target path y_true ∧
       (length (np_unique (binarize 0.85 y_true)) < 2)%nat ∧
       process W attack path s
       = (printed (skipping_line attack) (printed (processing_line attack) s),
          Ok tt))
  ∨ (∃ y_true preds_dict,
       fitted path y_true preds_dict ∧
       (2 ≤ length (np_unique (binarize 0.85 y_true)))%nat ∧
       process W attack path s
       = collect attack (binarize 0.85 y_true) preds_dict
           (printed (processing_line attack) s)).
Proof.
  unfold process, bind, lift. cbn [print modify].
  change {| stdout := stdout s ++ [nl +:+ "📌 Processing: " +:+ attack];
            conf_data := conf_data s; metrics_data := metrics_data s |}
    with (printed (processing_line attack) s).
  destruct (read_csv W path) as [df0|e] eqn:Hread; [|left; by eexists].
  destruct (feature_engineering df0) as [df|e] eqn:Hfe; [|left; by eexists].
  destruct (getitem df "Swarm Coordination Rate") as [y_true|e] eqn:Hy;
    [|left; by eexists].
  destruct (length (np_unique (binarize 0.85 y_true)) <? 2)%nat eqn:Hguard.
  { right; left. exists y_true. split; [by eexists _, _|].
    split; [by apply Nat.ltb_lt|]. reflexivity. }
  apply Nat.ltb_ge in Hguard.
  destruct (select df features) as [X|e] eqn:HX; [|left; by eexists].
  destruct (fit_transform W (rows_of X)) as [X_scaled|e] eqn:Hscale;
    [|left; by eexists].
  destruct (train_test_split W _ _ X_scaled (binarize 0.85 y_true) 0.2 42%Z)
    as [[[[X_train X_test] y_train] y_test]|e] eqn:Hsplit;
    [|left; by eexists].
  destruct (train_test_split W _ _ (reshape X_scaled) (binarize 0.85 y_true)
              0.2 42%Z)
    as [[[[X_train_r X_test_r] y_train_r] y_test_r]|e] eqn:Hsplit_r;
    [|left; by eexists].
  unfold model_rf, model_svm, model_cnn.
  destruct (rf_fit W 100 42 X_train (inject_Z <$> y_train)) as [m_rf|e] eqn:Hrf;
    [|left; by eexists].
  destruct (svr_fit W "rbf" 100 0.0005 X_train (inject_Z <$> y_train))
    as [m_svm|e] eqn:Hsvm; [|left; by eexists].
  cbn [rbind].
  destruct (keras_fit W _ 0.001 "mse" 30 8 X_train_r (inject_Z <$> y_train_r))
    as [m_cnn|e] eqn:Hcnn; [|left; by eexists].
  right; right. eexists _, _. split; [by econstructor|]. split; [done|].
  reflexivity.
Qed.

(** The inner loop appends, for a prefix of the dictionary, the matrix of
    the binarized target against the binarized predictions; the prefix is
    the whole dictionary when the loop returns. *)
Lemma collect_inv attack y_binary preds_dict s s' r :
  collect attack y_binary preds_dict s = (s', r) →
  ∃ new,
    s' = with_conf_data (conf_data s ++ new) s ∧
    Forall (λ x, ∃ model preds c,
                   (model, preds) ∈ preds_dict ∧ x = (attack, model, c) ∧
                   confusion_matrix y_binary (binarize 0.85 preds) (0, 1)%Z
                   = Ok c) new ∧
    (r = Ok tt →
     Forall2 (λ mp x, ∃ c, x = (attack, mp.1, c) ∧
                confusion_matrix y_binary (binarize 0.85 mp.2) (0, 1)%Z = Ok c)
             preds_dict new).
Proof.
  unfold collect. revert s.
  induction preds_dict as [|[model preds] pd IH]; intros s Hrun.
  - injection Hrun as <- <-. exists []. rewrite app_nil_r.
    split; [by destruct s|]. split; [constructor|]. intros _. constructor.
  - rewrite for_each_cons in Hrun. unfold bind, lift in Hrun.
    destruct (confusion_matrix y_binary (binarize 0.85 preds) (0, 1)%Z)
      as [c|e] eqn:Hc.
    + cbn [conf_data_append modify] in Hrun.
      apply IH in Hrun as (new & -> & Hnew & Hall). simpl.
      exists ((attack, model, c) :: new). split.
      { unfold with_conf_data. simpl. by rewrite <- app_assoc. }
      split.
      * constructor.
        { exists model, preds, c. split; [left|done]. }
        eapply Forall_impl; [exact Hnew|].
        intros x (m & p & c' & Hin & -> & Hc').
        exists m, p, c'. split; [by right|done].
      * intros Hr. constructor; [by exists c|by apply Hall].
    + injection Hrun as <- <-. exists []. rewrite app_nil_r.
      split; [by destruct s|]. split; [constructor|done].
Qed.

(** [emitted attack path x]: [x] is a record the loop body appends for the
    scenario: the matrix of its binarized target, of at least two classes,
    against the binarized predictions of one of the three models. *)
Definition emitted (attack path : string) (x : string * string * cm) : Prop :=
  ∃ y_true preds_dict model preds c,
    fitted path y_true preds_dict ∧
    (2 ≤ length (np_unique (binarize 0.85 y_true)))%nat ∧
    (model, preds) ∈ preds_dict ∧
    x = (attack, model, c) ∧
    confusion_matrix (binarize 0.85 y_true) (binarize 0.85 preds) (0, 1)%Z
    = Ok c.

(** Whatever the outcome of the loop body, it leaves the table of metrics
    alone and only appends records of its scenario. *)
Lemma process_inv attack path s s' r :
  process W attack path s = (s', r) →
  ∃ new,
    conf_data s' = conf_data s ++ new ∧
    metrics_data s' = metrics_data s ∧
    Forall (emitted attack path) new.
Proof.
  intros Hrun.
  destruct (process_cases attack path s)
    as [[e He]|[(y & _ & _ & Hskip)|(y & pd & Hfit & Hcls & Hgo)]].
  - rewrite He in Hrun. injection Hrun as <- _.
    exists []. by rewrite app_nil_r.
  - rewrite Hskip in Hrun. injection Hrun as <- _.
    exists []. by rewrite app_nil_r.
  - rewrite Hgo in Hrun.
    apply collect_inv in Hrun as (new & -> & Hnew & _).
    exists new. split; [done|]. split; [done|].
    eapply Forall_impl; [exact Hnew|].
    intros x (m & p & c & Hin & -> & Hc). by exists y, pd, m, p, c.
Qed.

(** A scenario with fewer than two classes: the body prints the two lines
    and appends nothing. *)
Lemma process_skip attack path y_true s :
  target path y_true →
  (length (np_unique (binarize 0.85 y_true)) < 2)%nat →
  process W attack path s
  = (printed (skipping_line attack) (printed (processing_line attack) s), Ok tt).
Proof.
  intros (df0 & df & Hread & Hfe & Hy) Hguard.
  unfold process, bind, lift. cbn [print modify].
  rewrite Hread, Hfe, Hy.
  by apply Nat.ltb_lt in Hguard as ->.
Qed.

(** [prepared W path y_true X_scaled X_train y_train X_train_r y_train_r]:
    the scenario has at least two classes and the statements of the loop
    body up to the two splits return. *)
Inductive prepared (path : string)
  : Series → matrix → matrix → list Z → tensor → list Z → Prop :=
| prepared_intro df0 df y_true X X_scaled
    X_train X_test y_train y_test X_train_r X_test_r y_train_r y_test_r :
    read_csv W path = Ok df0 →
    feature_engineering df0 = Ok df →
    getitem df "Swarm Coordination Rate" = Ok y_true →
    (2 ≤ length (np_unique (binarize 0.85 y_true)))%nat →
    select df features = Ok X →
    fit_transform W (rows_of X) = Ok X_scaled →
    train_test_split W _ _ X_scaled (binarize 0.85 y_true) 0.2 42%Z
    = Ok (X_train, X_test, y_train, y_test) →
    train_test_split W _ _ (reshape X_scaled) (binarize 0.85 y_true) 0.2 42%Z
    = Ok (X_train_r, X_test_r, y_train_r, y_test_r) →
    prepared path y_true X_scaled X_train y_train X_train_r y_train_r.

(** The same statements as one computation, [None] for a skip. *)
Definition prepare (path : string)
  : result (option (Series * matrix * matrix * list Z * tensor * list Z)) :=
  let! df0 := read_csv W path in
  let! df := feature_engineering df0 in
  let! y_true := getitem df "Swarm Coordination Rate" in
  if (length (np_unique (binarize 0.85 y_true)) <? 2)%nat then Ok None
  else
    let! X := select df features in
    let! X_scaled := fit_transform W (rows_of X) in
    let! '(X_train, _, y_train, _) :=
      train_test_split W _ _ X_scaled (binarize 0.85 y_true) 0.2 42%Z in
    let! '(X_train_r, _, y_train_r, _) :=
      train_test_split W _ _ (reshape X_scaled) (binarize 0.85 y_true)
        0.2 42%Z in
    Ok (Some (y_true, X_scaled, X_train, y_train, X_train_r, y_train_r)).

Lemma prepare_prepared path y X_scaled X_train y_train X_train_r y_train_r :
  prepare path
  = Ok (Some (y, X_scaled, X_train, y_train, X_train_r, y_train_r)) →
  prepared path y X_scaled X_train y_train X_train_r y_train_r.
Proof.
  unfold prepare.
  destruct (read_csv W path) as [df0|] eqn:Hread; cbn [rbind]; [|done].
  destruct (feature_engineering df0) as [df|] eqn:Hfe; cbn [rbind]; [|done].
  destruct (getitem df _) as [y'|] eqn:Hy; cbn [rbind]; [|done].
  destruct (length _ <? 2)%nat eqn:Hguard; [done|].
  apply Nat.ltb_ge in Hguard.
  destruct (select df features) as [X|] eqn:HX; cbn [rbind]; [|done].
  destruct (fit_transform W (rows_of X)) as [Xs|] eqn:Hscale;
    cbn [rbind]; [|done].
  destruct (train_test_split W _ _ Xs (binarize 0.85 y') 0.2 42%Z)
    as [[[[Xt Xte] yt] yte]|] eqn:Hsplit; cbn [rbind]; [|done].
  destruct (train_test_split W _ _ (reshape Xs) (binarize 0.85 y') 0.2 42%Z)
    as [[[[Xr Xre] yr] yre]|] eqn:Hsplit_r; cbn [rbind]; [|done].
  intros [= <- <- <- <- <- <-]. by econstructor.
Qed.

(** [fit_fails W path e]: moreover the first of the three fits that does
    not return raises [e]. *)
Inductive fit_fails (path : string) (e : exn) : Prop :=
| fit_fails_rf y X_scaled X_train y_train X_train_r y_train_r :
    prepared path y X_scaled X_train y_train X_train_r y_train_r →
    rf_fit W 100 42 X_train (inject_Z <$> y_train) = Raise e →
    fit_fails path e
| fit_fails_svm y X_scaled X_train y_train X_train_r y_train_r m_rf :
    prepared path y X_scaled X_train y_train X_train_r y_train_r →
    rf_fit W 100 42 X_train (inject_Z <$> y_train) = Ok m_rf →
    svr_fit W "rbf" 100 0.0005 X_train (inject_Z <$> y_train) = Raise e →
    fit_fails path e
| fit_fails_cnn y X_scaled X_train y_train X_train_r y_train_r m_rf m_svm :
    prepared path y X_scaled X_train y_train X_train_r y_train_r →
    rf_fit W 100 42 X_train (inject_Z <$> y_train) = Ok m_rf →
    svr_fit W "rbf" 100 0.0005 X_train (inject_Z <$> y_train) = Ok m_svm →
    keras_fit W (cnn_layers X_train_r) 0.001 "mse" 30 8 X_train_r
      (inject_Z <$> y_train_r) = Raise e →
    fit_fails path e.

(** A failing fit: the body raises the exception of the fit, having
    printed its line and appended nothing. *)
Lemma process_fit_fails attack path e s :
  fit_fails path e →
  process W attack path s = (printed (processing_line attack) s, Raise e).
Proof.
  intros Hfail. unfold process, bind, lift. cbn [print modify].
  unfold model_rf, model_svm, model_cnn.
  destruct Hfail as [y Xs Xt yt Xr yr [] Hrf
                    |y Xs Xt yt Xr yr m_rf [] Hrf Hsvm
                    |y Xs Xt yt Xr yr m_rf m_svm [] Hrf Hsvm Hcnn];
    repeat match goal with
           | H : _ = Ok _ |- _ => rewrite H; clear H
           | H : (2 ≤ _)%nat |- _ => apply Nat.ltb_ge in H; rewrite H; clear H
           end;
    cbn [rbind].
  - by rewrite Hrf.
  - by rewrite Hsvm.
  - unfold cnn_layers in Hcnn. by rewrite Hcnn.
Qed.

Lemma target_functional path y1 y2 : target path y1 → target path y2 → y1 = y2.
Proof.
  intros (? & ? & H1 & H2 & H3) (? & ? & H1' & H2' & H3'). congruence.
Qed.


End Scenario.

(** ** The two loops *)

(** The keys of a dictionary name one value each. *)
Lemma NoDup_fst_functional {A B : Type} (l : list (A * B)) a b1 b2 :
  NoDup l.*1 → (a, b1) ∈ l → (a, b2) ∈ l → b1 = b2.
Proof.
  induction l as [|[a' b'] l IH]; simpl; intros Hnd H1 H2.
  - by apply elem_of_nil in H1.
  - apply NoDup_cons in Hnd as [Hnotin Hnd].
    apply elem_of_cons in H1 as [H1|H1]; apply elem_of_cons in H2 as [H2|H2].
    + congruence.
    + injection H1 as -> ->. destruct Hnotin.
      apply list_elem_of_fmap. by exists (a', b2).
    + injection H2 as -> ->. destruct Hnotin.
      apply list_elem_of_fmap. by exists (a', b1).
    + by apply IH.
Qed.

Section Run.

Context (W : world).

Definition scenario_body (x : string * string) : M state unit :=
  let '(attack, path) := x in process W attack path.

Lemma collect_all_unfold paths s :
  collect_all W paths s = for_each paths scenario_body (with_conf_data [] s).
Proof. reflexivity. Qed.

(** Every record of [conf_data] after the first loop, whatever its
    outcome, was appended for a scenario of the dictionary. *)
Lemma collect_all_emitted paths s s' r :
  collect_all W paths s = (s', r) →
  Forall (λ x, ∃ attack path, (attack, path) ∈ paths ∧ emitted W attack path x)
         (conf_data s').
Proof.
  rewrite collect_all_unfold.
  apply (for_each_invariant
           (λ t, Forall (λ x, ∃ attack path,
                           (attack, path) ∈ paths ∧ emitted W attack path x)
                        (conf_data t))).
  - intros [attack path] t t' q Hin Ht Hbody.
    apply process_inv in Hbody as (new & -> & _ & Hnew).
    apply Forall_app. split; [done|].
    eapply Forall_impl; [exact Hnew|]. intros x Hx. by exists attack, path.
  - constructor.
Qed.

(** The loop body only adds to what was printed and to [conf_data]. *)
Lemma process_grows attack path s s' r :
  process W attack path s = (s', r) →
  (∃ lines, stdout s' = stdout s ++ lines) ∧
  (∃ new, conf_data s' = conf_data s ++ new).
Proof.
  intros Hrun. split; [|apply process_inv in Hrun as (new & ? & _); by exists new].
  destruct (process_cases W attack path s)
    as [[e He]|[(y & _ & _ & Hskip)|(y & pd & _ & _ & Hgo)]].
  - rewrite He in Hrun. injection Hrun as <- _. by eexists.
  - rewrite Hskip in Hrun. injection Hrun as <- _. simpl.
    rewrite <- app_assoc. by eexists.
  - rewrite Hgo in Hrun. apply collect_inv in Hrun as (new & -> & _).
    by eexists.
Qed.

Lemma for_each_process_grows paths s s' r :
  for_each paths scenario_body s = (s', r) →
  (∃ lines, stdout s' = stdout s ++ lines) ∧
  (∃ new, conf_data s' = conf_data s ++ new).
Proof.
  apply (for_each_invariant
           (λ t, (∃ lines, stdout t = stdout s ++ lines) ∧
                 (∃ new, conf_data t = conf_data s ++ new))).
  - intros [attack path] t t' q _ [[lines Hl] [new Hn]] Hbody.
    apply process_grows in Hbody as [[lines' Hl'] [new' Hn']].
    split.
    + exists (lines ++ lines'). by rewrite Hl', Hl, app_assoc.
    + exists (new ++ new'). by rewrite Hn', Hn, app_assoc.
  - split; exists []; by rewrite app_nil_r.
Qed.

Definition metrics_body (x : string * string * cm) : M state unit :=
  let '(attack, model, c) := x in
  let* row := lift (metrics_of attack model c) in
  metrics_data_append row.

(** The second loop appends, for a prefix of the records, their rows; the
    prefix is the whole list when the loop returns, and it returns when
    every record has a row. *)
Lemma metrics_loop_inv (cd : list (string * string * cm)) s s' r :
  for_each cd metrics_body s = (s', r) →
  ∃ rows,
    s' = with_metrics_data (metrics_data s ++ rows) s ∧
    (r = Ok tt →
     Forall2 (λ x row, metrics_of x.1.1 x.1.2 x.2 = Ok row) cd rows) ∧
    ((∀ x, x ∈ cd → ∃ row, metrics_of x.1.1 x.1.2 x.2 = Ok row) → r = Ok tt).
Proof.
  revert s. induction cd as [|[[attack model] c] cd IH]; intros s Hrun.
  - injection Hrun as <- <-. exists []. rewrite app_nil_r.
    split; [by destruct s|]. split; [constructor|done].
  - rewrite for_each_cons in Hrun. unfold metrics_body, bind, lift in Hrun.
    destruct (metrics_of attack model c) as [row|e] eqn:Hrow.
    + cbn [metrics_data_append modify] in Hrun.
      apply IH in Hrun as (rows & -> & Hall & Htot). simpl.
      exists (row :: rows). split.
      { unfold with_metrics_data. simpl. by rewrite <- app_assoc. }
      split.
      * intros Hr. constructor; [done|by apply Hall].
      * intros Hok. apply Htot. intros x Hx. apply Hok. by right.
    + injection Hrun as <- <-. exists []. rewrite app_nil_r.
      split; [by destruct s|]. split; [done|].
      intros Hok. destruct (Hok (attack, model, c)) as [row Hrow']; [left|].
      simpl in Hrow'. congruence.
Qed.

Lemma metrics_table_unfold s :
  metrics_table s
  = match for_each (conf_data s) metrics_body (with_metrics_data [] s) with
    | (s', Ok _) => (s', Ok (metrics_data s'))
    | (s', Raise e) => (s', Raise e)
    end.
Proof. reflexivity. Qed.

Lemma metrics_table_inv s s' table :
  metrics_table s = (s', Ok table) →
  s' = with_metrics_data table s ∧
  Forall2 (λ x row, metrics_of x.1.1 x.1.2 x.2 = Ok row) (conf_data s) table.
Proof.
  rewrite metrics_table_unfold.
  destruct (for_each _ _ _) as [t [[]|e]] eqn:Hloop; [|done].
  intros [= <- <-].
  apply metrics_loop_inv in Hloop as (rows & -> & Hall & _).
  split; [done|]. by apply Hall.
Qed.

Lemma metrics_table_total s :
  (∀ x, x ∈ conf_data s → ∃ row, metrics_of x.1.1 x.1.2 x.2 = Ok row) →
  ∃ table, metrics_table s = (with_metrics_data table s, Ok table).
Proof.
  intros Hok. rewrite metrics_table_unfold.
  destruct (for_each _ _ _) as [t r] eqn:Hloop.
  apply metrics_loop_inv in Hloop as (rows & -> & _ & Htot).
  rewrite (Htot Hok). by exists rows.
Qed.

Lemma notebook_on_inv paths s s' table :
  notebook_on W paths s = (s', Ok table) →
  ∃ s1, collect_all W paths s = (s1, Ok tt) ∧ metrics_table s1 = (s', Ok table).
Proof.
  unfold notebook_on, bind.
  destruct (collect_all W paths s) as [s1 [[]|e]]; [|done].
  intros Hm. by exists s1.
Qed.

End Run.

End F1Spec.

(** * Claims on the classification notebook *)

Module F1Claims.

Import Features Examples Loops F1 FeaturesSpec MetricsSpec F1Spec.

Local Open Scope Q_scope.

Lemma Forall2_elem_of_r {A B : Type} (P : A → B → Prop) l k y :
  Forall2 P l k → y ∈ k → ∃ x, x ∈ l ∧ P x y.
Proof.
  induction 1 as [|x y' l k Hxy _ IH]; intros Hy.
  - by apply elem_of_nil in Hy.
  - apply elem_of_cons in Hy as [->|Hy].
    + exists x. split; [left|done].
    + destruct (IH Hy) as (x' & ? & ?). exists x'. split; [by right|done].
Qed.

Lemma Forall2_elem_of_l {A B : Type} (P : A → B → Prop) l k x :
  Forall2 P l k → x ∈ l → ∃ y, y ∈ k ∧ P x y.
Proof.
  induction 1 as [|x' y l k Hxy _ IH]; intros Hx.
  - by apply elem_of_nil in Hx.
  - apply elem_of_cons in Hx as [->|Hx].
    + exists y. split; [left|done].
    + destruct (IH Hx) as (y' & ? & ?). exists y'. split; [by right|done].
Qed.

Section Claims.

Context (W : world).

Lemma metrics_table_frame s s' r :
  metrics_table s = (s', r) →
  conf_data s' = conf_data s ∧ stdout s' = stdout s.
Proof.
  rewrite metrics_table_unfold.
  destruct (for_each _ _ _) as [t q] eqn:Hloop.
  apply metrics_loop_inv in Hloop as (rows & -> & _).
  by destruct q; intros [= <- _].
Qed.

(** The state after the notebook is the state after the first loop, up to
    the table of metrics. *)
Lemma notebook_on_states paths s s' r :
  notebook_on W paths s = (s', r) →
  ∃ s1 r1,
    collect_all W paths s = (s1, r1) ∧
    conf_data s' = conf_data s1 ∧ stdout s' = stdout s1 ∧
    (∀ table, r = Ok table →
       r1 = Ok tt ∧ metrics_table s1 = (s', Ok table)).
Proof.
  unfold notebook_on, bind.
  destruct (collect_all W paths s) as [s1 [[]|e]] eqn:Hc.
  - intros Hm. exists s1, (Ok tt). split; [done|].
    destruct (metrics_table_frame _ _ _ Hm) as [? ?].
    split; [done|]. split; [done|]. by intros table ->.
  - intros [= <- <-]. exists s1, (Raise e). by repeat split.
Qed.

(** The rows of the table are the rows of the records, one for one. *)
Lemma table_rows s s' table row :
  metrics_table s = (s', Ok table) →
  row ∈ table →
  ∃ c, (Attack row, Model row, c) ∈ conf_data s ∧
       metrics_of (Attack row) (Model row) c = Ok row.
Proof.
  intros [_ Hall]%metrics_table_inv Hrow.
  destruct (Forall2_elem_of_r _ _ _ _ Hall Hrow) as ([[a m] c] & Hin & Hm).
  simpl in Hm. destruct (metrics_of_inv _ _ _ _ Hm) as (<- & <- & _).
  by exists c.
Qed.

(** A record of a scenario of fewer than two classes is never appended. *)
Lemma skipped_not_emitted paths attack path y_true s s' r :
  NoDup paths.*1 →
  (attack, path) ∈ paths →
  target W path y_true →
  (length (np_unique (binarize 0.85 y_true)) < 2)%nat →
  collect_all W paths s = (s', r) →
  ∀ model c, (attack, model, c) ∉ conf_data s'.
Proof.
  intros Hnd Hin Hy Hlt Hrun model c Hx.
  apply collect_all_emitted in Hrun.
  rewrite Forall_forall in Hrun.
  destruct (Hrun _ Hx)
    as (a & p & Hin' & y & pd & m & preds & c' & Hfit & Hcls & _ & Heq & _).
  injection Heq as <- _ _.
  rewrite (NoDup_fst_functional _ _ _ _ Hnd Hin' Hin) in Hfit.
  rewrite (target_functional _ _ _ _ Hy (fitted_target _ _ _ _ Hfit)) in Hlt.
  lia.
Qed.

(** Once printed, a line stays. *)
Lemma line_stays paths line s s' r :
  for_each paths (scenario_body W) s = (s', r) →
  line ∈ stdout s → line ∈ stdout s'.
Proof.
  intros [[lines ->] _]%for_each_process_grows Hin.
  apply elem_of_app. by left.
Qed.


(** C5.  A scenario of the dictionary whose binarized coordination rates
    have fewer than two distinct classes: its loop body prints the
    skipping line after the processing line, appends nothing and returns;
    no record of [conf_data] carries its name; and when the notebook
    returns its table, the skipping line has been printed and no row of
    the table carries the scenario's name. *)
Theorem degenerate_scenario_is_skipped
    (paths : list (string * string)) (attack path : string)
    (y_true : Series) (s s' : state) (r : result (list metrics_row)) :
  NoDup paths.*1 →
  (attack, path) ∈ paths →
  scenario_target W path = Ok y_true →
  (length (np_unique (binarize 0.85 y_true)) < 2)%nat →
  notebook_on W paths s = (s', r) →
  (∀ t, process W attack path t
        = ({| stdout := stdout t ++
                [nl +:+ "📌 Processing: " +:+ attack;
                 "⚠️ Skipping " +:+ attack +:+ ": insufficient class diversity"];
              conf_data := conf_data t;
              metrics_data := metrics_data t |}, Ok tt)) ∧
  (∀ model c, (attack, model, c) ∉ conf_data s') ∧
  (∀ table, r = Ok table →
     ("⚠️ Skipping " +:+ attack +:+ ": insufficient class diversity")
       ∈ stdout s' ∧
     ∀ row, row ∈ table → Attack row ≠ attack).
Proof.
  intros Hnd Hin Htarget%scenario_target_Ok Hlt Hrun.
  destruct (notebook_on_states _ _ _ _ Hrun)
    as (s1 & r1 & Hc & Hcd & Hout & Htable).
  assert (Hnone : ∀ model c, (attack, model, c) ∉ conf_data s').
  { rewrite Hcd. by eapply skipped_not_emitted. }
  split.
  { intros t. rewrite (process_skip W attack path y_true t Htarget Hlt).
    unfold printed, skipping_line, processing_line. simpl.
    by rewrite <- app_assoc. }
  split; [exact Hnone|].
  intros table ->. destruct (Htable _ eq_refl) as [-> Hm]. split.
  - rewrite Hout. rewrite collect_all_unfold in Hc.
    apply list_elem_of_split in Hin as (l1 & l2 & ->).
    apply for_each_Ok_split in Hc as (t & t' & _ & Hbody & Hrest).
    eapply line_stays; [exact Hrest|].
    simpl in Hbody. rewrite (process_skip W _ _ _ _ Htarget Hlt) in Hbody.
    injection Hbody as <-. simpl. apply elem_of_app. right. left.
  - intros row Hrow Heq.
    destruct (table_rows _ _ _ _ Hm Hrow) as (c & Hc' & _).
    rewrite Heq, <- Hcd in Hc'. by eapply Hnone.
Qed.

(** The counts of an appended record add up to the number of rows of its
    scenario, which is at least two. *)
Lemma emitted_total attack path x :
  emitted W attack path x →
  ∃ y_true,
    target W path y_true ∧
    (2 ≤ length (np_unique (binarize 0.85 y_true)))%nat ∧
    (2 ≤ length y_true)%nat ∧
    x.1.1 = attack ∧
    (c00 x.2 + c01 x.2 + c10 x.2 + c11 x.2 = Z.of_nat (length y_true))%Z.
Proof.
  intros (y & pd & m & preds & c & Hfit & Hcls & _ & -> & Hc).
  exists y. split; [by eapply fitted_target|]. split; [done|].
  split.
  { pose proof (np_unique_length_le (binarize 0.85 y)) as Hle.
    rewrite binarize_length in Hle. lia. }
  split; [done|]. simpl.
  rewrite (confusion_matrix_total _ _ _ (binarize_binary _ _)
             (binarize_binary _ _) Hc).
  by rewrite binarize_length.
Qed.

(** C10.  After the first loop, whatever its outcome, every record of
    [conf_data] belongs to a scenario of the dictionary whose binarized
    target has at least two classes; its four counts add up to the number
    of rows of that scenario, which is at least 2; so the division that
    computes its accuracy has a non-zero divisor and returns, and the second
    loop returns a table. *)
Theorem accuracy_denominator_is_row_count
    (paths : list (string * string)) (s s' : state) (r : result unit) :
  collect_all W paths s = (s', r) →
  (∀ attack model c,
     (attack, model, c) ∈ conf_data s' →
     ∃ path y_true,
       (attack, path) ∈ paths ∧
       scenario_target W path = Ok y_true ∧
       (2 ≤ length (np_unique (binarize 0.85 y_true)))%nat ∧
       let '(tn, fp, fn, tp) := ravel c in
       (tp + tn + fp + fn = Z.of_nat (length y_true))%Z ∧
       (2 ≤ length y_true)%nat ∧
       accuracy_of tn fp fn tp
       = Ok (inject_Z (tp + tn) / inject_Z (tp + tn + fp + fn))) ∧
  (∃ table,
     metrics_table s'
     = ({| stdout := stdout s'; conf_data := conf_data s';
           metrics_data := table |}, Ok table)).
Proof.
  intros Hrun. apply collect_all_emitted in Hrun. rewrite Forall_forall in Hrun.
  assert (Hrec : ∀ attack model c,
            (attack, model, c) ∈ conf_data s' →
            ∃ path y_true,
              (attack, path) ∈ paths ∧ target W path y_true ∧
              (2 ≤ length (np_unique (binarize 0.85 y_true)))%nat ∧
              (2 ≤ length y_true)%nat ∧
              (c00 c + c01 c + c10 c + c11 c = Z.of_nat (length y_true))%Z).
  { intros attack model c Hx.
    destruct (Hrun _ Hx) as (a & p & Hin & Hem).
    apply emitted_total in Hem as (y & Hy & Hcls & Hlen & Ha & Htot).
    simpl in Ha, Htot. subst a. by exists p, y. }
  split.
  - intros attack model c Hx.
    destruct (Hrec _ _ _ Hx) as (p & y & Hin & Hy & Hcls & Hlen & Htot).
    exists p, y. split; [done|]. split; [by apply scenario_target_Ok|].
    split; [done|]. unfold ravel.
    split; [lia|]. split; [done|].
    unfold accuracy_of. apply true_divide_Ok. lia.
  - apply metrics_table_total. intros [[attack model] c] Hx.
    destruct (Hrec _ _ _ Hx) as (p & y & _ & _ & _ & Hlen & Htot).
    apply metrics_of_Ok. simpl. lia.
Qed.


End Claims.

End F1Claims.

(** * The classification notebook on concrete logs *)

Module F1Examples.

Import Features Examples Loops F1 FeaturesSpec MetricsSpec F1Spec F1Claims.

Local Open Scope Q_scope.

(** The notebook on [files]: the third scenario is skipped, the other
    three give three rows each. *)
Example notebook_on_files :
  ∃ s' table,
    notebook (toy_world files) init = (s', Ok table) ∧
    stdout s'
    = [ processing_line "Critical Node";
        processing_line "Data Manipulation";
        processing_line "MITM Attack";
        skipping_line "MITM Attack";
        processing_line "Sybil Attack" ] ∧
    (λ row, (Attack row, Model row, Accuracy row)) <$> table
    = [ ("Critical Node", "Random Forest", 0.6667);
        ("Critical Node", "SVM", 0.3333);
        ("Critical Node", "CNN", 0.6667);
        ("Data Manipulation", "Random Forest", 0.6667);
        ("Data Manipulation", "SVM", 0.3333);
        ("Data Manipulation", "CNN", 0.6667);
        ("Sybil Attack", "Random Forest", 0.6667);
        ("Sybil Attack", "SVM", 0.3333);
        ("Sybil Attack", "CNN", 0.6667) ]%string.
Proof.
  eexists _, _. split; [vm_compute; reflexivity|].
  split; vm_compute; reflexivity.
Qed.

Example zero_guards_on_empty_predictions :
  metrics_of "Critical Node" "CNN" {| c00 := 1; c01 := 0; c10 := 2; c11 := 0 |}
  = Ok {| Attack := "Critical Node"; Model := "CNN";
          Accuracy := 0.3333; Precision := 0.0000; Recall := 0.0000;
          F1_Score := 0.0000;
          Support_Malicious := 1; Support_Trustworthy := 2 |}.
Proof. vm_compute. reflexivity. Qed.

Lemma degenerate_scenario_is_skipped_witness :
  ∃ s' r,
    notebook (toy_world files) init = (s', r) ∧
    (∀ t, process (toy_world files) "MITM Attack"
            "C:/Users/danis/AirSim/drone_simulation_log_mitm.csv" t
          = ({| stdout := stdout t ++
                  [nl +:+ "📌 Processing: " +:+ "MITM Attack";
                   "⚠️ Skipping " +:+ "MITM Attack" +:+
                   ": insufficient class diversity"];
                conf_data := conf_data t;
                metrics_data := metrics_data t |}, Ok tt)) ∧
    (∀ model c, ("MITM Attack"%string, model, c) ∉ conf_data s') ∧
    (∀ table, r = Ok table →
       ("⚠️ Skipping " +:+ "MITM Attack" +:+ ": insufficient class diversity")
         ∈ stdout s' ∧
       ∀ row, row ∈ table → Attack row ≠ "MITM Attack"%string).
Proof.
  eexists _, _. split; [vm_compute; reflexivity|].
  eapply (degenerate_scenario_is_skipped (toy_world files) file_paths "MITM Attack"
            "C:/Users/danis/AirSim/drone_simulation_log_mitm.csv"
            [0.9; 0.95; 0.85] init).
  - apply (bool_decide_unpack _). vm_compute. exact I.
  - apply (bool_decide_unpack _). vm_compute. exact I.
  - vm_compute. reflexivity.
  - vm_compute. lia.
  - vm_compute. reflexivity.
Defined.

Lemma accuracy_denominator_is_row_count_witness :
  ∃ s' r,
    collect_all (toy_world files) file_paths init = (s', r) ∧
    (∀ attack model c,
       (attack, model, c) ∈ conf_data s' →
       ∃ path y_true,
         (attack, path) ∈ file_paths ∧
         scenario_target (toy_world files) path = Ok y_true ∧
         (2 ≤ length (np_unique (binarize 0.85 y_true)))%nat ∧
         let '(tn, fp, fn, tp) := ravel c in
         (tp + tn + fp + fn = Z.of_nat (length y_true))%Z ∧
         (2 ≤ length y_true)%nat ∧
         accuracy_of tn fp fn tp
         = Ok (inject_Z (tp + tn) / inject_Z (tp + tn + fp + fn))) ∧
    (∃ table,
       metrics_table s'
       = ({| stdout := stdout s'; conf_data := conf_data s';
             metrics_data := table |}, Ok table)).
Proof.
  eexists _, _. split; [vm_compute; reflexivity|].
  eapply (accuracy_denominator_is_row_count (toy_world files) file_paths init).
  vm_compute. reflexivity.
Defined.



End F1Examples.

(** * The regression notebook *)

Module R2Spec.

Import Features Examples Loops R2 FeaturesSpec.

Local Open Scope Q_scope.

(** ** The order of the table *)

(** [row_le a b]: the scenario name of [a] is before that of [b] in the
    order of strings, or the names are the same and the R2 score of [a] is
    not below that of [b]. *)
Definition row_le (a b : summary_row) : Prop :=
  String.compare (Attack a) (Attack b) = Lt
  ∨ (Attack a = Attack b ∧ R2_Score b <= R2_Score a).

Lemma compare_refl (s : string) : String.compare s s = Eq.
Proof.
  pose proof (String.compare_antisym s s) as H.
  destruct (String.compare s s); simpl in H; congruence.
Qed.

Lemma compare_Lt_trans (a b c : string) :
  String.compare a b = Lt → String.compare b c = Lt → String.compare a c = Lt.
Proof.
  intros Hab Hbc. apply String_as_OT.cmp_lt.
  eapply String_as_OT.lt_trans; by apply String_as_OT.cmp_lt.
Qed.

Lemma before_row_le a b : before a b = true ↔ row_le a b.
Proof.
  unfold before, row_le.
  destruct (String.compare (Attack a) (Attack b)) eqn:Hcmp.
  - apply String.compare_eq_iff in Hcmp. rewrite Qle_bool_iff. split.
    + intros. by right.
    + intros [|[_ ?]]; done.
  - split; [by left|done].
  - split; [done|]. intros [|[Heq _]]; [done|].
    rewrite Heq, compare_refl in Hcmp. done.
Qed.

Lemma row_le_total a b : row_le a b ∨ row_le b a.
Proof.
  unfold row_le.
  destruct (String.compare (Attack a) (Attack b)) eqn:Hcmp.
  - apply String.compare_eq_iff in Hcmp.
    destruct (Qlt_le_dec (R2_Score a) (R2_Score b)) as [Hlt|Hle].
    + right. right. split; [done|]. by apply Qlt_le_weak.
    + left. right. done.
  - left. by left.
  - right. left. rewrite String.compare_antisym, Hcmp. done.
Qed.

#[local] Instance row_le_trans : Transitive row_le.
Proof.
  intros a b c [Hab|[Hab Hr]] [Hbc|[Hbc Hr']]; unfold row_le.
  - left. by eapply compare_Lt_trans.
  - left. by rewrite <- Hbc.
  - left. by rewrite Hab.
  - right. split; [congruence|]. by eapply Qle_trans.
Qed.

(** ** The sort *)

Lemma insert_row_Permutation r l : insert_row r l ≡ₚ r :: l.
Proof.
  induction l as [|x l IH]; simpl; [done|].
  destruct (before r x); [done|].
  rewrite IH. apply perm_swap.
Qed.

Lemma insert_row_HdRel a r l :
  row_le a r → HdRel row_le a l → HdRel row_le a (insert_row r l).
Proof.
  intros Har Hal. destruct l as [|x l]; simpl; [by constructor|].
  destruct (before r x); constructor; [done|].
  by inversion Hal.
Qed.

Lemma insert_row_Sorted r l : Sorted row_le l → Sorted row_le (insert_row r l).
Proof.
  induction 1 as [|x l Hl IH Hx]; simpl.
  - by repeat constructor.
  - destruct (before r x) eqn:Hrx.
    + apply before_row_le in Hrx.
      constructor; [by constructor|by constructor].
    + constructor; [done|].
      apply insert_row_HdRel; [|done].
      destruct (row_le_total r x) as [Hle|Hle]; [|done].
      apply before_row_le in Hle. congruence.
Qed.

Lemma sort_values_Permutation l : sort_values l ≡ₚ l.
Proof.
  induction l as [|x l IH]; simpl; [done|].
  by rewrite insert_row_Permutation, IH.
Qed.

Lemma sort_values_Sorted l : Sorted row_le (sort_values l).
Proof.
  induction l as [|x l IH]; simpl; [constructor|].
  by apply insert_row_Sorted.
Qed.

Lemma sort_values_StronglySorted l : StronglySorted row_le (sort_values l).
Proof. apply Sorted_StronglySorted; [apply row_le_trans|apply sort_values_Sorted]. Qed.

(** A table is returned for a summary that is not empty, and is that
    summary sorted; the state is left as it was. *)
Lemma results_table_Ok s s' table :
  results_table s = (s', Ok table) →
  s' = s ∧ table = sort_values (summary s) ∧ summary s ≠ [].
Proof.
  unfold results_table, bind, gets, ret, lift.
  destruct (summary s) as [|row rows] eqn:Hsum; [done|].
  by intros [= <- <-].
Qed.

(** ** States *)

Definition printed (line : string) (s : state) : state :=
  {| stdout := stdout s ++ [line]; summary := summary s |}.

Definition with_summary (l : list summary_row) (s : state) : state :=
  {| stdout := stdout s; summary := l |}.

Definition processing_line (attack_name : string) : string :=
  nl +:+ " Processing: " +:+ attack_name.

(** ** One scenario *)

Section Scenario.

Context (W : world).

Definition cnn_layers (X_train : tensor) : list layer :=
  [ Input (shape1 X_train) 1;
    Conv1D 64 2 "relu";
    Conv1D 32 2 "relu";
    Flatten;
    Dense 64 (Some "relu"%string);
    Dense 1 None ].

(** [prepared W path y X_scaled X_train y_train X_train_r]: the statements
    of the loop body up to the two splits return; [y] is the target,
    [X_scaled] the scaled features of all rows, and the other three are the
    training parts of the splits. *)
Inductive prepared (path : string)
  : Series → matrix → matrix → Series → tensor → Prop :=
| prepared_intro df0 df X y X_scaled
    X_train X_test y_train y_test X_train_r X_test_r y_train_r y_test_r :
    read_csv W path = Ok df0 →
    preprocess df0 = Ok (df, X, y) →
    fit_transform W (rows_of X) = Ok X_scaled →
    train_test_split W _ _ X_scaled y 0.2 42%Z
    = Ok (X_train, X_test, y_train, y_test) →
    train_test_split W _ _ (reshape X_scaled) y 0.2 42%Z
    = Ok (X_train_r, X_test_r, y_train_r, y_test_r) →
    prepared path y X_scaled X_train y_train X_train_r.

(** The same statements as one computation. *)
Definition prepare (path : string)
  : result (Series * matrix * matrix * Series * tensor) :=
  let! df0 := read_csv W path in
  let! '(_, X, y) := preprocess df0 in
  let! X_scaled := fit_transform W (rows_of X) in
  let! '(X_train, _, y_train, _) :=
    train_test_split W _ _ X_scaled y 0.2 42%Z in
  let! '(X_train_r, _, _, _) :=
    train_test_split W _ _ (reshape X_scaled) y 0.2 42%Z in
  Ok (y, X_scaled, X_train, y_train, X_train_r).

Lemma r2_prepare_prepared path y X_scaled X_train y_train X_train_r :
  prepare path = Ok (y, X_scaled, X_train, y_train, X_train_r) →
  prepared path y X_scaled X_train y_train X_train_r.
Proof.
  unfold prepare.
  destruct (read_csv W path) as [df0|] eqn:Hread; cbn [rbind]; [|done].
  destruct (preprocess df0) as [[[df X] y']|] eqn:Hpre; cbn [rbind]; [|done].
  destruct (fit_transform W (rows_of X)) as [Xs|] eqn:Hscale;
    cbn [rbind]; [|done].
  destruct (train_test_split W _ _ Xs y' 0.2 42%Z)
    as [[[[Xt Xte] yt] yte]|] eqn:Hsplit; cbn [rbind]; [|done].
  destruct (train_test_split W _ _ (reshape Xs) y' 0.2 42%Z)
    as [[[[Xr Xre] yr] yre]|] eqn:Hsplit_r; cbn [rbind]; [|done].
  intros [= <- <- <- <- <-]. by econstructor.
Qed.

(** [fitted W path y models]: moreover the three models are fitted, and
    [models] is the dictionary of their predictions. *)
Inductive fitted (path : string) (y : Series)
  : list (string * list Q) → Prop :=
| fitted_intro X_scaled X_train y_train X_train_r m_svm m_rf m_cnn :
    prepared path y X_scaled X_train y_train X_train_r →
    svr_fit W "rbf" 100 0.0005 X_train y_train = Ok m_svm →
    rf_fit W 100 42 X_train y_train = Ok m_rf →
    keras_fit W (cnn_layers X_train_r) 0.001 "mse" 50 8 X_train_r y_train
    = Ok m_cnn →
    fitted path y
      [ ("SVM (SVR)", svr_predict W m_svm X_scaled);
        ("Random Forest", rf_predict W m_rf X_scaled);
        ("CNN", flatten (keras_predict W m_cnn (reshape X_scaled))) ]%string.

(** [fit_fails W path e]: the statements up to the splits return, and the
    first of the three fits that does not return raises [e]. *)
Inductive fit_fails (path : string) (e : exn) : Prop :=
| fit_fails_svm y X_scaled X_train y_train X_train_r :
    prepared path y X_scaled X_train y_train X_train_r →
    svr_fit W "rbf" 100 0.0005 X_train y_train = Raise e →
    fit_fails path e
| fit_fails_rf y X_scaled X_train y_train X_train_r m_svm :
    prepared path y X_scaled X_train y_train X_train_r →
    svr_fit W "rbf" 100 0.0005 X_train y_train = Ok m_svm →
    rf_fit W 100 42 X_train y_train = Raise e →
    fit_fails path e
| fit_fails_cnn y X_scaled X_train y_train X_train_r m_svm m_rf :
    prepared path y X_scaled X_train y_train X_train_r →
    svr_fit W "rbf" 100 0.0005 X_train y_train = Ok m_svm →
    rf_fit W 100 42 X_train y_train = Ok m_rf →
    keras_fit W (cnn_layers X_train_r) 0.001 "mse" 50 8 X_train_r y_train
    = Raise e →
    fit_fails path e.

(** The row of one model. *)
Definition scored (attack_name : string) (y : Series)
    (mp : string * list Q) (row : summary_row) : Prop :=
  ∃ mae rmse r2,
    mean_absolute_error W y mp.2 = Ok mae ∧
    mean_squared_error W y mp.2 false = Ok rmse ∧
    r2_score W y mp.2 = Ok r2 ∧
    row = {| Attack := attack_name; Model := mp.1;
             MAE := py_round mae 6; RMSE := py_round rmse 6;
             R2_Score := py_round r2 4 |}.

(** The inner loop appends the rows of a prefix of the dictionary, the
    whole of it when it returns. *)
Lemma score_inv attack_name y models s s' r :
  score W attack_name y models s = (s', r) →
  ∃ rows,
    s' = with_summary (summary s ++ rows) s ∧
    Forall (λ row, ∃ mp, mp ∈ models ∧ scored attack_name y mp row) rows ∧
    (r = Ok tt → Forall2 (scored attack_name y) models rows).
Proof.
  unfold score. revert s.
  induction models as [|[model preds] models IH]; intros s Hrun.
  - injection Hrun as <- <-. exists []. rewrite app_nil_r.
    split; [by destruct s|]. split; [constructor|]. intros _. constructor.
  - rewrite for_each_cons in Hrun. unfold bind, lift in Hrun.
    destruct (mean_absolute_error W y preds) as [mae|e] eqn:Hmae;
      [|injection Hrun as <- <-; exists []; rewrite app_nil_r;
        split; [by destruct s|]; split; [constructor|done]].
    destruct (mean_squared_error W y preds false) as [rmse|e] eqn:Hrmse;
      [|injection Hrun as <- <-; exists []; rewrite app_nil_r;
        split; [by destruct s|]; split; [constructor|done]].
    destruct (r2_score W y preds) as [r2|e] eqn:Hr2;
      [|injection Hrun as <- <-; exists []; rewrite app_nil_r;
        split; [by destruct s|]; split; [constructor|done]].
    cbn [summary_append modify] in Hrun.
    apply IH in Hrun as (rows & -> & Hrows & Hall). simpl.
    assert (Hrow : scored attack_name y (model, preds)
                     {| Attack := attack_name; Model := model;
                        MAE := py_round mae 6; RMSE := py_round rmse 6;
                        R2_Score := py_round r2 4 |}).
    { by exists mae, rmse, r2. }
    eexists (_ :: rows). split.
    { unfold with_summary. simpl. by rewrite <- app_assoc. }
    split.
    + constructor; [eexists; split; [left|exact Hrow]|].
      eapply Forall_impl; [exact Hrows|].
      intros row (mp & Hin & Hs). exists mp. split; [by right|done].
    + intros Hr. constructor; [exact Hrow|by apply Hall].
Qed.

(** The body of the loop either raises before any row is appended, or runs
    the inner loop on the predictions of the three fitted models. *)
Lemma r2_process_cases attack_name path s :
  (∃ e, process W attack_name path s
        = (printed (processing_line attack_name) s, Raise e))
  ∨ (∃ y models,
       fitted path y models ∧
       process W attack_name path s
       = score W attack_name y models (printed (processing_line attack_name) s)).
Proof.
  unfold process, bind, lift. cbn [print modify].
  change {| stdout := stdout s ++ [nl +:+ " Processing: " +:+ attack_name];
            summary := summary s |}
    with (printed (processing_line attack_name) s).
  destruct (read_csv W path) as [df0|e] eqn:Hread; [|left; by eexists].
  destruct (preprocess df0) as [[[df X] y]|e] eqn:Hpre; [|left; by eexists].
  destruct (fit_transform W (rows_of X)) as [X_scaled|e] eqn:Hscale;
    [|left; by eexists].
  destruct (train_test_split W _ _ X_scaled y 0.2 42%Z)
    as [[[[X_train X_test] y_train] y_test]|e] eqn:Hsplit;
    [|left; by eexists].
  destruct (train_test_split W _ _ (reshape X_scaled) y 0.2 42%Z)
    as [[[[X_train_r X_test_r] y_train_r] y_test_r]|e] eqn:Hsplit_r;
    [|left; by eexists].
  unfold model_rf, model_svm, model_cnn.
  destruct (svr_fit W "rbf" 100 0.0005 X_train y_train) as [m_svm|e] eqn:Hsvm;
    [|left; by eexists].
  destruct (rf_fit W 100 42 X_train y_train) as [m_rf|e] eqn:Hrf;
    [|left; by eexists].
  cbn [rbind].
  destruct (keras_fit W _ 0.001 "mse" 50 8 X_train_r y_train)
    as [m_cnn|e] eqn:Hcnn; [|left; by eexists].
  right. eexists _, _. split; [|reflexivity].
  econstructor; [by econstructor|done..].
Qed.

(** A failing fit: the body raises the exception of the fit, having
    printed its line and appended nothing. *)
Lemma r2_process_fit_fails attack_name path e s :
  fit_fails path e →
  process W attack_name path s
  = (printed (processing_line attack_name) s, Raise e).
Proof.
  intros Hfail. unfold process, bind, lift. cbn [print modify].
  unfold model_rf, model_svm, model_cnn.
  destruct Hfail as [y Xs Xt yt Xr [] Hsvm
                    |y Xs Xt yt Xr m_svm [] Hsvm Hrf
                    |y Xs Xt yt Xr m_svm m_rf [] Hsvm Hrf Hcnn];
    repeat match goal with
           | H : _ = Ok _ |- _ => rewrite H; clear H
           end;
    cbn [rbind].
  - by rewrite Hsvm.
  - by rewrite Hrf.
  - unfold cnn_layers in Hcnn. by rewrite Hcnn.
Qed.

Lemma r2_process_inv attack_name path s s' r :
  process W attack_name path s = (s', r) →
  ∃ rows,
    s' = with_summary (summary s ++ rows)
           (printed (processing_line attack_name) s) ∧
    Forall (λ row, Attack row = attack_name) rows.
Proof.
  intros Hrun.
  destruct (r2_process_cases attack_name path s)
    as [[e He]|(y & models & _ & Hgo)].
  - rewrite He in Hrun. injection Hrun as <- _. exists [].
    rewrite app_nil_r. split; [by destruct s|constructor].
  - rewrite Hgo in Hrun. apply score_inv in Hrun as (rows & -> & Hrows & _).
    exists rows. split; [done|].
    eapply Forall_impl; [exact Hrows|].
    by intros row (mp & _ & ? & ? & ? & _ & _ & _ & ->).
Qed.

End Scenario.

End R2Spec.

(** * Claims on the two tables *)

Module TableClaims.

Import Features Examples Loops FeaturesSpec MetricsSpec.

Local Open Scope Q_scope.

(** ** What is passed to the scaler *)

Lemma select_cons_inv (df : DataFrame) c cols X :
  select df (c :: cols) = Ok X →
  ∃ col X', df !! c = Some col ∧ select df cols = Ok X' ∧ X = col :: X'.
Proof.
  unfold select. simpl. unfold getitem at 1.
  destruct (df !! c) as [col|]; [|done]. cbn [rbind].
  destruct (rmap (getitem df) cols) as [X'|]; [|done]. cbn [rbind].
  intros [= <-]. by exists col, X'.
Qed.

Lemma rows_of_length col X : length (rows_of (col :: X)) = length col.
Proof. unfold rows_of. by rewrite length_fmap, length_seq. Qed.

(** The target is the column of the log, whole, and the matrix of the
    selected features has one row for each row of the log. *)
Lemma engineered_target (df0 df : DataFrame) X y :
  feature_engineering df0 = Ok df →
  select df features = Ok X →
  getitem df "Swarm Coordination Rate" = Ok y →
  df0 !! "Swarm Coordination Rate"%string = Some y ∧
  ∀ n, has_rows df0 n → length y = n ∧ length (rows_of X) = n.
Proof.
  intros Hfe HX Hy.
  apply feature_engineering_inv in Hfe
    as (b & i & s & l & p & f & c & e
        & Hb & Hi & Hs & Hl & Hp & Hf & Hc & He & ->).
  apply getitem_Ok in Hy.
  rewrite engineered_lookup_other in Hy
    by (unfold derived_columns; rewrite !elem_of_cons, elem_of_nil;
        intros [|[|[|[]]]]; done).
  split; [done|]. intros n Hn. split; [by eapply Hn|].
  apply select_cons_inv in HX as (col & X' & Hcol & _ & ->).
  rewrite rows_of_length.
  eapply (engineered_has_rows df0 n b i s l p f c e);
    [done|by eapply Hn..|exact Hcol].
Qed.

Lemma preprocess_inv (df0 df : DataFrame) X y :
  preprocess df0 = Ok (df, X, y) →
  feature_engineering df0 = Ok df ∧
  select df features = Ok X ∧
  getitem df "Swarm Coordination Rate" = Ok y.
Proof.
  unfold preprocess.
  destruct (feature_engineering df0) as [df'|] eqn:Hfe; cbn [rbind]; [|done].
  destruct (select df' features) as [X'|] eqn:HX; cbn [rbind]; [|done].
  destruct (getitem df' _) as [y'|] eqn:Hy; cbn [rbind]; [|done].
  by intros [= <- <- <-].
Qed.

Section Claims.

Context (W : world).

(** C7.  Whenever the body of either loop returns for a scenario, what it
    appended was computed as follows.  The target [y] is the whole column
    of coordination rates of the log, and the matrix given to the scaler has
    one row for each row of the log.  The three models are fitted on the
    training parts that [train_test_split] returns for the scaled matrix
    [X_scaled] and the target, and each predicts on [X_scaled] itself, the
    array that was split.  The regression notebook appends, for each model,
    MAE, RMSE and R2 of [y] against these predictions, rounded; the
    classification notebook appends the confusion matrix of the binarized
    [y] against the binarized predictions, unless it skips the scenario.
    The held-out parts of the splits are not used. *)
Theorem metrics_on_full_data :
  (∀ attack_name path s s',
     R2.process W attack_name path s = (s', Ok tt) →
     ∃ df0 df X y X_scaled X_train X_test y_train y_test
       X_train_r X_test_r y_train_r y_test_r m_svm m_rf m_cnn rows,
       read_csv W path = Ok df0 ∧
       preprocess df0 = Ok (df, X, y) ∧
       df0 !! "Swarm Coordination Rate"%string = Some y ∧
       (∀ n, has_rows df0 n → length y = n ∧ length (rows_of X) = n) ∧
       fit_transform W (rows_of X) = Ok X_scaled ∧
       train_test_split W _ _ X_scaled y 0.2 42%Z
       = Ok (X_train, X_test, y_train, y_test) ∧
       train_test_split W _ _ (reshape X_scaled) y 0.2 42%Z
       = Ok (X_train_r, X_test_r, y_train_r, y_test_r) ∧
       svr_fit W "rbf" 100 0.0005 X_train y_train = Ok m_svm ∧
       rf_fit W 100 42 X_train y_train = Ok m_rf ∧
       keras_fit W (R2Spec.cnn_layers X_train_r) 0.001 "mse" 50 8
         X_train_r y_train = Ok m_cnn ∧
       R2.summary s' = R2.summary s ++ rows ∧
       Forall2
         (λ (mp : string * list Q) row,
            ∃ mae rmse r2,
              mean_absolute_error W y mp.2 = Ok mae ∧
              mean_squared_error W y mp.2 false = Ok rmse ∧
              r2_score W y mp.2 = Ok r2 ∧
              row = {| R2.Attack := attack_name; R2.Model := mp.1;
                       R2.MAE := py_round mae 6;
                       R2.RMSE := py_round rmse 6;
                       R2.R2_Score := py_round r2 4 |})
         [ ("SVM (SVR)", svr_predict W m_svm X_scaled);
           ("Random Forest", rf_predict W m_rf X_scaled);
           ("CNN", flatten (keras_predict W m_cnn (reshape X_scaled)))
         ]%string
         rows) ∧
  (∀ attack path s s',
     F1.process W attack path s = (s', Ok tt) →
     ∃ df0 df y_true,
       read_csv W path = Ok df0 ∧
       feature_engineering df0 = Ok df ∧
       getitem df "Swarm Coordination Rate" = Ok y_true ∧
       df0 !! "Swarm Coordination Rate"%string = Some y_true ∧
       (((length (np_unique (binarize 0.85 y_true)) < 2)%nat ∧
         F1.conf_data s' = F1.conf_data s)
        ∨ ∃ X X_scaled X_train X_test y_train y_test
            X_train_r X_test_r y_train_r y_test_r m_rf m_svm m_cnn new,
            (2 ≤ length (np_unique (binarize 0.85 y_true)))%nat ∧
            select df features = Ok X ∧
            (∀ n, has_rows df0 n →
                  length y_true = n ∧ length (rows_of X) = n) ∧
            fit_transform W (rows_of X) = Ok X_scaled ∧
            train_test_split W _ _ X_scaled (binarize 0.85 y_true) 0.2 42%Z
            = Ok (X_train, X_test, y_train, y_test) ∧
            train_test_split W _ _ (reshape X_scaled) (binarize 0.85 y_true)
              0.2 42%Z
            = Ok (X_train_r, X_test_r, y_train_r, y_test_r) ∧
            rf_fit W 100 42 X_train (inject_Z <$> y_train) = Ok m_rf ∧
            svr_fit W "rbf" 100 0.0005 X_train (inject_Z <$> y_train)
            = Ok m_svm ∧
            keras_fit W (F1Spec.cnn_layers X_train_r) 0.001 "mse" 30 8
              X_train_r (inject_Z <$> y_train_r) = Ok m_cnn ∧
            F1.conf_data s' = F1.conf_data s ++ new ∧
            Forall2
              (λ (mp : string * list Q) x,
                 ∃ c, x = (attack, mp.1, c) ∧
                      F1.confusion_matrix (binarize 0.85 y_true)
                        (binarize 0.85 mp.2) (0, 1)%Z = Ok c)
              [ ("Random Forest", rf_predict W m_rf X_scaled);
                ("SVM", svr_predict W m_svm X_scaled);
                ("CNN", flatten (keras_predict W m_cnn (reshape X_scaled)))
              ]%string
              new)).
Proof.
  split.
  - intros attack_name path s s' Hrun.
    destruct (R2Spec.r2_process_cases W attack_name path s)
      as [[e He]|(y & models & Hfit & Hgo)].
    { rewrite He in Hrun. done. }
    rewrite Hgo in Hrun.
    apply R2Spec.score_inv in Hrun as (rows & -> & _ & Hall).
    destruct Hfit as [X_scaled X_train y_train X_train_r m_svm m_rf m_cnn
                        Hprep Hsvm Hrf Hcnn].
    destruct Hprep as [df0 df X y X_scaled X_train X_test y_train y_test
                         X_train_r X_test_r y_train_r y_test_r
                         Hread Hpre Hscale Hsplit Hsplit_r].
    destruct (preprocess_inv _ _ _ _ Hpre) as (Hfe & HX & Hy).
    destruct (engineered_target _ _ _ _ Hfe HX Hy) as [Hcol Hrows].
    exists df0, df, X, y, X_scaled, X_train, X_test, y_train, y_test,
      X_train_r, X_test_r, y_train_r, y_test_r, m_svm, m_rf, m_cnn, rows.
    repeat (split; [done|]). by apply Hall.
  - intros attack path s s' Hrun.
    destruct (F1Spec.process_cases W attack path s)
      as [[e He]|[(y & Hy & Hlt & Hskip)|(y & pd & Hfit & Hcls & Hgo)]].
    { rewrite He in Hrun. done. }
    + rewrite Hskip in Hrun. injection Hrun as <-.
      destruct Hy as (df0 & df & Hread & Hfe & Hy).
      exists df0, df, y. repeat (split; [done|]). split.
      { apply feature_engineering_inv in Hfe
          as (b & i & sc & l & p & f & c & e' & _ & _ & _ & _ & _ & _ & _ & _ & ->).
        apply getitem_Ok in Hy.
        rewrite engineered_lookup_other in Hy; [done|].
        unfold derived_columns. rewrite !elem_of_cons, elem_of_nil.
        intros [|[|[|[]]]]; done. }
      left. done.
    + rewrite Hgo in Hrun.
      apply F1Spec.collect_inv in Hrun as (new & -> & _ & Hall).
      destruct Hfit as [df0 df X X_scaled X_train X_test y_train y_test
                          X_train_r X_test_r y_train_r y_test_r
                          m_rf m_svm m_cnn
                          Hread Hfe Hy HX Hscale Hsplit Hsplit_r
                          Hrf Hsvm Hcnn].
      destruct (engineered_target _ _ _ _ Hfe HX Hy) as [Hcol Hrows].
      exists df0, df, y. repeat (split; [done|]). right.
      exists X, X_scaled, X_train, X_test, y_train, y_test,
        X_train_r, X_test_r, y_train_r, y_test_r, m_rf, m_svm, m_cnn, new.
      repeat (split; [done|]). by apply Hall.
Qed.

(** The records of a loop that returns: for each scenario of the
    dictionary, in its order, none or the three of its models in theirs. *)
Lemma collect_groups paths s s' :
  for_each paths (F1Spec.scenario_body W) s = (s', Ok tt) →
  ∃ groups,
    F1.conf_data s' = F1.conf_data s ++ concat groups ∧
    Forall2 (λ (ap : string * string) g,
               g = [] ∨
               ∃ c1 c2 c3,
                 g = [ (ap.1, "Random Forest", c1); (ap.1, "SVM", c2);
                       (ap.1, "CNN", c3) ]%string)
            paths groups.
Proof.
  revert s. induction paths as [|[attack path] paths IH]; intros s Hrun.
  - injection Hrun as <-. exists []. simpl. by rewrite app_nil_r.
  - rewrite for_each_cons in Hrun. simpl in Hrun.
    destruct (F1.process W attack path s) as [t [[]|e]] eqn:Hbody; [|done].
    apply IH in Hrun as (groups & -> & Hgroups).
    destruct (F1Spec.process_cases W attack path s)
      as [[e He]|[(y & _ & _ & Hskip)|(y & pd & Hfit & _ & Hgo)]].
    + rewrite He in Hbody. done.
    + rewrite Hskip in Hbody. injection Hbody as <-.
      exists ([] :: groups). split; [done|]. constructor; [by left|done].
    + rewrite Hgo in Hbody.
      apply F1Spec.collect_inv in Hbody as (new & -> & _ & Hall).
      specialize (Hall eq_refl). destruct Hfit.
      apply Forall2_cons_inv_l in Hall
        as (x1 & new1 & (c1 & -> & _) & Hall & ->).
      apply Forall2_cons_inv_l in Hall
        as (x2 & new2 & (c2 & -> & _) & Hall & ->).
      apply Forall2_cons_inv_l in Hall
        as (x3 & new3 & (c3 & -> & _) & Hall & ->).
      apply Forall2_nil_inv_l in Hall as ->.
      eexists (_ :: groups). split.
      { simpl. rewrite <- app_assoc. reflexivity. }
      constructor; [|done]. right. by exists c1, c2, c3.
Qed.

(** C6, amended.  The regression table is the list of summary rows sorted:
    a permutation of them in which every row stands before every later
    one in the order "scenario name ascending, then R2 score descending".
    The classification table is not sorted: its rows are those of the
    records of [conf_data], one for one and in their order, which is the
    order of the scenarios in the dictionary and, within a scenario that was
    not skipped, the order Random Forest, SVM, CNN. *)
Theorem table_orders :
  (∀ files s s' table,
     R2.notebook_on W files s = (s', Ok table) →
     table ≡ₚ R2.summary s' ∧
     StronglySorted
       (λ a b, String.compare (R2.Attack a) (R2.Attack b) = Lt
               ∨ (R2.Attack a = R2.Attack b
                  ∧ R2.R2_Score b <= R2.R2_Score a))
       table) ∧
  (∀ paths s s' table,
     F1.notebook_on W paths s = (s', Ok table) →
     Forall2 (λ x row, F1.metrics_of x.1.1 x.1.2 x.2 = Ok row)
             (F1.conf_data s') table ∧
     ∃ groups,
       F1.conf_data s' = concat groups ∧
       Forall2 (λ (ap : string * string) g,
                  g = [] ∨
                  ∃ c1 c2 c3,
                    g = [ (ap.1, "Random Forest", c1); (ap.1, "SVM", c2);
                          (ap.1, "CNN", c3) ]%string)
               paths groups).
Proof.
  split.
  - intros files s s' table. unfold R2.notebook_on, bind.
    destruct (R2.evaluate W files s) as [s1 [[]|e]]; [|done].
    intros (-> & -> & _)%R2Spec.results_table_Ok.
    split; [apply R2Spec.sort_values_Permutation|].
    apply R2Spec.sort_values_StronglySorted.
  - intros paths s s' table Hrun.
    apply F1Spec.notebook_on_inv in Hrun as (s1 & Hc & Hm).
    apply F1Spec.metrics_table_inv in Hm as [-> Hall]. simpl.
    split; [done|].
    rewrite F1Spec.collect_all_unfold in Hc.
    apply collect_groups in Hc as (groups & Hcd & Hgroups).
    exists groups. split; [|done]. by rewrite Hcd.
Qed.

(** C8, amended.  When the scenarios before one return and a fit of that
    one raises, the notebook stops there with the exception of the fit:
    it returns no table, the line of the scenario is the last one printed,
    and the list of records is left as the earlier scenarios made it, with
    no record of the failing scenario, not even for a model fitted before
    the failing one, and none of a later scenario. *)
Theorem fit_failure_aborts_batch :
  (∀ before attack_name path after e s t,
     R2Spec.fit_fails W path e →
     R2.evaluate W before s = (t, Ok tt) →
     R2.notebook_on W (before ++ (attack_name, path) :: after) s
     = ({| R2.stdout := R2.stdout t ++ [nl +:+ " Processing: " +:+ attack_name];
           R2.summary := R2.summary t |}, Raise e) ∧
     Forall (λ row, R2.Attack row ∈ before.*1) (R2.summary t)) ∧
  (∀ before attack path after e s t,
     F1Spec.fit_fails W path e →
     F1.collect_all W before s = (t, Ok tt) →
     F1.notebook_on W (before ++ (attack, path) :: after) s
     = ({| F1.stdout := F1.stdout t ++ [nl +:+ "📌 Processing: " +:+ attack];
           F1.conf_data := F1.conf_data t;
           F1.metrics_data := F1.metrics_data t |}, Raise e) ∧
     Forall (λ x, x.1.1 ∈ before.*1) (F1.conf_data t)).
Proof.
  split.
  - intros before attack_name path after e s t Hfail Hbefore. split.
    + unfold R2.notebook_on, bind.
      assert (R2.evaluate W (before ++ (attack_name, path) :: after) s
              = (R2Spec.printed (R2Spec.processing_line attack_name) t, Raise e))
        as ->; [|done].
      unfold R2.evaluate, bind in *. cbn [R2.set_summary modify] in *.
      eapply for_each_Raise; [exact Hbefore|].
      by apply R2Spec.r2_process_fit_fails.
    + unfold R2.evaluate, bind in Hbefore. cbn [R2.set_summary modify] in Hbefore.
      revert Hbefore.
      apply (for_each_invariant
               (λ u, Forall (λ row, R2.Attack row ∈ before.*1) (R2.summary u))).
      * intros [a p] u u' q Hin Hu Hbody.
        apply R2Spec.r2_process_inv in Hbody as (rows & -> & Hrows). simpl.
        apply Forall_app. split; [done|].
        eapply Forall_impl; [exact Hrows|]. intros row ->.
        apply list_elem_of_fmap. by exists (a, p).
      * constructor.
  - intros before attack path after e s t Hfail Hbefore. split.
    + unfold F1.notebook_on, bind.
      assert (F1.collect_all W (before ++ (attack, path) :: after) s
              = (F1Spec.printed (F1Spec.processing_line attack) t, Raise e))
        as ->; [|done].
      rewrite F1Spec.collect_all_unfold in *.
      eapply for_each_Raise; [exact Hbefore|].
      by apply F1Spec.process_fit_fails.
    + apply F1Spec.collect_all_emitted in Hbefore.
      eapply Forall_impl; [exact Hbefore|].
      intros x (a & p & Hin & y & pd & m & preds & c & _ & _ & _ & -> & _).
      simpl. apply list_elem_of_fmap. by exists (a, p).
Qed.

End Claims.

End TableClaims.

(** * The two notebooks on concrete logs *)

Module TableExamples.

Import Features Examples Loops FeaturesSpec MetricsSpec TableClaims.

Local Open Scope Q_scope.

(** The regression notebook on [files]: within a scenario the rows are in
    the order of falling R2 score. *)
Example regression_table_on_files :
  ∃ s' table,
    R2.notebook (toy_world files) R2.init = (s', Ok table) ∧
    (λ row, (R2.Attack row, R2.Model row, R2.R2_Score row)) <$> table
    = [ ("Critical Node", "CNN", 0.5176);
        ("Critical Node", "Random Forest", -0.4959);
        ("Critical Node", "SVM (SVR)", -17.5398);
        ("Data Manipulation", "CNN", 0.5176);
        ("Data Manipulation", "Random Forest", -0.4959);
        ("Data Manipulation", "SVM (SVR)", -17.5398);
        ("MITM Attack", "Random Forest", -0.3750);
        ("MITM Attack", "CNN", -48.2852);
        ("MITM Attack", "SVM (SVR)", -486.0000);
        ("Sybil Attack", "CNN", 0.5176);
        ("Sybil Attack", "Random Forest", -0.4959);
        ("Sybil Attack", "SVM (SVR)", -17.5398) ]%string.
Proof.
  eexists _, _. split; [vm_compute; reflexivity|]. vm_compute. reflexivity.
Qed.

Lemma table_orders_witness :
  (∃ s' table,
     R2.notebook (toy_world files) R2.init = (s', Ok table) ∧
     table ≡ₚ R2.summary s' ∧
     StronglySorted
       (λ a b, String.compare (R2.Attack a) (R2.Attack b) = Lt
               ∨ (R2.Attack a = R2.Attack b
                  ∧ R2.R2_Score b <= R2.R2_Score a))
       table) ∧
  (∃ s' table,
     F1.notebook (toy_world files) F1.init = (s', Ok table) ∧
     Forall2 (λ x row, F1.metrics_of x.1.1 x.1.2 x.2 = Ok row)
             (F1.conf_data s') table ∧
     ∃ groups,
       F1.conf_data s' = concat groups ∧
       Forall2 (λ (ap : string * string) g,
                  g = [] ∨
                  ∃ c1 c2 c3,
                    g = [ (ap.1, "Random Forest", c1); (ap.1, "SVM", c2);
                          (ap.1, "CNN", c3) ]%string)
               F1.file_paths groups).
Proof.
  split.
  - eexists _, _. split; [vm_compute; reflexivity|].
    eapply (proj1 (table_orders (toy_world files)) R2.attack_files R2.init).
    vm_compute. reflexivity.
  - eexists _, _. split; [vm_compute; reflexivity|].
    eapply (proj2 (table_orders (toy_world files)) F1.file_paths F1.init).
    vm_compute. reflexivity.
Defined.

(** The claim C6 as the specification has it fails on [files]: in the
    classification table the row of the SVM, of accuracy 0.3333, stands
    before the row of the network, of accuracy 0.6667, for the same
    scenario. *)
Lemma classification_table_not_sorted :
  ∃ s' table,
    F1.notebook (toy_world files) F1.init = (s', Ok table) ∧
    (λ row, (F1.Attack row, F1.Model row, F1.Accuracy row)) <$> take 3 table
    = [ ("Critical Node", "Random Forest", 0.6667);
        ("Critical Node", "SVM", 0.3333);
        ("Critical Node", "CNN", 0.6667) ]%string ∧
    ¬ Sorted
        (λ a b, String.compare (F1.Attack a) (F1.Attack b) = Lt
                ∨ (F1.Attack a = F1.Attack b
                   ∧ F1.Accuracy b <= F1.Accuracy a))
        table.
Proof.
  eexists _, _. split; [vm_compute; reflexivity|].
  split; [vm_compute; reflexivity|].
  intros Hsorted.
  apply Sorted_inv in Hsorted as [Hsorted _].
  apply Sorted_inv in Hsorted as [_ Hhd].
  apply HdRel_inv in Hhd as [Hlt|[_ Hle]].
  - vm_compute in Hlt. discriminate Hlt.
  - vm_compute in Hle. by apply Hle.
Qed.

Lemma metrics_on_full_data_witness :
  (∃ s' y rows,
     R2.process (toy_world files) "Critical Node"
       "C:/Users/Documents/AirSim/drone_simulation_log_critical_node.csv"
       R2.init = (s', Ok tt) ∧
     sample_frame !! "Swarm Coordination Rate"%string = Some y ∧
     length y = 3%nat ∧
     R2.summary s' = rows ∧ length rows = 3%nat) ∧
  (∃ s' y new,
     F1.process (toy_world files) "Critical Node"
       "C:/Users/Documents/AirSim/drone_simulation_log_critical_node.csv"
       F1.init = (s', Ok tt) ∧
     sample_frame !! "Swarm Coordination Rate"%string = Some y ∧
     length y = 3%nat ∧
     F1.conf_data s' = new ∧ length new = 3%nat).
Proof.
  assert (Hrows : has_rows sample_frame 3).
  { intros c s Hs.
    apply (elem_of_list_to_map_2 (M := gmap string)) in Hs.
    repeat (apply elem_of_cons in Hs as [[= -> ->]|Hs]; [reflexivity|]).
    by apply elem_of_nil in Hs. }
  split.
  - destruct (R2.process _ _ _ _) as [s' r] eqn:Hrun.
    assert (r = Ok tt) as ->.
    { vm_compute in Hrun. by injection Hrun as _ <-. }
    destruct (proj1 (metrics_on_full_data (toy_world files)) _ _ _ _ Hrun)
      as (df0 & df & X & y & Xs & Xt & Xte & yt & yte & Xr & Xre & yr & yre
          & m1 & m2 & m3 & rows & Hread & _ & Hy & Hlen & _ & _ & _
          & _ & _ & _ & Hsum & Hall).
    change (Ok sample_frame = Ok df0) in Hread. injection Hread as <-.
    exists s', y, rows. split; [reflexivity|].
    split; [exact Hy|]. split; [by apply Hlen|].
    apply Forall2_length in Hall. rewrite Hsum.
    split; [reflexivity|]. symmetry. exact Hall.
  - destruct (F1.process _ _ _ _) as [s' r] eqn:Hrun.
    assert (r = Ok tt ∧ F1.conf_data s' ≠ []) as [-> Hne].
    { vm_compute in Hrun. by injection Hrun as <- <-. }
    destruct (proj2 (metrics_on_full_data (toy_world files)) _ _ _ _ Hrun)
      as (df0 & df & y & Hread & _ & _ & Hy & Hcases).
    change (Ok sample_frame = Ok df0) in Hread. injection Hread as <-.
    destruct Hcases
      as [[_ Hcd]
         |(X & Xs & Xt & Xte & yt & yte & Xr & Xre & yr & yre & m1 & m2 & m3
           & new & _ & _ & _ & _ & _ & _ & _ & _ & _ & Hcd & Hall)];
      [exfalso; apply Hne; rewrite Hcd; reflexivity|].
    exists s', y, new. split; [reflexivity|].
    split; [exact Hy|]. split; [by eapply Hrows|].
    apply Forall2_length in Hall. rewrite Hcd.
    split; [reflexivity|]. symmetry. exact Hall.
Defined.

(** On [files_hard] the SVR does not fit the first scenario. *)
Lemma svr_fit_fails_on_hard_frame :
  R2Spec.fit_fails (toy_world files_hard)
    "C:/Users/Documents/AirSim/drone_simulation_log_critical_node.csv"
    (FitError "SVR") ∧
  F1Spec.fit_fails (toy_world files_hard)
    "C:/Users/Documents/AirSim/drone_simulation_log_critical_node.csv"
    (FitError "SVR").
Proof.
  split.
  - eapply R2Spec.fit_fails_svm.
    + apply R2Spec.r2_prepare_prepared. vm_compute. reflexivity.
    + vm_compute. reflexivity.
  - eapply F1Spec.fit_fails_svm.
    + apply F1Spec.prepare_prepared. vm_compute. reflexivity.
    + vm_compute. reflexivity.
    + vm_compute. reflexivity.
Defined.

Lemma fit_failure_aborts_batch_witness :
  R2.notebook (toy_world files_hard) R2.init
  = ({| R2.stdout := [nl +:+ " Processing: " +:+ "Critical Node"];
        R2.summary := [] |}, Raise (FitError "SVR")) ∧
  F1.notebook (toy_world files_hard) F1.init
  = ({| F1.stdout := [nl +:+ "📌 Processing: " +:+ "Critical Node"];
        F1.conf_data := [];
        F1.metrics_data := [] |}, Raise (FitError "SVR")).
Proof.
  split.
  - apply (proj1 (fit_failure_aborts_batch (toy_world files_hard))
             [] "Critical Node"
             "C:/Users/Documents/AirSim/drone_simulation_log_critical_node.csv"
             (tail R2.attack_files) (FitError "SVR") R2.init R2.init).
    + exact (proj1 svr_fit_fails_on_hard_frame).
    + reflexivity.
  - apply (proj2 (fit_failure_aborts_batch (toy_world files_hard))
             [] "Critical Node"
             "C:/Users/Documents/AirSim/drone_simulation_log_critical_node.csv"
             (tail F1.file_paths) (FitError "SVR") F1.init F1.init).
    + exact (proj2 svr_fit_fails_on_hard_frame).
    + reflexivity.
Defined.

(** The claim C8 as the specification has it fails on [files_hard].  The
    fit of the SVR on the first scenario raises.  The second scenario is
    fit for evaluation: run on its own, either notebook gives its three
    rows.  But the run over the four scenarios raises the exception of the
    fit, gives no table, and leaves no record at all: none of the second,
    third or fourth scenario, and in the classification notebook none of
    the forest of the first scenario, which was fitted before the SVR. *)
Lemma later_scenarios_not_evaluated :
  let second :=
    [ ("Data Manipulation",
       "C:/Users/Documents/AirSim/drone_simulation_log_data_manipulation.csv")
    ]%string in
  (R2Spec.fit_fails (toy_world files_hard)
     "C:/Users/Documents/AirSim/drone_simulation_log_critical_node.csv"
     (FitError "SVR") ∧
   (∃ s' table,
      R2.notebook_on (toy_world files_hard) second R2.init = (s', Ok table) ∧
      (λ row, (R2.Attack row, R2.Model row)) <$> R2.summary s'
      = [ ("Data Manipulation", "SVM (SVR)");
          ("Data Manipulation", "Random Forest");
          ("Data Manipulation", "CNN") ]%string) ∧
   ∃ s',
     R2.notebook (toy_world files_hard) R2.init
     = (s', Raise (FitError "SVR")) ∧
     R2.summary s' = []) ∧
  (F1Spec.fit_fails (toy_world files_hard)
     "C:/Users/Documents/AirSim/drone_simulation_log_critical_node.csv"
     (FitError "SVR") ∧
   (∃ s' table,
      F1.notebook_on (toy_world files_hard) second F1.init = (s', Ok table) ∧
      (λ x, x.1) <$> F1.conf_data s'
      = [ ("Data Manipulation", "Random Forest");
          ("Data Manipulation", "SVM");
          ("Data Manipulation", "CNN") ]%string) ∧
   ∃ s',
     F1.notebook (toy_world files_hard) F1.init
     = (s', Raise (FitError "SVR")) ∧
     F1.conf_data s' = []).
Proof.
  intros second. split.
  - split; [exact (proj1 svr_fit_fails_on_hard_frame)|]. split.
    + eexists _, _. split; vm_compute; reflexivity.
    + eexists. split; vm_compute; reflexivity.
  - split; [exact (proj2 svr_fit_fails_on_hard_frame)|]. split.
    + eexists _, _. split; vm_compute; reflexivity.
    + eexists. split; vm_compute; reflexivity.
Qed.

End TableExamples.

(** * Further concrete inputs *)

Module ExamplesMore.

Import Examples.

Local Open Scope Q_scope.

(** A log cut down to its first row. *)
Definition one_row_frame : DataFrame := take 1 <$> sample_frame.

Definition short_files : list (string * DataFrame) :=
  [ ("C:/Users/Documents/AirSim/drone_sybil_attack.csv"%string,
     one_row_frame) ].

(** A table without the column of packet losses. *)
Definition lossless_frame : DataFrame :=
  delete "Packet Loss"%string sample_frame.

(** As [files], but the log of the second scenario is [lossless_frame]. *)
Definition files_lossless : list (string * DataFrame) :=
  [ ("C:/Users/Documents/AirSim/drone_simulation_log_critical_node.csv",
     sample_frame);
    ("C:/Users/Documents/AirSim/drone_simulation_log_data_manipulation.csv",
     lossless_frame);
    ("C:/Users/danis/AirSim/drone_simulation_log_mitm.csv", sample_frame);
    ("C:/Users/Documents/AirSim/drone_simulation_log_mitm.csv", sample_frame);
    ("C:/Users/Documents/AirSim/drone_sybil_attack.csv", sample_frame) ]%string.

(** [toy_world], but the forest predicts for no row. *)
Definition short_forest_world (fs : list (string * DataFrame)) : world :=
  {| read_csv := toy_read_csv fs;
     fit_transform := λ X, Ok X;
     train_test_split := toy_split;
     rf_model := Q;
     rf_fit := λ _ _ _ y_train, Ok (mean y_train);
     rf_predict := λ _ _, [];
     svr_model := unit;
     svr_fit := toy_svr_fit;
     svr_predict := λ _ X, (λ _ : list Q, 0) <$> X;
     keras_model := unit;
     keras_fit := λ _ _ _ _ _ _ _, Ok tt;
     keras_predict := λ _ X, (λ row : list (list Q), nth 0 row [0]) <$> X;
     mean_absolute_error := toy_mae;
     mean_squared_error := toy_mean_squared_error;
     r2_score := toy_r2 |}.

End ExamplesMore.

(** * Further properties of the feature engineering *)

Module FeaturesMore.

Import Features Examples FeaturesSpec.

Local Open Scope Q_scope.

(** [first_missing df cols c]: [c] is the first name of [cols] that is not
    a column of [df]. *)
Definition first_missing (df : DataFrame) (cols : list string) (c : string)
  : Prop :=
  ∃ before after,
    cols = before ++ c :: after ∧
    (∀ b, b ∈ before → is_Some (df !! b)) ∧
    df !! c = None.

Lemma first_missing_here (df : DataFrame) c cols :
  df !! c = None → first_missing df (c :: cols) c.
Proof.
  intros Hc. exists [], cols. split; [done|]. split; [|done].
  intros b Hb. by apply elem_of_nil in Hb.
Qed.

Lemma first_missing_later (df : DataFrame) b cols c :
  is_Some (df !! b) → first_missing df cols c → first_missing df (b :: cols) c.
Proof.
  intros Hb (before & after & -> & Hbefore & Hc).
  exists (b :: before), after. split; [done|]. split; [|done].
  intros b' [->|Hb']%elem_of_cons; [done|by apply Hbefore].
Qed.

(** A name that is none of the three derived ones. *)
Ltac in_columns_not :=
  unfold derived_columns; rewrite !elem_of_cons, elem_of_nil;
  intros [|[|[|[]]]]; done.

(** X1.  Feature engineering returns exactly when the eight raw columns
    are in the table; otherwise it raises the KeyError of the first raw
    column, in the order in which the statements read them, that is not in
    the table. *)
Theorem feature_engineering_outcome (df : DataFrame) :
  match feature_engineering df with
  | Ok _ => ∀ c, c ∈ raw_columns → is_Some (df !! c)
  | Raise e => ∃ c, first_missing df raw_columns c ∧ e = KeyError c
  end.
Proof.
  unfold feature_engineering, getitem, setitem, raw_columns.
  repeat (rewrite ?lookup_insert_eq; rewrite ?lookup_insert_ne by done;
          try lazymatch goal with
              | |- context [df !! ?c] =>
                  lazymatch goal with
                  | H : df !! c = _ |- _ => fail
                  | _ => destruct (df !! c) eqn:?
                  end
              end;
          cbn [rbind]);
    try (eexists; split; [|reflexivity];
         repeat first [ by apply first_missing_here
                      | apply first_missing_later; [by eexists|] ]).
  intros c Hc.
  repeat (apply elem_of_cons in Hc as [->|Hc]; [by eexists|]).
  by apply elem_of_nil in Hc.
Qed.

(** X2.  [preprocess] returns exactly when, besides the raw columns, the
    table has Relative Speed, Location Accuracy and Swarm Coordination Rate.
    Then [y] is that last column of the input, and [X] lists the eight
    feature columns of the table after feature engineering, in the order of
    [features].  Otherwise it raises the exception of feature engineering,
    or a KeyError that names one of the three columns that is missing. *)
Theorem preprocess_outcome (df : DataFrame) :
  match preprocess df with
  | Ok (df', X, y) =>
      feature_engineering df = Ok df' ∧
      df !! "Swarm Coordination Rate"%string = Some y ∧
      Forall2 (λ c col, df' !! c = Some col) features X
  | Raise e =>
      feature_engineering df = Raise e
      ∨ ((∃ df', feature_engineering df = Ok df') ∧
         ∃ c, c ∈ ["Relative Speed"; "Location Accuracy";
                   "Swarm Coordination Rate"]%string ∧
              df !! c = None ∧
              e = KeyError c)
  end.
Proof.
  unfold preprocess.
  destruct (feature_engineering df) as [df'|e] eqn:Hfe; cbn [rbind]; [|by left].
  apply feature_engineering_inv in Hfe
    as (b & i & s & l & p & f & c & e
        & Hb & Hi & Hs & Hl & Hp & Hf & Hc & He & ->).
  unfold select, features, getitem. cbn [rmap].
  unfold engineered, setitem.
  repeat (rewrite ?lookup_insert_eq; rewrite ?lookup_insert_ne by done;
          rewrite ?Hl, ?Hp, ?Hc;
          try lazymatch goal with
              | |- context [df !! ?c] => destruct (df !! c) eqn:?
              end;
          cbn [rbind]);
    try (right; split; [by eexists|];
         refine (ex_intro _ _ (conj _ (conj _ eq_refl)));
         [repeat first [apply list_elem_of_here | apply list_elem_of_further]
         |assumption]).
  split; [done|]. split; [done|].
  repeat (constructor;
          [cbv beta;
           repeat first [ rewrite lookup_insert_eq
                        | rewrite lookup_insert_ne by done ];
           done|]).
  constructor.
Qed.

(** X3.  Feature engineering is idempotent: run on the table it returned,
    it returns that table again. *)
Theorem feature_engineering_idempotent (df df' : DataFrame) :
  feature_engineering df = Ok df' → feature_engineering df' = Ok df'.
Proof.
  intros Hfe.
  apply feature_engineering_inv in Hfe
    as (b & i & s & l & p & f & c & e
        & Hb & Hi & Hs & Hl & Hp & Hf & Hc & He & ->).
  rewrite (feature_engineering_Ok _ b i s l p f c e);
    try (rewrite engineered_lookup_other; [done|in_columns_not]).
  f_equal. unfold engineered, setitem.
  apply map_eq. intros col.
  destruct (decide (col = "Trust Score"%string)) as [->|?];
    [by rewrite !lookup_insert_eq|].
  rewrite !(lookup_insert_ne _ "Trust Score"%string) by done.
  destruct (decide (col = "Scale-Intensity Centrality"%string)) as [->|?];
    [by rewrite !lookup_insert_eq|].
  rewrite !(lookup_insert_ne _ "Scale-Intensity Centrality"%string) by done.
  destruct (decide (col = "Battery Level Norm"%string)) as [->|?];
    [by rewrite !lookup_insert_eq|].
  by rewrite !lookup_insert_ne by done.
Qed.

Lemma feature_engineering_idempotent_witness :
  ∃ df',
    feature_engineering sample_frame = Ok df' ∧
    feature_engineering df' = Ok df'.
Proof.
  assert (Hfe : feature_engineering sample_frame
                = Ok (engineered sample_frame
                        [100; 80; 55] [1; 0.5; 0.9] [1; 0.5; 0.3]
                        [0; 0.1; 0.2] [0; 0.05; 0.5] [1; 0.9; 0.4]
                        [1; 0.5; 0.2] [1; 0.4; 0.3]))
    by (apply feature_engineering_Ok; vm_compute; reflexivity).
  eexists. split; [exact Hfe|].
  exact (feature_engineering_idempotent _ _ Hfe).
Defined.

(** X4.  The trust score is monotone in each of its seven inputs: it does
    not fall when latency and packet loss do not rise and sensor
    functionality, battery level norm, scale-intensity centrality, closeness
    and eigenvector centrality do not fall. *)
Theorem trust_score_monotone
    (latency latency' loss loss' sensor sensor' bln bln' sic sic'
     closeness closeness' eigen eigen' : Q) :
  latency' <= latency → loss' <= loss → sensor <= sensor' → bln <= bln' →
  sic <= sic' → closeness <= closeness' → eigen <= eigen' →
  trust_score latency loss sensor bln sic closeness eigen
  <= trust_score latency' loss' sensor' bln' sic' closeness' eigen'.
Proof. unfold trust_score. intros. lra. Qed.

Lemma trust_score_monotone_witness :
  trust_score 0.1 0.05 0.9 0.8 0.25 0.5 0.4 <= trust_score 0 0 1 1 1 1 1.
Proof.
  apply (trust_score_monotone 0.1 0 0.05 0 0.9 1 0.8 1 0.25 1 0.5 1 0.4 1);
    vm_compute; discriminate.
Defined.

End FeaturesMore.

(** * Further properties of the classification table *)

Module MetricsMore.

Import Features Examples ExamplesMore Loops F1 MetricsSpec RoundingSpec.
Import F1Spec F1Claims.

Local Open Scope Q_scope.

(** ** The unrounded metrics *)

Lemma ratio_unit (a b : Z) :
  (0 ≤ a)%Z → (0 ≤ b)%Z → (0 < a + b)%Z →
  0 <= inject_Z a / inject_Z (a + b) <= 1.
Proof.
  intros Ha Hb Hab.
  rewrite Zle_Qle in Ha, Hb. rewrite Zlt_Qlt in Hab.
  rewrite inject_Z_plus in *. change (inject_Z 0) with 0 in *.
  split.
  - apply Qle_shift_div_l; [exact Hab|]. lra.
  - apply Qle_shift_div_r; [exact Hab|]. lra.
Qed.

Lemma precision_of_unit (tp fp : Z) (p : Q) :
  (0 ≤ tp)%Z → (0 ≤ fp)%Z → precision_of tp fp = Ok p → 0 <= p <= 1.
Proof.
  intros Htp Hfp. rewrite precision_of_Ok. intros [= <-].
  destruct (0 <? tp + fp)%Z eqn:Hd.
  - apply ratio_unit; [done..|]. by apply Z.ltb_lt.
  - split; vm_compute; discriminate.
Qed.

Lemma f1_of_unit (p r f : Q) :
  0 <= p <= 1 → 0 <= r <= 1 → f1_of p r = Ok f → 0 <= f <= 1.
Proof.
  intros [Hp0 Hp1] [Hr0 Hr1]. rewrite f1_of_Ok. intros [= <-].
  destruct (Qltb 0 (p + r)) eqn:Hd.
  - apply Qltb_true in Hd.
    assert (Hpr : 0 <= p * r) by (apply Qmult_le_0_compat; lra).
    assert (Hle : p * r <= p).
    { rewrite <- (Qmult_1_r p) at 2.
      rewrite (Qmult_comm p r), (Qmult_comm p 1).
      apply Qmult_le_compat_r; lra. }
    assert (Hle' : p * r <= r).
    { rewrite <- (Qmult_1_l r) at 2. apply Qmult_le_compat_r; lra. }
    split.
    + apply Qle_shift_div_l; [exact Hd|]. lra.
    + apply Qle_shift_div_r; [exact Hd|]. lra.
  - split; vm_compute; discriminate.
Qed.

Lemma accuracy_of_unit (tn fp fn tp : Z) (a : Q) :
  (0 ≤ tn)%Z → (0 ≤ fp)%Z → (0 ≤ fn)%Z → (0 ≤ tp)%Z →
  accuracy_of tn fp fn tp = Ok a → 0 <= a <= 1.
Proof.
  intros Htn Hfp Hfn Htp Ha.
  apply true_divide_inv in Ha as [Hne ->].
  replace (tp + tn + fp + fn)%Z with ((tp + tn) + (fp + fn))%Z by lia.
  apply ratio_unit; lia.
Qed.

(** What a record of the table is made of. *)
Lemma metrics_of_fields attack model c row :
  metrics_of attack model c = Ok row →
  ∃ p r f a,
    precision_of (c11 c) (c01 c) = Ok p ∧
    recall_of (c11 c) (c10 c) = Ok r ∧
    f1_of p r = Ok f ∧
    accuracy_of (c00 c) (c01 c) (c10 c) (c11 c) = Ok a ∧
    row = {| Attack := attack; Model := model;
             Accuracy := py_round a 4; Precision := py_round p 4;
             Recall := py_round r 4; F1_Score := py_round f 4;
             Support_Malicious := (c00 c + c01 c)%Z;
             Support_Trustworthy := (c10 c + c11 c)%Z |}.
Proof.
  unfold metrics_of, ravel.
  destruct (precision_of _ _) as [p|] eqn:Hp; cbn [rbind]; [|done].
  destruct (recall_of _ _) as [r|] eqn:Hr; cbn [rbind]; [|done].
  destruct (f1_of _ _) as [f|] eqn:Hf; cbn [rbind]; [|done].
  destruct (accuracy_of _ _ _ _) as [a|] eqn:Ha; cbn [rbind]; [|done].
  intros [= <-]. by exists p, r, f, a.
Qed.

Lemma metrics_of_unit attack model c row :
  (0 ≤ c00 c)%Z → (0 ≤ c01 c)%Z → (0 ≤ c10 c)%Z → (0 ≤ c11 c)%Z →
  metrics_of attack model c = Ok row →
  0 <= Accuracy row <= 1 ∧ 0 <= Precision row <= 1 ∧
  0 <= Recall row <= 1 ∧ 0 <= F1_Score row <= 1.
Proof.
  intros H00 H01 H10 H11 Hrow.
  apply metrics_of_fields in Hrow
    as (p & r & f & a & Hp & Hr & Hf & Ha & ->). cbn.
  pose proof (precision_of_unit _ _ _ H11 H01 Hp) as Hpu.
  pose proof (precision_of_unit _ _ _ H11 H10 Hr) as Hru.
  pose proof (f1_of_unit _ _ _ Hpu Hru Hf) as Hfu.
  pose proof (accuracy_of_unit _ _ _ _ _ H00 H01 H10 H11 Ha) as Hau.
  repeat split; by apply py_round_unit.
Qed.

(** The counts of a matrix that [confusion_matrix] returned are not
    negative. *)
Lemma confusion_matrix_nonneg y_true y_pred labels c :
  confusion_matrix y_true y_pred labels = Ok c →
  (0 ≤ c00 c)%Z ∧ (0 ≤ c01 c)%Z ∧ (0 ≤ c10 c)%Z ∧ (0 ≤ c11 c)%Z.
Proof.
  unfold confusion_matrix. destruct labels as [l0 l1].
  destruct (negb _); [done|]. destruct (bool_decide _); [done|].
  intros [= <-]. cbn. repeat split; apply count_cell_nonneg.
Qed.

(** The rows of true class [t] are split among the two predicted classes. *)
Lemma count_cells_row (t : Z) (y_true y_pred : list Z) :
  binary y_pred → length y_true = length y_pred →
  (count_cell t 0 y_true y_pred + count_cell t 1 y_true y_pred
   = Z.of_nat (length (List.filter (Z.eqb t) y_true)))%Z.
Proof.
  unfold count_cell. revert y_pred.
  induction y_true as [|a y_true IH]; intros y_pred Hp Hlen.
  - reflexivity.
  - destruct Hp as [|b y_pred Hb Hp]; [done|].
    injection Hlen as Hlen. specialize (IH _ Hp Hlen).
    cbn [zip zip_with List.filter length fst snd].
    rewrite (Z.eqb_sym t a).
    destruct (a =? t)%Z, Hb as [-> | ->];
      cbn [Z.eqb Pos.eqb andb length fst snd]; lia.
Qed.

Lemma filter_binarize (t : Q) (s : Series) :
  length (List.filter (Z.eqb 1) (binarize t s))
  = length (List.filter (Qle_bool t) s) ∧
  length (List.filter (Z.eqb 0) (binarize t s))
  = length (List.filter (λ y, negb (Qle_bool t y)) s).
Proof.
  unfold binarize. induction s as [|y s [IH1 IH0]]; [done|].
  rewrite fmap_cons. cbn [List.filter].
  destruct (Qle_bool t y); cbn [Z.eqb Pos.eqb negb length]; split; congruence.
Qed.

Lemma filter_partition {A} (f : A → bool) (l : list A) :
  (length (List.filter f l) + length (List.filter (λ x, negb (f x)) l)
   = length l)%nat.
Proof.
  induction l as [|x l IH]; [done|].
  cbn [List.filter]. destruct (f x); cbn [negb length]; lia.
Qed.

(** The records of a table come from matrices that [confusion_matrix]
    returned for the scenario named in them. *)
Lemma table_row_emitted (W : world) paths s s' table row :
  notebook_on W paths s = (s', Ok table) → row ∈ table →
  ∃ path c,
    (Attack row, path) ∈ paths ∧
    emitted W (Attack row) path (Attack row, Model row, c) ∧
    metrics_of (Attack row) (Model row) c = Ok row.
Proof.
  intros Hrun Hrow.
  apply notebook_on_inv in Hrun as (s1 & Hc & Ht).
  destruct (table_rows _ _ _ _ Ht Hrow) as (c & Hin & Hm).
  pose proof (collect_all_emitted _ _ _ _ _ Hc) as Hall.
  rewrite Forall_forall in Hall.
  destruct (Hall _ Hin) as (attack & path & Hpath & Hem).
  assert (attack = Attack row) as ->.
  { destruct Hem as (? & ? & ? & ? & ? & _ & _ & _ & Hx & _).
    apply (f_equal (λ x : string * string * cm, x.1.1)) in Hx. by symmetry. }
  by exists path, c.
Qed.

(** X5.  Every accuracy, precision, recall and F1 score of a table that the
    classification notebook returns lies between 0 and 1. *)
Theorem reported_metrics_in_unit_interval (W : world) paths s s' table :
  notebook_on W paths s = (s', Ok table) →
  ∀ row, row ∈ table →
    0 <= Accuracy row <= 1 ∧ 0 <= Precision row <= 1 ∧
    0 <= Recall row <= 1 ∧ 0 <= F1_Score row <= 1.
Proof.
  intros Hrun row Hrow.
  destruct (table_row_emitted _ _ _ _ _ _ Hrun Hrow)
    as (path & c & _ & Hem & Hm).
  destruct Hem as (y & pd & model & preds & c' & _ & _ & _ & Hx & Hcm).
  apply (f_equal (λ x : string * string * cm, x.2)) in Hx. cbn in Hx.
  subst c'.
  apply confusion_matrix_nonneg in Hcm as (? & ? & ? & ?).
  by eapply metrics_of_unit.
Qed.

Lemma reported_metrics_in_unit_interval_witness :
  ∃ s' table,
    notebook (toy_world files) init = (s', Ok table) ∧
    ∀ row, row ∈ table →
      0 <= Accuracy row <= 1 ∧ 0 <= Precision row <= 1 ∧
      0 <= Recall row <= 1 ∧ 0 <= F1_Score row <= 1.
Proof.
  eexists _, _. split; [vm_compute; reflexivity|].
  eapply (reported_metrics_in_unit_interval (toy_world files) file_paths init).
  vm_compute. reflexivity.
Defined.

(** X6.  Every row of a table that the classification notebook returns
    reports the four metrics of its record of [conf_data], each at most
    0.00005 away from the value before [round]: precision and recall with
    their zero guards, the F1 score computed from the unrounded precision
    and recall, and the accuracy.  The bound holds whichever way a tie is
    rounded. *)
Theorem reported_metrics_rounding_error (W : world) paths s s' table :
  notebook_on W paths s = (s', Ok table) →
  ∀ row, row ∈ table →
    ∃ c p r f a,
      (Attack row, Model row, c) ∈ conf_data s' ∧
      precision_of (c11 c) (c01 c) = Ok p ∧
      recall_of (c11 c) (c10 c) = Ok r ∧
      f1_of p r = Ok f ∧
      accuracy_of (c00 c) (c01 c) (c10 c) (c11 c) = Ok a ∧
      Qabs (Precision row - p) <= 0.00005 ∧
      Qabs (Recall row - r) <= 0.00005 ∧
      Qabs (F1_Score row - f) <= 0.00005 ∧
      Qabs (Accuracy row - a) <= 0.00005.
Proof.
  intros Hrun row Hrow.
  pose proof Hrun as (s1 & Hc & Ht)%notebook_on_inv.
  destruct (table_rows _ _ _ _ Ht Hrow) as (c & Hin & Hm).
  apply metrics_table_frame in Ht as [Hcd _].
  apply metrics_of_fields in Hm
    as (p & r & f & a & Hp & Hr & Hf & Ha & Heq).
  exists c, p, r, f, a. split; [by rewrite Hcd|].
  repeat (split; [done|]). rewrite Heq. cbn.
  assert (Hb : (1 # 2) / inject_Z (10 ^ Z.of_nat 4) <= 0.00005)
    by (vm_compute; discriminate).
  repeat split; (eapply Qle_trans; [apply py_round_error|exact Hb]).
Qed.

Lemma reported_metrics_rounding_error_witness :
  ∃ s' table,
    notebook (toy_world files) init = (s', Ok table) ∧
    ∀ row, row ∈ table →
      ∃ c p r f a,
        (Attack row, Model row, c) ∈ conf_data s' ∧
        precision_of (c11 c) (c01 c) = Ok p ∧
        recall_of (c11 c) (c10 c) = Ok r ∧
        f1_of p r = Ok f ∧
        accuracy_of (c00 c) (c01 c) (c10 c) (c11 c) = Ok a ∧
        Qabs (Precision row - p) <= 0.00005 ∧
        Qabs (Recall row - r) <= 0.00005 ∧
        Qabs (F1_Score row - f) <= 0.00005 ∧
        Qabs (Accuracy row - a) <= 0.00005.
Proof.
  eexists _, _. split; [vm_compute; reflexivity|].
  eapply (reported_metrics_rounding_error (toy_world files) file_paths init).
  vm_compute. reflexivity.
Defined.

(** X7.  The supports of a row count the ground truth only: for every row
    of a scenario in a returned table, Support (Trustworthy) is the number
    of rows of the log with a coordination rate of at least 0.85 and
    Support (Malicious) the number of the others, whatever the model
    predicted; together they are the number of rows of the log. *)
Theorem supports_count_ground_truth (W : world) paths attack path y_true
    s s' table :
  NoDup paths.*1 →
  (attack, path) ∈ paths →
  scenario_target W path = Ok y_true →
  notebook_on W paths s = (s', Ok table) →
  ∀ row, row ∈ table → Attack row = attack →
    Support_Trustworthy row
    = Z.of_nat (length (List.filter (Qle_bool 0.85) y_true)) ∧
    Support_Malicious row
    = Z.of_nat (length (List.filter (λ y, negb (Qle_bool 0.85 y)) y_true)) ∧
    (Support_Malicious row + Support_Trustworthy row
     = Z.of_nat (length y_true))%Z.
Proof.
  intros Hnodup Hpath Htarget Hrun row Hrow Hattack.
  destruct (table_row_emitted _ _ _ _ _ _ Hrun Hrow)
    as (path' & c & Hpath' & Hem & Hm).
  rewrite Hattack in Hpath'.
  assert (path' = path) as ->
    by exact (NoDup_fst_functional _ _ _ _ Hnodup Hpath' Hpath).
  destruct Hem as (y & pd & model & preds & c' & Hfit & _ & _ & Hx & Hcm).
  apply (f_equal (λ x : string * string * cm, x.2)) in Hx. cbn in Hx.
  subst c'.
  apply scenario_target_Ok in Htarget.
  assert (y = y_true) as ->
    by exact (target_functional _ _ _ _ (fitted_target _ _ _ _ Hfit) Htarget).
  apply metrics_of_inv in Hm as (_ & _ & _ & _ & -> & ->).
  pose proof (confusion_matrix_Ok_length _ _ _ _ Hcm) as Hlen.
  unfold confusion_matrix in Hcm.
  destruct (negb _); [done|]. destruct (bool_decide _); [done|].
  injection Hcm as <-. cbn [c00 c01 c10 c11].
  rewrite !count_cells_row by (done || apply binarize_binary).
  destruct (filter_binarize 0.85 y_true) as [-> ->].
  pose proof (filter_partition (Qle_bool 0.85) y_true).
  repeat split; lia.
Qed.

Lemma supports_count_ground_truth_witness :
  ∃ s' table,
    notebook (toy_world files) init = (s', Ok table) ∧
    ∀ row, row ∈ table → Attack row = "Critical Node"%string →
      Support_Trustworthy row
      = Z.of_nat (length (List.filter (Qle_bool 0.85) [0.9; 0.86; 0.5])) ∧
      Support_Malicious row
      = Z.of_nat (length (List.filter (λ y, negb (Qle_bool 0.85 y))
                                      [0.9; 0.86; 0.5])) ∧
      (Support_Malicious row + Support_Trustworthy row
       = Z.of_nat (length [0.9; 0.86; 0.5]%Q))%Z.
Proof.
  eexists _, _. split; [vm_compute; reflexivity|].
  eapply (supports_count_ground_truth (toy_world files) file_paths
            "Critical Node"
            "C:/Users/Documents/AirSim/drone_simulation_log_critical_node.csv"
            [0.9; 0.86; 0.5] init).
  - apply (bool_decide_unpack _). vm_compute. exact I.
  - apply (bool_decide_unpack _). vm_compute. exact I.
  - vm_compute. reflexivity.
  - vm_compute. reflexivity.
Defined.

(** A 0/1 vector with two distinct values has both. *)
Lemma two_classes (l : list Z) :
  binary l → (2 ≤ length (np_unique l))%nat → 0%Z ∈ l ∧ 1%Z ∈ l.
Proof.
  intros Hbin Hlen. rewrite np_unique_length in Hlen.
  pose proof (NoDup_remove_dups l) as Hnd.
  assert (Hsub : ∀ x, x ∈ remove_dups l → x ∈ l ∧ (x = 0 ∨ x = 1)%Z).
  { intros x Hx. rewrite elem_of_remove_dups in Hx. split; [done|].
    unfold binary in Hbin. rewrite Forall_forall in Hbin. by apply Hbin. }
  destruct (remove_dups l) as [|a [|b d]]; [cbn in Hlen; lia..|].
  destruct (Hsub a) as [Ha Ha']; [by left|].
  destruct (Hsub b) as [Hb Hb']; [right; by left|].
  apply NoDup_cons in Hnd as [Hab _].
  assert (a ≠ b) by (intros ->; apply Hab; by left).
  destruct Ha' as [-> | ->], Hb' as [-> | ->]; done.
Qed.

Lemma filter_occurs (x : Z) (l : list Z) :
  x ∈ l → (1 ≤ length (List.filter (Z.eqb x) l))%nat.
Proof.
  induction l as [|a l IH]; intros Hx; [by apply elem_of_nil in Hx|].
  cbn [List.filter]. destruct (Z.eqb_spec x a) as [->|Hne].
  - cbn. lia.
  - apply elem_of_cons in Hx as [->|Hx]; [done|]. by apply IH.
Qed.

(** X8.  Both supports of every row of a returned table are at least 1:
    a scenario reaches the table only with both classes in its ground
    truth.  So the sum [tp + fn] that guards the recall is positive for
    every row, and the zero branch of that guard is never taken. *)
Theorem supports_are_positive (W : world) paths s s' table :
  notebook_on W paths s = (s', Ok table) →
  ∀ row, row ∈ table →
    (1 ≤ Support_Malicious row)%Z ∧ (1 ≤ Support_Trustworthy row)%Z ∧
    ∃ c, (Attack row, Model row, c) ∈ conf_data s' ∧
         recall_of (c11 c) (c10 c)
         = Ok (inject_Z (c11 c) / inject_Z (c11 c + c10 c)).
Proof.
  intros Hrun row Hrow.
  pose proof Hrun as (s1 & Hc & Ht)%notebook_on_inv.
  destruct (table_rows _ _ _ _ Ht Hrow) as (c & Hin & Hm).
  pose proof (collect_all_emitted _ _ _ _ _ Hc) as Hall.
  rewrite Forall_forall in Hall.
  destruct (Hall _ Hin) as (attack & path & _ & Hem).
  destruct Hem as (y & pd & model & preds & c' & _ & Htwo & _ & Hx & Hcm).
  apply (f_equal (λ x : string * string * cm, x.2)) in Hx. cbn in Hx.
  subst c'.
  apply metrics_of_inv in Hm as (_ & _ & _ & _ & Hs0 & Hs1).
  rewrite Hs0, Hs1.
  pose proof (confusion_matrix_Ok_length _ _ _ _ Hcm) as Hlen.
  unfold confusion_matrix in Hcm.
  destruct (negb _); [done|]. destruct (bool_decide _); [done|].
  injection Hcm as <-. cbn [c00 c01 c10 c11].
  rewrite !count_cells_row by (done || apply binarize_binary).
  destruct (two_classes _ (binarize_binary 0.85 y) Htwo) as [H0 H1].
  apply filter_occurs in H0, H1.
  split; [lia|]. split; [lia|].
  apply metrics_table_frame in Ht as [Hcd _].
  eexists. split; [rewrite Hcd; exact Hin|]. cbn [c10 c11].
  rewrite recall_of_Ok.
  assert (Hpos : (0 < count_cell 1 1 (binarize 0.85 y) (binarize 0.85 preds)
                      + count_cell 1 0 (binarize 0.85 y) (binarize 0.85 preds))%Z).
  { pose proof (count_cells_row 1 (binarize 0.85 y) (binarize 0.85 preds)
                  (binarize_binary _ _) Hlen). lia. }
  apply Z.ltb_lt in Hpos. by rewrite Hpos.
Qed.

Lemma supports_are_positive_witness :
  ∃ s' table,
    notebook (toy_world files) init = (s', Ok table) ∧
    ∀ row, row ∈ table →
      (1 ≤ Support_Malicious row)%Z ∧ (1 ≤ Support_Trustworthy row)%Z ∧
      ∃ c, (Attack row, Model row, c) ∈ conf_data s' ∧
           recall_of (c11 c) (c10 c)
           = Ok (inject_Z (c11 c) / inject_Z (c11 c + c10 c)).
Proof.
  eexists _, _. split; [vm_compute; reflexivity|].
  eapply (supports_are_positive (toy_world files) file_paths init).
  vm_compute. reflexivity.
Defined.

(** X9.  A log with fewer than two rows, an empty one included, is skipped
    by the classification notebook like a log with one class: the two lines
    are printed, nothing is appended and nothing is raised; the scaler, the
    split and the models are not reached. *)
Theorem short_log_is_skipped (W : world) attack path y_true t :
  scenario_target W path = Ok y_true →
  (length y_true < 2)%nat →
  process W attack path t
  = ({| stdout := stdout t ++
          [nl +:+ "📌 Processing: " +:+ attack;
           "⚠️ Skipping " +:+ attack +:+ ": insufficient class diversity"];
        conf_data := conf_data t;
        metrics_data := metrics_data t |}, Ok tt).
Proof.
  intros Htarget Hlen.
  rewrite (process_skip W attack path y_true t).
  - unfold printed. cbn. by rewrite <- app_assoc.
  - by apply scenario_target_Ok.
  - pose proof (np_unique_length_le (binarize 0.85 y_true)) as Hle.
    rewrite binarize_length in Hle. lia.
Qed.

Lemma short_log_is_skipped_witness :
  scenario_target (toy_world short_files)
    "C:/Users/Documents/AirSim/drone_sybil_attack.csv" = Ok [0.9] ∧
  process (toy_world short_files) "Sybil Attack"
    "C:/Users/Documents/AirSim/drone_sybil_attack.csv" init
  = ({| stdout := stdout init ++
          [nl +:+ "📌 Processing: " +:+ "Sybil Attack";
           "⚠️ Skipping " +:+ "Sybil Attack" +:+
           ": insufficient class diversity"];
        conf_data := conf_data init;
        metrics_data := metrics_data init |}, Ok tt).
Proof.
  split; [vm_compute; reflexivity|].
  apply (short_log_is_skipped (toy_world short_files) "Sybil Attack"
           "C:/Users/Documents/AirSim/drone_sybil_attack.csv" [0.9] init).
  - vm_compute. reflexivity.
  - vm_compute. lia.
Defined.

End MetricsMore.

(** * Further properties of the two batches *)

Module BatchMore.

Import Features Examples ExamplesMore Loops FeaturesSpec.

Local Open Scope Q_scope.

(** ** Computations that only add to the state *)

Section Grows.

Context {St Ext : Type}.
Context (ext : St → Ext → St) (nothing : Ext) (both : Ext → Ext → Ext).

Hypothesis ext_nothing : ∀ s, ext s nothing = s.
Hypothesis ext_both : ∀ s a b, ext (ext s a) b = ext s (both a b).

(** [grows m]: what [m] adds to the state, and what it returns or raises, is
    the same from every state. *)
Definition grows {A : Type} (m : M St A) : Prop :=
  ∃ d r, ∀ s, m s = (ext s d, r).

Lemma grows_lift {A : Type} (r : result A) : grows (lift r).
Proof. exists nothing, r. intros s. unfold lift. by rewrite ext_nothing. Qed.

Lemma grows_bind {A B : Type} (m : M St A) (k : A → M St B) :
  grows m → (∀ a, grows (k a)) → grows (bind m k).
Proof.
  intros (d & [a|e] & Hm) Hk.
  - destruct (Hk a) as (d' & r & Hka).
    exists (both d d'), r. intros s. unfold bind.
    by rewrite Hm, Hka, ext_both.
  - exists d, (Raise e). intros s. unfold bind. by rewrite Hm.
Qed.

Lemma grows_for_each {A : Type} (xs : list A) (body : A → M St unit) :
  (∀ x, grows (body x)) → grows (for_each xs body).
Proof.
  intros Hbody. induction xs as [|x xs IH].
  - exists nothing, (Ok tt). intros s. cbn. unfold ret. by rewrite ext_nothing.
  - cbn [for_each]. apply grows_bind; [apply Hbody|]. intros _. exact IH.
Qed.

End Grows.

(** ** The regression batch *)

(** Lines printed and rows appended. *)
Definition r2_ext (s : R2.state) (d : list string * list R2.summary_row)
  : R2.state :=
  {| R2.stdout := R2.stdout s ++ d.1; R2.summary := R2.summary s ++ d.2 |}.

Definition r2_both (a b : list string * list R2.summary_row)
  : list string * list R2.summary_row :=
  (a.1 ++ b.1, a.2 ++ b.2).

Lemma r2_ext_nothing s : r2_ext s ([], []) = s.
Proof. destruct s. unfold r2_ext. cbn. by rewrite !app_nil_r. Qed.

Lemma r2_ext_both s a b : r2_ext (r2_ext s a) b = r2_ext s (r2_both a b).
Proof. unfold r2_ext, r2_both. cbn. by rewrite !app_assoc. Qed.

Lemma r2_grows_print line : grows r2_ext (R2.print line).
Proof.
  exists ([line], []), (Ok tt). intros s.
  unfold R2.print, modify, r2_ext. cbn. by rewrite app_nil_r.
Qed.

Lemma r2_grows_summary_append row : grows r2_ext (R2.summary_append row).
Proof.
  exists ([], [row]), (Ok tt). intros s.
  unfold R2.summary_append, modify, r2_ext. cbn. by rewrite app_nil_r.
Qed.

Ltac r2_grows_step :=
  lazymatch goal with
  | |- grows _ (bind _ _) =>
      apply (grows_bind r2_ext r2_both r2_ext_both); [|intros ?]
  | |- grows _ (lift _) => apply (grows_lift r2_ext ([], []) r2_ext_nothing)
  | |- grows _ (R2.print _) => apply r2_grows_print
  | |- grows _ (R2.summary_append _) => apply r2_grows_summary_append
  | |- grows _ (for_each _ _) =>
      apply (grows_for_each r2_ext ([], []) r2_both r2_ext_nothing r2_ext_both);
      intros ?
  | |- grows _ (match ?x with _ => _ end) => destruct x
  end.

Lemma r2_grows_process (W : world) attack_name path :
  grows r2_ext (R2.process W attack_name path).
Proof. unfold R2.process, R2.score. repeat r2_grows_step. Qed.

Lemma r2_grows_loop (W : world) files :
  grows r2_ext (for_each files (λ '(attack_name, path),
                                  R2.process W attack_name path)).
Proof. repeat r2_grows_step. apply r2_grows_process. Qed.

(** X10.  The regression notebook starts from an empty [summary]: the lines
    it prints, the rows it leaves in [summary] and the table or exception it
    ends with are the same whatever [summary] held before the run, so
    running the cell again does not duplicate rows. *)
Theorem regression_run_resets_summary (W : world) files :
  ∃ lines rows r,
    ∀ s, R2.notebook_on W files s
         = ({| R2.stdout := R2.stdout s ++ lines; R2.summary := rows |}, r).
Proof.
  destruct (r2_grows_loop W files) as ([lines rows] & r & Hloop).
  exists lines, rows,
    (match r with
     | Ok _ =>
         match rows with
         | [] => Raise (KeyError "Attack")
         | _ :: _ => Ok (R2.sort_values rows)
         end
     | Raise e => Raise e
     end).
  intros s.
  unfold R2.notebook_on, R2.evaluate, R2.results_table, bind, gets, ret, lift.
  cbn [R2.set_summary modify]. rewrite Hloop. unfold r2_ext. cbn.
  destruct r; [|done]. by destruct rows.
Qed.

(** ** The classification batch *)

Definition f1_ext (s : F1.state)
    (d : list string * list (string * string * F1.cm) * list F1.metrics_row)
  : F1.state :=
  {| F1.stdout := F1.stdout s ++ d.1.1;
     F1.conf_data := F1.conf_data s ++ d.1.2;
     F1.metrics_data := F1.metrics_data s ++ d.2 |}.

Definition f1_both
    (a b : list string * list (string * string * F1.cm) * list F1.metrics_row)
  : list string * list (string * string * F1.cm) * list F1.metrics_row :=
  (a.1.1 ++ b.1.1, a.1.2 ++ b.1.2, a.2 ++ b.2).

Lemma f1_ext_nothing s : f1_ext s ([], [], []) = s.
Proof. destruct s. unfold f1_ext. cbn. by rewrite !app_nil_r. Qed.

Lemma f1_ext_both s a b : f1_ext (f1_ext s a) b = f1_ext s (f1_both a b).
Proof. unfold f1_ext, f1_both. cbn. by rewrite !app_assoc. Qed.

Lemma f1_grows_print line : grows f1_ext (F1.print line).
Proof.
  exists ([line], [], []), (Ok tt). intros s.
  unfold F1.print, modify, f1_ext. cbn. by rewrite !app_nil_r.
Qed.

Lemma f1_grows_conf_data_append x : grows f1_ext (F1.conf_data_append x).
Proof.
  exists ([], [x], []), (Ok tt). intros s.
  unfold F1.conf_data_append, modify, f1_ext. cbn. by rewrite !app_nil_r.
Qed.

Lemma f1_grows_metrics_data_append row :
  grows f1_ext (F1.metrics_data_append row).
Proof.
  exists ([], [], [row]), (Ok tt). intros s.
  unfold F1.metrics_data_append, modify, f1_ext. cbn. by rewrite !app_nil_r.
Qed.

Ltac f1_grows_step :=
  lazymatch goal with
  | |- grows _ (bind _ _) =>
      apply (grows_bind f1_ext f1_both f1_ext_both); [|intros ?]
  | |- grows _ (lift _) =>
      apply (grows_lift f1_ext ([], [], []) f1_ext_nothing)
  | |- grows _ (F1.print _) => apply f1_grows_print
  | |- grows _ (F1.conf_data_append _) => apply f1_grows_conf_data_append
  | |- grows _ (F1.metrics_data_append _) =>
      apply f1_grows_metrics_data_append
  | |- grows _ (for_each _ _) =>
      apply (grows_for_each f1_ext ([], [], []) f1_both
               f1_ext_nothing f1_ext_both);
      intros ?
  | |- grows _ (match ?x with _ => _ end) => destruct x
  end.

Lemma f1_grows_process (W : world) attack path :
  grows f1_ext (F1.process W attack path).
Proof. unfold F1.process, F1.collect. repeat f1_grows_step. Qed.

Lemma f1_grows_loop (W : world) paths :
  grows f1_ext (for_each paths (F1Spec.scenario_body W)).
Proof.
  unfold F1Spec.scenario_body. repeat f1_grows_step. apply f1_grows_process.
Qed.

Lemma f1_grows_metrics_loop cd :
  grows f1_ext (for_each cd F1Spec.metrics_body).
Proof. unfold F1Spec.metrics_body. repeat f1_grows_step. Qed.

(** X11.  The classification notebook starts from an empty [conf_data] and
    builds the table from an empty [metrics_data]: the lines it prints, the
    records it leaves in [conf_data] and the table or exception it ends with
    are the same whatever the two lists held before the run, and
    [metrics_data] is the table when one is returned. *)
Theorem classification_run_resets_records (W : world) paths :
  ∃ lines records r,
    ∀ s, ∃ rows,
      F1.notebook_on W paths s
      = ({| F1.stdout := F1.stdout s ++ lines;
            F1.conf_data := records;
            F1.metrics_data := rows |}, r) ∧
      ∀ table, r = Ok table → rows = table.
Proof.
  destruct (f1_grows_loop W paths) as ([[lines records] rows] & r & Hloop).
  destruct r as [[]|e].
  - destruct (f1_grows_metrics_loop records)
      as ([[lines' records'] rows'] & r' & Hloop').
    exists (lines ++ lines'), (records ++ records'),
      (match r' with Ok _ => Ok rows' | Raise e => Raise e end).
    intros s. exists rows'.
    unfold F1.notebook_on, bind. rewrite F1Spec.collect_all_unfold, Hloop.
    rewrite F1Spec.metrics_table_unfold. cbn [f1_ext F1.conf_data fst snd].
    unfold F1Spec.with_metrics_data. cbn [app F1.conf_data F1.stdout].
    rewrite Hloop'. unfold f1_ext. cbn. rewrite <- app_assoc.
    destruct r'; split; congruence.
  - exists lines, records, (Raise e). intros s. eexists.
    unfold F1.notebook_on, bind. rewrite F1Spec.collect_all_unfold, Hloop.
    unfold f1_ext. cbn. split; [reflexivity|done].
Qed.

(** ** Logs that cannot be loaded *)

Lemma r2_process_load_fails (W : world) attack_name path e s :
  rbind (read_csv W path) preprocess = Raise e →
  R2.process W attack_name path s
  = (R2Spec.printed (R2Spec.processing_line attack_name) s, Raise e).
Proof.
  intros Hload. unfold R2.process, bind, lift. cbn [R2.print modify].
  destruct (read_csv W path) as [df0|e'] eqn:Hread; cbn [rbind] in Hload.
  - by rewrite Hload.
  - by injection Hload as ->.
Qed.

Lemma f1_process_load_fails (W : world) attack path e s :
  F1Spec.scenario_target W path = Raise e →
  F1.process W attack path s
  = (F1Spec.printed (F1Spec.processing_line attack) s, Raise e).
Proof.
  unfold F1Spec.scenario_target. intros Hload.
  unfold F1.process, bind, lift. cbn [F1.print modify].
  destruct (read_csv W path) as [df0|e'] eqn:Hread; cbn [rbind] in Hload;
    [|by injection Hload as ->].
  destruct (feature_engineering df0) as [df|e'] eqn:Hfe; cbn [rbind] in Hload;
    [|by injection Hload as ->].
  by rewrite Hload.
Qed.

(** X12.  A log that cannot be loaded stops the batch like a failing fit.
    In the regression notebook, when [read_csv] or [preprocess] raises for a
    scenario after the scenarios before it returned, the notebook ends with
    that exception, having printed the line of the scenario and appended
    nothing for it; no later scenario is read.  The classification notebook
    does the same when [read_csv], the feature engineering or the read of
    the coordination rates raises. *)
Theorem load_failure_aborts_batch (W : world) :
  (∀ before attack_name path after e s t,
     rbind (read_csv W path) preprocess = Raise e →
     R2.evaluate W before s = (t, Ok tt) →
     R2.notebook_on W (before ++ (attack_name, path) :: after) s
     = ({| R2.stdout := R2.stdout t ++ [nl +:+ " Processing: " +:+ attack_name];
           R2.summary := R2.summary t |}, Raise e)) ∧
  (∀ before attack path after e s t,
     F1Spec.scenario_target W path = Raise e →
     F1.collect_all W before s = (t, Ok tt) →
     F1.notebook_on W (before ++ (attack, path) :: after) s
     = ({| F1.stdout := F1.stdout t ++ [nl +:+ "📌 Processing: " +:+ attack];
           F1.conf_data := F1.conf_data t;
           F1.metrics_data := F1.metrics_data t |}, Raise e)).
Proof.
  split.
  - intros before attack_name path after e s t Hload Hbefore.
    unfold R2.notebook_on, bind.
    assert (R2.evaluate W (before ++ (attack_name, path) :: after) s
            = (R2Spec.printed (R2Spec.processing_line attack_name) t, Raise e))
      as ->; [|done].
    unfold R2.evaluate, bind in *. cbn [R2.set_summary modify] in *.
    eapply for_each_Raise; [exact Hbefore|].
    by apply r2_process_load_fails.
  - intros before attack path after e s t Hload Hbefore.
    unfold F1.notebook_on, bind.
    assert (F1.collect_all W (before ++ (attack, path) :: after) s
            = (F1Spec.printed (F1Spec.processing_line attack) t, Raise e))
      as ->; [|done].
    rewrite F1Spec.collect_all_unfold in *.
    eapply for_each_Raise; [exact Hbefore|].
    by apply f1_process_load_fails.
Qed.

Lemma load_failure_aborts_batch_witness :
  (∃ t,
     R2.evaluate (toy_world files_lossless) (take 1 R2.attack_files) R2.init
     = (t, Ok tt) ∧
     R2.notebook (toy_world files_lossless) R2.init
     = ({| R2.stdout :=
             R2.stdout t ++ [nl +:+ " Processing: " +:+ "Data Manipulation"];
           R2.summary := R2.summary t |}, Raise (KeyError "Packet Loss"))) ∧
  (∃ t,
     F1.collect_all (toy_world files_lossless) (take 1 F1.file_paths) F1.init
     = (t, Ok tt) ∧
     F1.notebook (toy_world files_lossless) F1.init
     = ({| F1.stdout :=
             F1.stdout t ++ [nl +:+ "📌 Processing: " +:+ "Data Manipulation"];
           F1.conf_data := F1.conf_data t;
           F1.metrics_data := F1.metrics_data t |},
        Raise (KeyError "Packet Loss"))).
Proof.
  split.
  - eexists. split; [vm_compute; reflexivity|].
    apply (proj1 (load_failure_aborts_batch (toy_world files_lossless))
             (take 1 R2.attack_files) "Data Manipulation"
             "C:/Users/Documents/AirSim/drone_simulation_log_data_manipulation.csv"
             (drop 2 R2.attack_files) (KeyError "Packet Loss") R2.init).
    + vm_compute. reflexivity.
    + vm_compute. reflexivity.
  - eexists. split; [vm_compute; reflexivity|].
    apply (proj2 (load_failure_aborts_batch (toy_world files_lossless))
             (take 1 F1.file_paths) "Data Manipulation"
             "C:/Users/Documents/AirSim/drone_simulation_log_data_manipulation.csv"
             (drop 2 F1.file_paths) (KeyError "Packet Loss") F1.init).
    + vm_compute. reflexivity.
    + vm_compute. reflexivity.
Defined.

(** ** The rows of the regression table *)

Definition model_names : list string :=
  ["SVM (SVR)"; "Random Forest"; "CNN"]%string.

(** The three rows of one scenario. *)
Definition scenario_rows (attack_name : string) (g : list R2.summary_row)
  : Prop :=
  ∃ r1 r2 r3,
    g = [r1; r2; r3] ∧
    R2.Attack r1 = attack_name ∧ R2.Attack r2 = attack_name ∧
    R2.Attack r3 = attack_name ∧
    R2.Model r1 = "SVM (SVR)"%string ∧ R2.Model r2 = "Random Forest"%string ∧
    R2.Model r3 = "CNN"%string.

(** A scenario whose fits return is scored on the predictions of its three
    models. *)
Lemma r2_process_fitted (W : world) attack_name path y models s :
  R2Spec.fitted W path y models →
  R2.process W attack_name path s
  = R2.score W attack_name y models
      (R2Spec.printed (R2Spec.processing_line attack_name) s).
Proof.
  intros Hfit. unfold R2.process, bind, lift. cbn [R2.print modify].
  unfold R2.model_rf, R2.model_svm, R2.model_cnn.
  destruct Hfit as [Xs Xt yt Xr m_svm m_rf m_cnn [] Hsvm Hrf Hcnn].
  unfold R2Spec.cnn_layers in Hcnn.
  repeat match goal with
         | H : _ = Ok _ |- _ => rewrite H; clear H
         end;
    cbn [rbind].
  reflexivity.
Qed.

(** The rows of a loop that returns: three for each scenario, in the order
    of the dictionary and, within a scenario, in the order of [models]. *)
Lemma r2_groups (W : world) files s s' :
  for_each files (λ '(attack_name, path), R2.process W attack_name path) s
  = (s', Ok tt) →
  ∃ groups,
    R2.summary s' = R2.summary s ++ concat groups ∧
    Forall2 (λ (ap : string * string) g, scenario_rows ap.1 g) files groups.
Proof.
  revert s. induction files as [|[attack path] files IH]; intros s Hrun.
  - injection Hrun as <-. exists []. simpl. by rewrite app_nil_r.
  - rewrite for_each_cons in Hrun.
    destruct (R2.process W attack path s) as [t [[]|e]] eqn:Hbody; [|done].
    apply IH in Hrun as (groups & -> & Hgroups).
    destruct (R2Spec.r2_process_cases W attack path s)
      as [[e He]|(y & models & Hfit & Hgo)].
    + rewrite He in Hbody. done.
    + rewrite Hgo in Hbody.
      apply R2Spec.score_inv in Hbody as (rows & -> & _ & Hall).
      specialize (Hall eq_refl). destruct Hfit.
      apply Forall2_cons_inv_l in Hall
        as (r1 & rows1 & (? & ? & ? & _ & _ & _ & ->) & Hall & ->).
      apply Forall2_cons_inv_l in Hall
        as (r2 & rows2 & (? & ? & ? & _ & _ & _ & ->) & Hall & ->).
      apply Forall2_cons_inv_l in Hall
        as (r3 & rows3 & (? & ? & ? & _ & _ & _ & ->) & Hall & ->).
      apply Forall2_nil_inv_l in Hall as ->.
      eexists (_ :: groups). split.
      { simpl. rewrite <- app_assoc. reflexivity. }
      constructor; [|done].
      eexists _, _, _. split; [reflexivity|]. by repeat split.
Qed.

Lemma groups_rows (files : list (string * string)) groups :
  Forall2 (λ (ap : string * string) g, scenario_rows ap.1 g) files groups →
  length (concat groups) = (3 * length files)%nat ∧
  (∀ attack_name path model,
     (attack_name, path) ∈ files → model ∈ model_names →
     ∃ row, row ∈ concat groups ∧
            R2.Attack row = attack_name ∧ R2.Model row = model) ∧
  (∀ row, row ∈ concat groups →
          R2.Attack row ∈ files.*1 ∧ R2.Model row ∈ model_names).
Proof.
  induction 1 as [|[a p] g files groups Hg _ (IHlen & IHin & IHrow)].
  - split; [done|]. split.
    + intros ? ? ? Hin. by apply elem_of_nil in Hin.
    + intros ? Hin. by apply elem_of_nil in Hin.
  - destruct Hg as (r1 & r2 & r3 & -> & Ha1 & Ha2 & Ha3 & Hm1 & Hm2 & Hm3).
    cbn [fst] in *. split; [|split].
    + cbn [concat app length] in *. lia.
    + intros attack_name path model Hin Hmodel.
      apply elem_of_cons in Hin as [[= -> ->]|Hin].
      * unfold model_names in Hmodel.
        apply elem_of_cons in Hmodel as [->|Hmodel];
          [exists r1; split;
           [cbn [concat app]; rewrite !elem_of_cons; eauto|done]|].
        apply elem_of_cons in Hmodel as [->|Hmodel];
          [exists r2; split;
           [cbn [concat app]; rewrite !elem_of_cons; eauto|done]|].
        apply elem_of_cons in Hmodel as [->|Hmodel];
          [exists r3; split;
           [cbn [concat app]; rewrite !elem_of_cons; eauto|done]|].
        by apply elem_of_nil in Hmodel.
      * destruct (IHin _ _ _ Hin Hmodel) as (row & Hrow & ? & ?).
        exists row. split; [|done].
        cbn [concat]. apply elem_of_app. by right.
    + intros row Hrow. cbn [concat] in Hrow.
      apply elem_of_app in Hrow as [Hrow|Hrow].
      * rewrite fmap_cons. cbn [fst]. unfold model_names.
        repeat (apply elem_of_cons in Hrow as [->|Hrow];
                [split; [rewrite ?Ha1, ?Ha2, ?Ha3; by left
                        |rewrite ?Hm1, ?Hm2, ?Hm3;
                         rewrite !elem_of_cons; eauto]|]).
        by apply elem_of_nil in Hrow.
      * destruct (IHrow _ Hrow) as [? ?]. split; [|done].
        rewrite fmap_cons. by right.
Qed.

(** X13.  The regression table is complete: when the notebook returns it,
    the table has three rows for every entry of the dictionary, one for
    each of SVM (SVR), Random Forest and CNN, and no other row; no scenario
    is skipped. *)
Theorem regression_table_complete (W : world) files s s' table :
  R2.notebook_on W files s = (s', Ok table) →
  length table = (3 * length files)%nat ∧
  (∀ attack_name path model,
     (attack_name, path) ∈ files → model ∈ model_names →
     ∃ row, row ∈ table ∧
            R2.Attack row = attack_name ∧ R2.Model row = model) ∧
  (∀ row, row ∈ table →
          R2.Attack row ∈ files.*1 ∧ R2.Model row ∈ model_names).
Proof.
  unfold R2.notebook_on, bind.
  destruct (R2.evaluate W files s) as [s1 [[]|e]] eqn:Hrun; [|done].
  intros (-> & -> & _)%R2Spec.results_table_Ok.
  unfold R2.evaluate, bind in Hrun. cbn [R2.set_summary modify] in Hrun.
  apply r2_groups in Hrun as (groups & Hsum & Hgroups). cbn in Hsum.
  pose proof (R2Spec.sort_values_Permutation (R2.summary s1)) as Hperm.
  rewrite Hsum in Hperm.
  destruct (groups_rows _ _ Hgroups) as (Hlen & Hin & Hrow).
  rewrite Hsum. split; [|split].
  - by rewrite Hperm.
  - intros attack_name path model Hfile Hmodel.
    destruct (Hin _ _ _ Hfile Hmodel) as (row & Hr & ? & ?).
    exists row. split; [by rewrite Hperm|done].
  - intros row Hr. apply Hrow. by rewrite <- Hperm.
Qed.

Lemma regression_table_complete_witness :
  ∃ s' table,
    R2.notebook (toy_world files) R2.init = (s', Ok table) ∧
    length table = (3 * length R2.attack_files)%nat ∧
    (∀ attack_name path model,
       (attack_name, path) ∈ R2.attack_files → model ∈ model_names →
       ∃ row, row ∈ table ∧
              R2.Attack row = attack_name ∧ R2.Model row = model) ∧
    (∀ row, row ∈ table →
            R2.Attack row ∈ R2.attack_files.*1 ∧ R2.Model row ∈ model_names).
Proof.
  eexists _, _. split; [vm_compute; reflexivity|].
  eapply (regression_table_complete (toy_world files) R2.attack_files R2.init).
  vm_compute. reflexivity.
Defined.

(** Every row of [summary] after the loop was scored for a scenario of the
    dictionary whose three fits returned. *)
Lemma evaluate_scored (W : world) files s s' r :
  R2.evaluate W files s = (s', r) →
  Forall (λ row, ∃ path y models preds,
            (R2.Attack row, path) ∈ files ∧
            R2Spec.fitted W path y models ∧
            (R2.Model row, preds) ∈ models ∧
            R2Spec.scored W (R2.Attack row) y (R2.Model row, preds) row)
         (R2.summary s').
Proof.
  unfold R2.evaluate, bind. cbn [R2.set_summary modify].
  match goal with
  | |- _ → Forall ?P _ =>
      apply (for_each_invariant (λ u, Forall P (R2.summary u)));
      [|constructor]
  end.
  intros [a p] t t' q Hin Ht Hbody.
  destruct (R2Spec.r2_process_cases W a p t)
    as [[e He]|(y & models & Hfit & Hgo)].
  - rewrite He in Hbody. by injection Hbody as <- _.
  - rewrite Hgo in Hbody.
    apply R2Spec.score_inv in Hbody as (rows & -> & Hrows & _). cbn.
    apply Forall_app. split; [exact Ht|].
    eapply Forall_impl; [exact Hrows|].
    intros row ([model preds] & Hmp & Hscored).
    assert (R2.Attack row = a ∧ R2.Model row = model) as [Ha Hm].
    { destruct Hscored as (? & ? & ? & _ & _ & _ & ->). done. }
    exists p, y, models, preds. rewrite Ha, Hm. done.
Qed.

(** X14.  Every row of the regression table reports the three scores that
    the metric functions returned for the target of its scenario and the
    predictions of its model: MAE and RMSE within 0.0000005 of them, the R2
    score within 0.00005. *)
Theorem reported_scores_rounding_error (W : world) files s s' table :
  R2.notebook_on W files s = (s', Ok table) →
  ∀ row, row ∈ table →
    ∃ path y models preds mae rmse r2,
      (R2.Attack row, path) ∈ files ∧
      R2Spec.fitted W path y models ∧
      (R2.Model row, preds) ∈ models ∧
      mean_absolute_error W y preds = Ok mae ∧
      mean_squared_error W y preds false = Ok rmse ∧
      r2_score W y preds = Ok r2 ∧
      Qabs (R2.MAE row - mae) <= 0.0000005 ∧
      Qabs (R2.RMSE row - rmse) <= 0.0000005 ∧
      Qabs (R2.R2_Score row - r2) <= 0.00005.
Proof.
  unfold R2.notebook_on, bind.
  destruct (R2.evaluate W files s) as [s1 [[]|e]] eqn:Hrun; [|done].
  intros (-> & -> & _)%R2Spec.results_table_Ok row Hrow.
  rewrite R2Spec.sort_values_Permutation in Hrow.
  pose proof (evaluate_scored _ _ _ _ _ Hrun) as Hall.
  rewrite Forall_forall in Hall.
  destruct (Hall _ Hrow)
    as (path & y & models & preds & Hpath & Hfit & Hmp
        & mae & rmse & r2 & Hmae & Hrmse & Hr2 & Heq).
  exists path, y, models, preds, mae, rmse, r2.
  repeat (split; [done|]). rewrite Heq. cbn.
  assert (H6 : (1 # 2) / inject_Z (10 ^ Z.of_nat 6) <= 0.0000005)
    by (vm_compute; discriminate).
  assert (H4 : (1 # 2) / inject_Z (10 ^ Z.of_nat 4) <= 0.00005)
    by (vm_compute; discriminate).
  repeat split;
    (eapply Qle_trans; [apply RoundingSpec.py_round_error|done]).
Qed.

Lemma reported_scores_rounding_error_witness :
  ∃ s' table,
    R2.notebook (toy_world files) R2.init = (s', Ok table) ∧
    ∀ row, row ∈ table →
      ∃ path y models preds mae rmse r2,
        (R2.Attack row, path) ∈ R2.attack_files ∧
        R2Spec.fitted (toy_world files) path y models ∧
        (R2.Model row, preds) ∈ models ∧
        toy_mae y preds = Ok mae ∧
        toy_mean_squared_error y preds false = Ok rmse ∧
        toy_r2 y preds = Ok r2 ∧
        Qabs (R2.MAE row - mae) <= 0.0000005 ∧
        Qabs (R2.RMSE row - rmse) <= 0.0000005 ∧
        Qabs (R2.R2_Score row - r2) <= 0.00005.
Proof.
  eexists _, _. split; [vm_compute; reflexivity|].
  eapply (reported_scores_rounding_error (toy_world files) R2.attack_files
            R2.init).
  vm_compute. reflexivity.
Defined.

(** ** A metric that raises *)

(** The inner loop on models whose three metrics return. *)
Lemma score_returns (W : world) attack_name y models s :
  Forall (λ mp, ∃ row, R2Spec.scored W attack_name y mp row) models →
  ∃ rows,
    R2.score W attack_name y models s
    = (R2Spec.with_summary (R2.summary s ++ rows) s, Ok tt) ∧
    Forall2 (R2Spec.scored W attack_name y) models rows.
Proof.
  unfold R2.score. intros Hall. revert s.
  induction Hall as [|[model preds] models (row & Hrow) _ IH]; intros s.
  - exists []. rewrite app_nil_r. split; [by destruct s|constructor].
  - pose proof Hrow as (mae & rmse & r2 & Hmae & Hrmse & Hr2 & ->).
    cbn [fst snd] in *.
    rewrite for_each_cons. unfold bind, lift. rewrite Hmae, Hrmse, Hr2.
    cbn [R2.summary_append modify].
    match goal with
    | |- context [for_each models ?body ?t] =>
        destruct (IH t) as (rows & Heq & Hrows)
    end.
    eexists (_ :: rows). split.
    + etrans; [exact Heq|].
      unfold R2Spec.with_summary. cbn. by rewrite <- app_assoc.
    + by constructor.
Qed.

(** The first of the three metrics that does not return. *)
Definition metric_fails (W : world) (y preds : list Q) (e : exn) : Prop :=
  rbind (mean_absolute_error W y preds)
    (λ _, rbind (mean_squared_error W y preds false)
            (λ _, r2_score W y preds))
  = Raise e.

(** X15.  A metric that raises stops the batch too, but unlike a failing
    fit it leaves rows of its own scenario behind: the rows of the models
    that stand before the failing one in [models] are in [summary] when the
    exception leaves the notebook. *)
Theorem metric_failure_keeps_earlier_rows (W : world)
    done attack_name path rest y before model preds after e s t :
  R2.evaluate W done s = (t, Ok tt) →
  R2Spec.fitted W path y (before ++ (model, preds) :: after) →
  Forall (λ mp, ∃ row, R2Spec.scored W attack_name y mp row) before →
  metric_fails W y preds e →
  ∃ rows,
    R2.notebook_on W (done ++ (attack_name, path) :: rest) s
    = ({| R2.stdout := R2.stdout t ++ [nl +:+ " Processing: " +:+ attack_name];
          R2.summary := R2.summary t ++ rows |}, Raise e) ∧
    Forall2 (R2Spec.scored W attack_name y) before rows.
Proof.
  intros Hdone Hfit Hbefore Hfail.
  destruct (score_returns W attack_name y before
              (R2Spec.printed (R2Spec.processing_line attack_name) t) Hbefore)
    as (rows & Hscore & Hrows).
  exists rows. split; [|exact Hrows].
  unfold R2.notebook_on, bind.
  assert (R2.evaluate W (done ++ (attack_name, path) :: rest) s
          = ({| R2.stdout :=
                  R2.stdout t ++ [nl +:+ " Processing: " +:+ attack_name];
                R2.summary := R2.summary t ++ rows |}, Raise e))
    as ->; [|done].
  unfold R2.evaluate, bind in *. cbn [R2.set_summary modify] in *.
  eapply for_each_Raise; [exact Hdone|].
  rewrite (r2_process_fitted W attack_name path y _ t Hfit).
  unfold R2.score in *.
  eapply for_each_Raise; [exact Hscore|].
  unfold metric_fails in Hfail. unfold bind, lift.
  destruct (mean_absolute_error W y preds); cbn [rbind] in Hfail;
    [|by injection Hfail as ->].
  destruct (mean_squared_error W y preds false); cbn [rbind] in Hfail;
    [|by injection Hfail as ->].
  by rewrite Hfail.
Qed.

Lemma metric_failure_keeps_earlier_rows_witness :
  ∃ rows,
    R2.notebook (short_forest_world files) R2.init
    = ({| R2.stdout := [nl +:+ " Processing: " +:+ "Critical Node"];
          R2.summary := rows |},
       Raise (ValueError "inconsistent numbers of samples")) ∧
    Forall2 (R2Spec.scored (short_forest_world files) "Critical Node"
               [0.9; 0.86; 0.5])
            [("SVM (SVR)"%string, [0; 0; 0])] rows.
Proof.
  destruct (R2Spec.prepare (short_forest_world files)
              "C:/Users/Documents/AirSim/drone_simulation_log_critical_node.csv")
    as [[[[[y Xs] Xt] yt] Xr]|e] eqn:Hprep; [|vm_compute in Hprep; discriminate].
  pose proof Hprep as Heq. vm_compute in Heq.
  injection Heq as Hy HXs HXt Hyt HXr. subst y Xs Xt yt Xr.
  apply R2Spec.r2_prepare_prepared in Hprep.
  eapply (metric_failure_keeps_earlier_rows (short_forest_world files)
           [] "Critical Node"
           "C:/Users/Documents/AirSim/drone_simulation_log_critical_node.csv"
           (tail R2.attack_files) [0.9; 0.86; 0.5]
           [("SVM (SVR)"%string, [0; 0; 0])] "Random Forest" [] _
           (ValueError "inconsistent numbers of samples") R2.init R2.init).
  - reflexivity.
  - apply (R2Spec.fitted_intro (short_forest_world files) _ _ _ _ _ _
             tt (22 # 25) tt Hprep); vm_compute; reflexivity.
  - constructor; [|constructor]. eexists.
    eexists _, _, _. repeat (split; [vm_compute; reflexivity|]). reflexivity.
  - vm_compute. reflexivity.
Defined.

End BatchMore.
